(** * GearVRf draw-call batching: [Batch] (engine/renderer/batch.cpp)

    A shallow embedding of the [gvr::Batch] class and the properties of its
    merge ([add] / [updateMesh]), refresh ([setupMesh]), regeneration
    ([regenerateMeshData]) and reset ([resetBatch]) operations.

    Conventions of the embedding.
    - [int] is a 32-bit two's complement integer, [size_t] a 32-bit unsigned
      integer (ILP32, the armeabi-v7a ABI of the framework) and
      [unsigned short] a 16-bit unsigned integer.  They are carried as [Z]
      and every conversion or arithmetic result is normalised with [to_int],
      [to_size_t] or [to_ushort].  Signed overflow is rendered as wrap-around.
    - [std::vector] is a [list]; [push_back] appends at the end; [v[i]] is a
      list lookup and an out-of-range read has no result ([None]).
    - [RenderData*] is an address ([ptr]) into a store of renderables
      ([heap]); a dangling address has no result ([None]).
    - [glm::vec2], [glm::vec3], [glm::mat4] and [float] are only copied by
      this class, never computed on: they are parameters of the development,
      with the default-constructed matrix and the [int]-to-[float] conversion
      used for the matrix-index tags. *)

From Stdlib Require Import ZArith Lia.
From stdpp Require Import base option list gmap sets.

Local Open Scope Z_scope.

(** ** Machine integers *)

Definition INT_MAX : Z := 2147483647.

(** Conversion to [int]: reduction modulo 2^32 into [-2^31, 2^31). *)
Definition to_int (z : Z) : Z := (z + 2147483648) mod 4294967296 - 2147483648.

(** Conversion to [size_t]: reduction modulo 2^32 into [0, 2^32). *)
Definition to_size_t (z : Z) : Z := z mod 4294967296.

(** Conversion to [unsigned short]: reduction modulo 2^16. *)
Definition to_ushort (z : Z) : Z := z mod 65536.

(** [v.size()] of a vector. *)
Definition vsize {A : Type} (v : list A) : Z := Z.of_nat (length v).

(** [v[i]] for an [int] index: no result outside the vector. *)
Definition at_ {A : Type} (v : list A) (i : Z) : option A :=
  if i <? 0 then None else v !! Z.to_nat i.

(** [n] iterations of a loop body, the counter starting at [i]. *)
Fixpoint for_loop {S : Type} (n : nat) (i : Z) (body : Z → S → option S) (s : S)
  : option S :=
  match n with
  | O => Some s
  | S n' => s' ← body i s; for_loop n' (i + 1) body s'
  end.

(** [for (int i = 0; i < size; i++) body]. *)
Definition for_int {S : Type} (size : Z) (body : Z → S → option S) (s : S)
  : option S :=
  for_loop (Z.to_nat size) 0 body s.

(** [RenderData*]. *)
Definition ptr : Type := positive.

(** [Material::ShaderType]: the texture shader and every other technique. *)
Inductive ShaderType : Type :=
| TEXTURE_SHADER
| OTHER_SHADER (id : nat).

Definition ShaderType_eqb (a b : ShaderType) : bool :=
  match a, b with
  | TEXTURE_SHADER, TEXTURE_SHADER => true
  | OTHER_SHADER i, OTHER_SHADER j => Nat.eqb i j
  | _, _ => false
  end.

(** A [Material*]: its address and the shader type read through it. *)
Record Material : Type := {
  material_addr : positive;
  shader_type : ShaderType
}.

(** A [RenderPass*]: the material it refers to. *)
Record RenderPass : Type := {
  material : Material
}.

Section BatchModel.

Context {vec2 vec3 mat4 gl_float : Type}.
(** The value of a default-constructed [glm::mat4] (the identity). *)
Variable mat4_identity : mat4.
(** Conversion of an [int] to [float]. *)
Variable float_of_int : Z → gl_float.

(** ** Collaborators *)

(** A [Mesh]: index buffer, positions, normals and the two named attributes
    the batch reads or writes, [a_texcoord] ([getVec2Vector] /
    [setVec2Vector]) and [a_matrix_index] ([setFloatVector]). *)
Record Mesh : Type := {
  indices : list Z;
  vertices : list vec3;
  normals : list vec3;
  a_texcoord : list vec2;
  a_matrix_index : list gl_float
}.

Definition empty_Mesh : Mesh :=
  {| indices := []; vertices := []; normals := []; a_texcoord := [];
     a_matrix_index := [] |}.

(** A [Mesh*] held by a renderable: a mesh of the scene, or the address of
    the batch's own [mesh_] (what [meshInit] stores in the prototype). *)
Inductive MeshRef : Type :=
| SceneMesh (m : Mesh)
| BatchMesh.

(** The owning [SceneObject]: its [Transform*] ([None] for a null pointer,
    otherwise the model matrix), its enabled flag and the dirty flag that
    [setTransformUnDirty] clears. *)
Record SceneObject : Type := {
  transform : option mat4;
  so_enabled : bool;
  transform_dirty : bool
}.

(** A [RenderData]: what the batch reads and writes of a renderable. *)
Record RenderData : Type := {
  rd_mesh : MeshRef;
  rd_passes : list RenderPass;
  owner_object : SceneObject;
  batching : bool;
  enabled : bool;
  renderdata_dirty : bool;
  rd_batch : option positive
}.

Definition set_batching (v : bool) (rd : RenderData) : RenderData :=
  {| rd_mesh := rd_mesh rd; rd_passes := rd_passes rd;
     owner_object := owner_object rd; batching := v; enabled := enabled rd;
     renderdata_dirty := renderdata_dirty rd; rd_batch := rd_batch rd |}.

Definition set_renderdata_dirty (v : bool) (rd : RenderData) : RenderData :=
  {| rd_mesh := rd_mesh rd; rd_passes := rd_passes rd;
     owner_object := owner_object rd; batching := batching rd;
     enabled := enabled rd; renderdata_dirty := v; rd_batch := rd_batch rd |}.

Definition setBatchNull (rd : RenderData) : RenderData :=
  {| rd_mesh := rd_mesh rd; rd_passes := rd_passes rd;
     owner_object := owner_object rd; batching := batching rd;
     enabled := enabled rd; renderdata_dirty := renderdata_dirty rd;
     rd_batch := None |}.

Definition set_mesh (v : MeshRef) (rd : RenderData) : RenderData :=
  {| rd_mesh := v; rd_passes := rd_passes rd;
     owner_object := owner_object rd; batching := batching rd;
     enabled := enabled rd; renderdata_dirty := renderdata_dirty rd;
     rd_batch := rd_batch rd |}.

(** [render_data->owner_object()->setTransformUnDirty()]. *)
Definition setTransformUnDirty (rd : RenderData) : RenderData :=
  {| rd_mesh := rd_mesh rd; rd_passes := rd_passes rd;
     owner_object :=
       {| transform := transform (owner_object rd);
          so_enabled := so_enabled (owner_object rd);
          transform_dirty := false |};
     batching := batching rd; enabled := enabled rd;
     renderdata_dirty := renderdata_dirty rd; rd_batch := rd_batch rd |}.

(** ** The batch *)

Record Batch : Type := {
  vertices_ : list vec3;
  normals_ : list vec3;
  tex_coords_ : list vec2;
  indices_ : list Z;
  matrix_indices_ : list gl_float;
  matrices_ : list mat4;
  render_data_set_ : gset ptr;
  matrix_index_map_ : gmap ptr Z;
  draw_count_ : Z;
  vertex_count_ : Z;
  index_count_ : Z;
  vertex_limit_ : Z;
  indices_limit_ : Z;
  renderdata_ : option RenderData;
  mesh_init_ : bool;
  index_offset_ : Z;
  not_batched_ : bool;
  batch_dirty_ : bool;
  material_ : option Material;
  mesh_ : Mesh
}.

Definition set_vertices_ (v : list vec3) (b : Batch) : Batch :=
  {| vertices_ := v; normals_ := normals_ b; tex_coords_ := tex_coords_ b;
     indices_ := indices_ b; matrix_indices_ := matrix_indices_ b;
     matrices_ := matrices_ b; render_data_set_ := render_data_set_ b;
     matrix_index_map_ := matrix_index_map_ b; draw_count_ := draw_count_ b;
     vertex_count_ := vertex_count_ b; index_count_ := index_count_ b;
     vertex_limit_ := vertex_limit_ b; indices_limit_ := indices_limit_ b;
     renderdata_ := renderdata_ b; mesh_init_ := mesh_init_ b;
     index_offset_ := index_offset_ b; not_batched_ := not_batched_ b;
     batch_dirty_ := batch_dirty_ b; material_ := material_ b;
     mesh_ := mesh_ b |}.

Definition set_normals_ (v : list vec3) (b : Batch) : Batch :=
  {| vertices_ := vertices_ b; normals_ := v; tex_coords_ := tex_coords_ b;
     indices_ := indices_ b; matrix_indices_ := matrix_indices_ b;
     matrices_ := matrices_ b; render_data_set_ := render_data_set_ b;
     matrix_index_map_ := matrix_index_map_ b; draw_count_ := draw_count_ b;
     vertex_count_ := vertex_count_ b; index_count_ := index_count_ b;
     vertex_limit_ := vertex_limit_ b; indices_limit_ := indices_limit_ b;
     renderdata_ := renderdata_ b; mesh_init_ := mesh_init_ b;
     index_offset_ := index_offset_ b; not_batched_ := not_batched_ b;
     batch_dirty_ := batch_dirty_ b; material_ := material_ b;
     mesh_ := mesh_ b |}.

Definition set_tex_coords_ (v : list vec2) (b : Batch) : Batch :=
  {| vertices_ := vertices_ b; normals_ := normals_ b; tex_coords_ := v;
     indices_ := indices_ b; matrix_indices_ := matrix_indices_ b;
     matrices_ := matrices_ b; render_data_set_ := render_data_set_ b;
     matrix_index_map_ := matrix_index_map_ b; draw_count_ := draw_count_ b;
     vertex_count_ := vertex_count_ b; index_count_ := index_count_ b;
     vertex_limit_ := vertex_limit_ b; indices_limit_ := indices_limit_ b;
     renderdata_ := renderdata_ b; mesh_init_ := mesh_init_ b;
     index_offset_ := index_offset_ b; not_batched_ := not_batched_ b;
     batch_dirty_ := batch_dirty_ b; material_ := material_ b;
     mesh_ := mesh_ b |}.

Definition set_indices_ (v : list Z) (b : Batch) : Batch :=
  {| vertices_ := vertices_ b; normals_ := normals_ b;
     tex_coords_ := tex_coords_ b; indices_ := v;
     matrix_indices_ := matrix_indices_ b; matrices_ := matrices_ b;
     render_data_set_ := render_data_set_ b;
     matrix_index_map_ := matrix_index_map_ b; draw_count_ := draw_count_ b;
     vertex_count_ := vertex_count_ b; index_count_ := index_count_ b;
     vertex_limit_ := vertex_limit_ b; indices_limit_ := indices_limit_ b;
     renderdata_ := renderdata_ b; mesh_init_ := mesh_init_ b;
     index_offset_ := index_offset_ b; not_batched_ := not_batched_ b;
     batch_dirty_ := batch_dirty_ b; material_ := material_ b;
     mesh_ := mesh_ b |}.

Definition set_matrix_indices_ (v : list gl_float) (b : Batch) : Batch :=
  {| vertices_ := vertices_ b; normals_ := normals_ b;
     tex_coords_ := tex_coords_ b; indices_ := indices_ b;
     matrix_indices_ := v; matrices_ := matrices_ b;
     render_data_set_ := render_data_set_ b;
     matrix_index_map_ := matrix_index_map_ b; draw_count_ := draw_count_ b;
     vertex_count_ := vertex_count_ b; index_count_ := index_count_ b;
     vertex_limit_ := vertex_limit_ b; indices_limit_ := indices_limit_ b;
     renderdata_ := renderdata_ b; mesh_init_ := mesh_init_ b;
     index_offset_ := index_offset_ b; not_batched_ := not_batched_ b;
     batch_dirty_ := batch_dirty_ b; material_ := material_ b;
     mesh_ := mesh_ b |}.

Definition set_matrices_ (v : list mat4) (b : Batch) : Batch :=
  {| vertices_ := vertices_ b; normals_ := normals_ b;
     tex_coords_ := tex_coords_ b; indices_ := indices_ b;
     matrix_indices_ := matrix_indices_ b; matrices_ := v;
     render_data_set_ := render_data_set_ b;
     matrix_index_map_ := matrix_index_map_ b; draw_count_ := draw_count_ b;
     vertex_count_ := vertex_count_ b; index_count_ := index_count_ b;
     vertex_limit_ := vertex_limit_ b; indices_limit_ := indices_limit_ b;
     renderdata_ := renderdata_ b; mesh_init_ := mesh_init_ b;
     index_offset_ := index_offset_ b; not_batched_ := not_batched_ b;
     batch_dirty_ := batch_dirty_ b; material_ := material_ b;
     mesh_ := mesh_ b |}.

Definition set_render_data_set_ (v : gset ptr) (b : Batch) : Batch :=
  {| vertices_ := vertices_ b; normals_ := normals_ b;
     tex_coords_ := tex_coords_ b; indices_ := indices_ b;
     matrix_indices_ := matrix_indices_ b; matrices_ := matrices_ b;
     render_data_set_ := v; matrix_index_map_ := matrix_index_map_ b;
     draw_count_ := draw_count_ b; vertex_count_ := vertex_count_ b;
     index_count_ := index_count_ b; vertex_limit_ := vertex_limit_ b;
     indices_limit_ := indices_limit_ b; renderdata_ := renderdata_ b;
     mesh_init_ := mesh_init_ b; index_offset_ := index_offset_ b;
     not_batched_ := not_batched_ b; batch_dirty_ := batch_dirty_ b;
     material_ := material_ b; mesh_ := mesh_ b |}.

Definition set_matrix_index_map_ (v : gmap ptr Z) (b : Batch) : Batch :=
  {| vertices_ := vertices_ b; normals_ := normals_ b;
     tex_coords_ := tex_coords_ b; indices_ := indices_ b;
     matrix_indices_ := matrix_indices_ b; matrices_ := matrices_ b;
     render_data_set_ := render_data_set_ b; matrix_index_map_ := v;
     draw_count_ := draw_count_ b; vertex_count_ := vertex_count_ b;
     index_count_ := index_count_ b; vertex_limit_ := vertex_limit_ b;
     indices_limit_ := indices_limit_ b; renderdata_ := renderdata_ b;
     mesh_init_ := mesh_init_ b; index_offset_ := index_offset_ b;
     not_batched_ := not_batched_ b; batch_dirty_ := batch_dirty_ b;
     material_ := material_ b; mesh_ := mesh_ b |}.

Definition set_draw_count_ (v : Z) (b : Batch) : Batch :=
  {| vertices_ := vertices_ b; normals_ := normals_ b;
     tex_coords_ := tex_coords_ b; indices_ := indices_ b;
     matrix_indices_ := matrix_indices_ b; matrices_ := matrices_ b;
     render_data_set_ := render_data_set_ b;
     matrix_index_map_ := matrix_index_map_ b; draw_count_ := v;
     vertex_count_ := vertex_count_ b; index_count_ := index_count_ b;
     vertex_limit_ := vertex_limit_ b; indices_limit_ := indices_limit_ b;
     renderdata_ := renderdata_ b; mesh_init_ := mesh_init_ b;
     index_offset_ := index_offset_ b; not_batched_ := not_batched_ b;
     batch_dirty_ := batch_dirty_ b; material_ := material_ b;
     mesh_ := mesh_ b |}.

Definition set_vertex_count_ (v : Z) (b : Batch) : Batch :=
  {| vertices_ := vertices_ b; normals_ := normals_ b;
     tex_coords_ := tex_coords_ b; indices_ := indices_ b;
     matrix_indices_ := matrix_indices_ b; matrices_ := matrices_ b;
     render_data_set_ := render_data_set_ b;
     matrix_index_map_ := matrix_index_map_ b; draw_count_ := draw_count_ b;
     vertex_count_ := v; index_count_ := index_count_ b;
     vertex_limit_ := vertex_limit_ b; indices_limit_ := indices_limit_ b;
     renderdata_ := renderdata_ b; mesh_init_ := mesh_init_ b;
     index_offset_ := index_offset_ b; not_batched_ := not_batched_ b;
     batch_dirty_ := batch_dirty_ b; material_ := material_ b;
     mesh_ := mesh_ b |}.

Definition set_index_count_ (v : Z) (b : Batch) : Batch :=
  {| vertices_ := vertices_ b; normals_ := normals_ b;
     tex_coords_ := tex_coords_ b; indices_ := indices_ b;
     matrix_indices_ := matrix_indices_ b; matrices_ := matrices_ b;
     render_data_set_ := render_data_set_ b;
     matrix_index_map_ := matrix_index_map_ b; draw_count_ := draw_count_ b;
     vertex_count_ := vertex_count_ b; index_count_ := v;
     vertex_limit_ := vertex_limit_ b; indices_limit_ := indices_limit_ b;
     renderdata_ := renderdata_ b; mesh_init_ := mesh_init_ b;
     index_offset_ := index_offset_ b; not_batched_ := not_batched_ b;
     batch_dirty_ := batch_dirty_ b; material_ := material_ b;
     mesh_ := mesh_ b |}.

Definition set_renderdata_ (v : option RenderData) (b : Batch) : Batch :=
  {| vertices_ := vertices_ b; normals_ := normals_ b;
     tex_coords_ := tex_coords_ b; indices_ := indices_ b;
     matrix_indices_ := matrix_indices_ b; matrices_ := matrices_ b;
     render_data_set_ := render_data_set_ b;
     matrix_index_map_ := matrix_index_map_ b; draw_count_ := draw_count_ b;
     vertex_count_ := vertex_count_ b; index_count_ := index_count_ b;
     vertex_limit_ := vertex_limit_ b; indices_limit_ := indices_limit_ b;
     renderdata_ := v; mesh_init_ := mesh_init_ b;
     index_offset_ := index_offset_ b; not_batched_ := not_batched_ b;
     batch_dirty_ := batch_dirty_ b; material_ := material_ b;
     mesh_ := mesh_ b |}.

Definition set_mesh_init_ (v : bool) (b : Batch) : Batch :=
  {| vertices_ := vertices_ b; normals_ := normals_ b;
     tex_coords_ := tex_coords_ b; indices_ := indices_ b;
     matrix_indices_ := matrix_indices_ b; matrices_ := matrices_ b;
     render_data_set_ := render_data_set_ b;
     matrix_index_map_ := matrix_index_map_ b; draw_count_ := draw_count_ b;
     vertex_count_ := vertex_count_ b; index_count_ := index_count_ b;
     vertex_limit_ := vertex_limit_ b; indices_limit_ := indices_limit_ b;
     renderdata_ := renderdata_ b; mesh_init_ := v;
     index_offset_ := index_offset_ b; not_batched_ := not_batched_ b;
     batch_dirty_ := batch_dirty_ b; material_ := material_ b;
     mesh_ := mesh_ b |}.

Definition set_index_offset_ (v : Z) (b : Batch) : Batch :=
  {| vertices_ := vertices_ b; normals_ := normals_ b;
     tex_coords_ := tex_coords_ b; indices_ := indices_ b;
     matrix_indices_ := matrix_indices_ b; matrices_ := matrices_ b;
     render_data_set_ := render_data_set_ b;
     matrix_index_map_ := matrix_index_map_ b; draw_count_ := draw_count_ b;
     vertex_count_ := vertex_count_ b; index_count_ := index_count_ b;
     vertex_limit_ := vertex_limit_ b; indices_limit_ := indices_limit_ b;
     renderdata_ := renderdata_ b; mesh_init_ := mesh_init_ b;
     index_offset_ := v; not_batched_ := not_batched_ b;
     batch_dirty_ := batch_dirty_ b; material_ := material_ b;
     mesh_ := mesh_ b |}.

Definition set_not_batched_ (v : bool) (b : Batch) : Batch :=
  {| vertices_ := vertices_ b; normals_ := normals_ b;
     tex_coords_ := tex_coords_ b; indices_ := indices_ b;
     matrix_indices_ := matrix_indices_ b; matrices_ := matrices_ b;
     render_data_set_ := render_data_set_ b;
     matrix_index_map_ := matrix_index_map_ b; draw_count_ := draw_count_ b;
     vertex_count_ := vertex_count_ b; index_count_ := index_count_ b;
     vertex_limit_ := vertex_limit_ b; indices_limit_ := indices_limit_ b;
     renderdata_ := renderdata_ b; mesh_init_ := mesh_init_ b;
     index_offset_ := index_offset_ b; not_batched_ := v;
     batch_dirty_ := batch_dirty_ b; material_ := material_ b;
     mesh_ := mesh_ b |}.

Definition set_batch_dirty_ (v : bool) (b : Batch) : Batch :=
  {| vertices_ := vertices_ b; normals_ := normals_ b;
     tex_coords_ := tex_coords_ b; indices_ := indices_ b;
     matrix_indices_ := matrix_indices_ b; matrices_ := matrices_ b;
     render_data_set_ := render_data_set_ b;
     matrix_index_map_ := matrix_index_map_ b; draw_count_ := draw_count_ b;
     vertex_count_ := vertex_count_ b; index_count_ := index_count_ b;
     vertex_limit_ := vertex_limit_ b; indices_limit_ := indices_limit_ b;
     renderdata_ := renderdata_ b; mesh_init_ := mesh_init_ b;
     index_offset_ := index_offset_ b; not_batched_ := not_batched_ b;
     batch_dirty_ := v; material_ := material_ b; mesh_ := mesh_ b |}.

Definition set_material_ (v : option Material) (b : Batch) : Batch :=
  {| vertices_ := vertices_ b; normals_ := normals_ b;
     tex_coords_ := tex_coords_ b; indices_ := indices_ b;
     matrix_indices_ := matrix_indices_ b; matrices_ := matrices_ b;
     render_data_set_ := render_data_set_ b;
     matrix_index_map_ := matrix_index_map_ b; draw_count_ := draw_count_ b;
     vertex_count_ := vertex_count_ b; index_count_ := index_count_ b;
     vertex_limit_ := vertex_limit_ b; indices_limit_ := indices_limit_ b;
     renderdata_ := renderdata_ b; mesh_init_ := mesh_init_ b;
     index_offset_ := index_offset_ b; not_batched_ := not_batched_ b;
     batch_dirty_ := batch_dirty_ b; material_ := v; mesh_ := mesh_ b |}.

Definition set_mesh_ (v : Mesh) (b : Batch) : Batch :=
  {| vertices_ := vertices_ b; normals_ := normals_ b;
     tex_coords_ := tex_coords_ b; indices_ := indices_ b;
     matrix_indices_ := matrix_indices_ b; matrices_ := matrices_ b;
     render_data_set_ := render_data_set_ b;
     matrix_index_map_ := matrix_index_map_ b; draw_count_ := draw_count_ b;
     vertex_count_ := vertex_count_ b; index_count_ := index_count_ b;
     vertex_limit_ := vertex_limit_ b; indices_limit_ := indices_limit_ b;
     renderdata_ := renderdata_ b; mesh_init_ := mesh_init_ b;
     index_offset_ := index_offset_ b; not_batched_ := not_batched_ b;
     batch_dirty_ := batch_dirty_ b; material_ := material_ b; mesh_ := v |}.

(** The member initialisers of [Batch::Batch(int no_vertices, int no_indices)];
    [material_] and [mesh_] are default-initialised. *)
Definition empty_batch (no_vertices no_indices : Z) : Batch :=
  {| vertices_ := []; normals_ := []; tex_coords_ := []; indices_ := [];
     matrix_indices_ := []; matrices_ := []; render_data_set_ := ∅;
     matrix_index_map_ := ∅; draw_count_ := 0; vertex_count_ := 0;
     index_count_ := 0; vertex_limit_ := no_vertices;
     indices_limit_ := no_indices; renderdata_ := None;
     mesh_init_ := false; index_offset_ := 0; not_batched_ := false;
     batch_dirty_ := false; material_ := None; mesh_ := empty_Mesh |}.

(** [Batch::Batch].  The body reserves the buffers: [reserve] of a negative
    [int], converted to a huge [size_t], throws [std::length_error] and no
    batch is constructed. *)
Definition Batch_ctor (no_vertices no_indices : Z) : option Batch :=
  if (no_vertices <? 0) || (no_indices <? 0) then None
  else Some (empty_batch no_vertices no_indices).

(** Dereference of a [Mesh*] from inside the batch. *)
Definition resolve_mesh (b : Batch) (r : MeshRef) : Mesh :=
  match r with
  | SceneMesh m => m
  | BatchMesh => mesh_ b
  end.

(** [Batch::updateMesh].  The three loops run on an [int] bound taken from a
    [size_t]; [tex_cords[i]] is read for every vertex.  The function has no
    [return] statement and both callers ignore its value. *)
Definition updateMesh (b : Batch) (render_mesh : Mesh) : option Batch :=
  let indices := indices render_mesh in
  let vertices := vertices render_mesh in
  let normals := normals render_mesh in
  let tex_cords := a_texcoord render_mesh in
  let size := to_int (vsize vertices) in
  b ← for_int size (λ i b,
         v ← at_ vertices i;
         let b := set_vertices_ (vertices_ b ++ [v]) b in
         let b := set_matrix_indices_
                    (matrix_indices_ b ++ [float_of_int (draw_count_ b)]) b in
         t ← at_ tex_cords i;
         Some (set_tex_coords_ (tex_coords_ b ++ [t]) b)) b;
  b ← (if vsize normals >? 0 then
         let normals_size := to_int (vsize normals) in
         for_int normals_size (λ i b,
           n ← at_ normals i;
           Some (set_normals_ (normals_ b ++ [n]) b)) b
       else Some b);
  let size := to_int (vsize indices) in
  let b := set_index_count_ (to_int (index_count_ b + size)) b in
  b ← for_int size (λ i b,
         index ← at_ indices i;
         let index := to_ushort (to_int (index + index_offset_ b)) in
         Some (set_indices_ (indices_ b ++ [index]) b)) b;
  let b := set_vertex_count_
             (to_int (to_size_t (to_size_t (vertex_count_ b) + vsize vertices))) b in
  let b := set_index_offset_
             (to_int (to_size_t (to_size_t (index_offset_ b) + vsize vertices))) b in
  let b := set_draw_count_ (to_int (draw_count_ b + 1)) b in
  Some (set_mesh_init_ false b).

(** [Batch::clearData]. *)
Definition clearData (b : Batch) : Batch :=
  {| vertices_ := []; normals_ := []; tex_coords_ := []; indices_ := [];
     matrix_indices_ := []; matrices_ := [];
     render_data_set_ := render_data_set_ b; matrix_index_map_ := ∅;
     draw_count_ := 0; vertex_count_ := 0; index_count_ := 0;
     vertex_limit_ := vertex_limit_ b; indices_limit_ := indices_limit_ b;
     renderdata_ := renderdata_ b; mesh_init_ := false; index_offset_ := 0;
     not_batched_ := not_batched_ b; batch_dirty_ := false;
     material_ := material_ b; mesh_ := mesh_ b |}.

(** [Batch::meshInit]: the merged mesh is rebuilt from the buffers and the
    prototype, when there is one, is pointed at it. *)
Definition meshInit (b : Batch) : Batch :=
  let b := set_mesh_init_ true b in
  let b := set_mesh_
             {| indices := indices_ b; vertices := vertices_ b;
                normals := normals_ b; a_texcoord := tex_coords_ b;
                a_matrix_index := matrix_indices_ b |} b in
  match renderdata_ b with
  | Some proto => set_renderdata_ (Some (set_mesh BatchMesh proto)) b
  | None => b
  end.

(** ** The batch among the renderables *)

(** The store of renderables, the batch, and the number of
    [gRenderer->freeBatch(this)] notifications received by the pool owner. *)
Record State : Type := {
  heap : gmap ptr RenderData;
  this : Batch;
  freeBatch_calls : nat
}.

Definition set_heap (h : gmap ptr RenderData) (st : State) : State :=
  {| heap := h; this := this st; freeBatch_calls := freeBatch_calls st |}.

Definition set_this (b : Batch) (st : State) : State :=
  {| heap := heap st; this := b; freeBatch_calls := freeBatch_calls st |}.

(** The loop over the passes of [Batch::add]: is there a pass whose material
    is not a texture shader? *)
Definition has_non_texture_pass (rd : RenderData) : bool :=
  existsb (λ p, negb (ShaderType_eqb (shader_type (material p)) TEXTURE_SHADER))
          (rd_passes rd).

(** [t != NULL ? glm::mat4(t->getModelMatrix()) : glm::mat4()]. *)
Definition model_matrix_of (rd : RenderData) : mat4 :=
  match transform (owner_object rd) with
  | Some m => m
  | None => mat4_identity
  end.

(** The capacity test of [Batch::add], in [size_t] arithmetic. *)
Definition over_capacity (b : Batch) (indices : list Z) : bool :=
  (vsize indices =? 0)
  || (to_size_t (vsize indices + to_size_t (index_count_ b))
      >? to_size_t (indices_limit_ b)).

(** [Batch::add].  [getHashCode] only fills a cache of the renderable and its
    result is dropped. *)
Definition add (render_data : ptr) (st : State) : option (bool * State) :=
  rd ← heap st !! render_data;
  pass0 ← rd_passes rd !! 0%nat;
  let b := set_material_ (Some (material pass0)) (this st) in
  let render_mesh := resolve_mesh b (rd_mesh rd) in
  let indices := indices render_mesh in
  let model_matrix := model_matrix_of rd in
  let rd := set_renderdata_dirty false rd in
  let b := set_matrix_index_map_
             (<[render_data := draw_count_ b]> (matrix_index_map_ b)) b in
  let b := set_matrices_ (matrices_ b ++ [model_matrix]) b in
  let rd := setTransformUnDirty rd in
  if negb (batching rd) then
    let b := set_render_data_set_ ({[render_data]} ∪ render_data_set_ b) b in
    let b := set_not_batched_ true b in
    Some (true, set_this b (set_heap (<[render_data := rd]> (heap st)) st))
  else if has_non_texture_pass rd then
    let b := set_render_data_set_ ({[render_data]} ∪ render_data_set_ b) b in
    Some (true, set_this b (set_heap (<[render_data := rd]> (heap st)) st))
  else if over_capacity b indices then
    if draw_count_ b >? 0 then
      Some (false, set_this b (set_heap (<[render_data := rd]> (heap st)) st))
    else
      let b := set_render_data_set_ ({[render_data]} ∪ render_data_set_ b) b in
      let rd := set_batching false rd in
      let b := set_not_batched_ true b in
      Some (true, set_this b (set_heap (<[render_data := rd]> (heap st)) st))
  else
    let b :=
      if draw_count_ b =? 0 then
        match renderdata_ b with
        | None => set_renderdata_ (Some (set_batching true rd)) b
        | Some _ => b
        end
      else b in
    let b := set_render_data_set_ ({[render_data]} ∪ render_data_set_ b) b in
    b ← updateMesh b render_mesh;
    Some (true, set_this b (set_heap (<[render_data := rd]> (heap st)) st)).

(** [Batch::isRenderModified]: the scan of the tracking set, in iteration
    order [its]. *)
Fixpoint isRenderModified_loop (its : list ptr) (update_vbo : bool) (st : State)
  : option (bool * State) :=
  match its with
  | [] => Some (update_vbo, st)
  | it :: its =>
      rd ← heap st !! it;
      if negb (enabled rd) || negb (so_enabled (owner_object rd)) then
        let rd := set_batching false rd in
        let rd := setBatchNull rd in
        let b := set_render_data_set_ (render_data_set_ (this st) ∖ {[it]})
                   (this st) in
        isRenderModified_loop its true
          (set_this b (set_heap (<[it := rd]> (heap st)) st))
      else isRenderModified_loop its update_vbo st
  end.

Definition isRenderModified (st : State) : option (bool * State) :=
  isRenderModified_loop (elements (render_data_set_ (this st))) false st.

(** [Batch::resetBatch]. *)
Definition resetBatch (st : State) : State :=
  let b := clearData (this st) in
  let b := set_renderdata_ None b in
  {| heap := heap st; this := b; freeBatch_calls := S (freeBatch_calls st) |}.

(** The body of the loop of [Batch::regenerateMeshData]. *)
Definition regenerate_step (heap : gmap ptr RenderData) (b : Batch) (it : ptr)
  : option Batch :=
  render_data ← heap !! it;
  let render_mesh := resolve_mesh b (rd_mesh render_data) in
  let model_matrix := model_matrix_of render_data in
  let b := set_matrix_index_map_
             (<[it := draw_count_ b]> (matrix_index_map_ b)) b in
  let b := set_matrices_ (matrices_ b ++ [model_matrix]) b in
  updateMesh b render_mesh.

Fixpoint regenerate_loop (heap : gmap ptr RenderData) (its : list ptr) (b : Batch)
  : option Batch :=
  match its with
  | [] => Some b
  | it :: its => b ← regenerate_step heap b it; regenerate_loop heap its b
  end.

(** [Batch::regenerateMeshData]. *)
Definition regenerateMeshData (st : State) : option State :=
  let b := clearData (this st) in
  b ← regenerate_loop (heap st) (elements (render_data_set_ b)) b;
  Some (set_this b st).

(** [Batch::setupMesh]. *)
Definition setupMesh (batch_dirty : bool) (st : State) : option (bool * State) :=
  '(update_vbo, st) ← isRenderModified st;
  if (0 =? Z.of_nat (size (render_data_set_ (this st)))) then
    Some (false, resetBatch st)
  else
    st ← (if batch_dirty || update_vbo then regenerateMeshData st else Some st);
    let st := set_this (set_batch_dirty_ false (this st)) st in
    let st := if negb (mesh_init_ (this st))
              then set_this (meshInit (this st)) st else st in
    Some (true, st).

(** ** Histories of a batch *)

(** States reached from a constructed batch by calls of [add], the scene
    being free to change the renderables between two calls. *)
Inductive add_reachable (no_vertices no_indices : Z) : State → Prop :=
| ar_ctor h b n :
    no_indices ≤ INT_MAX →
    Batch_ctor no_vertices no_indices = Some b →
    add_reachable no_vertices no_indices
      {| heap := h; this := b; freeBatch_calls := n |}
| ar_add st render_data r st' :
    add_reachable no_vertices no_indices st →
    add render_data st = Some (r, st') →
    add_reachable no_vertices no_indices st'
| ar_scene st h :
    add_reachable no_vertices no_indices st →
    add_reachable no_vertices no_indices (set_heap h st).

(** States reached from a constructed batch by calls of [add] and
    [setupMesh], with the same freedom for the scene. *)
Inductive reachable : State → Prop :=
| reach_ctor no_vertices no_indices h b n :
    Batch_ctor no_vertices no_indices = Some b →
    reachable {| heap := h; this := b; freeBatch_calls := n |}
| reach_add st render_data r st' :
    reachable st →
    add render_data st = Some (r, st') →
    reachable st'
| reach_setupMesh st batch_dirty r st' :
    reachable st →
    setupMesh batch_dirty st = Some (r, st') →
    reachable st'
| reach_scene st h :
    reachable st →
    reachable (set_heap h st).

(** ** Closed forms used by the proofs *)

(** The bookkeeping that opens [add] (lines 79 to 94), on the batch and on
    the renderable. *)
Definition bookkept (render_data : ptr) (rd : RenderData) (pass0 : RenderPass)
    (b : Batch) : Batch :=
  set_matrices_ (matrices_ b ++ [model_matrix_of rd])
    (set_matrix_index_map_ (<[render_data := draw_count_ b]> (matrix_index_map_ b))
       (set_material_ (Some (material pass0)) b)).

Definition synced (rd : RenderData) : RenderData :=
  setTransformUnDirty (set_renderdata_dirty false rd).

(** Insertion into the tracking set, the prototype cloned by the first
    merge, and the state [add] hands back. *)
Definition tracked (render_data : ptr) (b : Batch) : Batch :=
  set_render_data_set_ ({[render_data]} ∪ render_data_set_ b) b.

Definition with_prototype (rd : RenderData) (b : Batch) : Batch :=
  if draw_count_ b =? 0 then
    match renderdata_ b with
    | None => set_renderdata_ (Some (set_batching true rd)) b
    | Some _ => b
    end
  else b.

Definition stored (render_data : ptr) (rd : RenderData) (b : Batch) (st : State)
  : State :=
  set_this b (set_heap (<[render_data := rd]> (heap st)) st).

(** The mesh of the renderable at an address (the empty mesh when the
    address is dangling). *)
Definition mesh_at (h : gmap ptr RenderData) (b : Batch) (q : ptr) : Mesh :=
  match h !! q with
  | Some rd => resolve_mesh b (rd_mesh rd)
  | None => empty_Mesh
  end.

(** Is the renderable at an address disabled, itself or through its owner? *)
Definition disabled (h : gmap ptr RenderData) (q : ptr) : bool :=
  match h !! q with
  | Some rd => negb (enabled rd) || negb (so_enabled (owner_object rd))
  | None => false
  end.

(** The last steps of [setupMesh] on an active batch (lines 191 to 193). *)
Definition refreshed (st : State) : State :=
  let st := set_this (set_batch_dirty_ false (this st)) st in
  if negb (mesh_init_ (this st)) then set_this (meshInit (this st)) st else st.

(** What the scan does to an evicted renderable. *)
Definition evicted (rd : RenderData) : RenderData :=
  setBatchNull (set_batching false rd).

(** The matrix-index tags of successive merges, [k] being the draw slot of
    the first one and [ns] the vertex counts. *)
Fixpoint slot_tags (k : nat) (ns : list nat) : list gl_float :=
  match ns with
  | [] => []
  | n :: ns => replicate n (float_of_int (to_int (Z.of_nat k))) ++ slot_tags (S k) ns
  end.

(** The draw counter, the transform sequence and the matrix-index buffer of
    a batch agree: the buffer is made of one block per merge, the block of
    slot [j] holds the tag [j] only, [draw_count_] counts the blocks and
    [matrices_] has at least as many entries. *)
Definition slots_agree (b : Batch) : Prop :=
  ∃ ns : list nat,
    draw_count_ b = to_int (Z.of_nat (length ns))
    ∧ (length ns ≤ length (matrices_ b))%nat
    ∧ matrix_indices_ b = slot_tags 0 ns.

(** The texture coordinates [updateMesh] reads from a mesh: one per vertex. *)
Definition read_texcoords (m : Mesh) : list vec2 :=
  take (length (vertices m)) (a_texcoord m).

(** Every index of a mesh points at one of its own vertices. *)
Definition mesh_indices_valid (m : Mesh) : Prop :=
  Forall (λ i, 0 ≤ i < vsize (vertices m)) (indices m).

(** Every index of the merged index buffer points into the merged vertex
    buffer, whose length the vertex counter and the index offset both hold. *)
Definition indices_in_range (b : Batch) : Prop :=
  index_offset_ b = vertex_count_ b
  ∧ vertex_count_ b = vsize (vertices_ b)
  ∧ Forall (λ i, 0 ≤ i < vertex_count_ b) (indices_ b).

(** The index buffer of successive merges, [off] being the index offset of
    the first one. *)
Fixpoint offset_indices (off : Z) (ms : list Mesh) : list Z :=
  match ms with
  | [] => []
  | m :: ms =>
      map (λ i, to_ushort (to_int (i + off))) (indices m)
      ++ offset_indices (to_int (off + vsize (vertices m))) ms
  end.


(** The shape of every result of [updateMesh]: the buffers grow at the end,
    the counters advance and the merged mesh is marked stale. *)
Definition appended (b : Batch) (vs ns : list vec3) (ts : list vec2)
    (ixs : list Z) (tags : list gl_float) (nv ni : Z) : Batch :=
  {| vertices_ := vertices_ b ++ vs;
     normals_ := normals_ b ++ ns;
     tex_coords_ := tex_coords_ b ++ ts;
     indices_ := indices_ b ++ ixs;
     matrix_indices_ := matrix_indices_ b ++ tags;
     matrices_ := matrices_ b;
     render_data_set_ := render_data_set_ b;
     matrix_index_map_ := matrix_index_map_ b;
     draw_count_ := to_int (draw_count_ b + 1);
     vertex_count_ := to_int (vertex_count_ b + nv);
     index_count_ := to_int (index_count_ b + ni);
     vertex_limit_ := vertex_limit_ b;
     indices_limit_ := indices_limit_ b;
     renderdata_ := renderdata_ b;
     mesh_init_ := false;
     index_offset_ := to_int (index_offset_ b + nv);
     not_batched_ := not_batched_ b;
     batch_dirty_ := batch_dirty_ b;
     material_ := material_ b;
     mesh_ := mesh_ b |}.

(** A mesh that [updateMesh] reads within bounds and whose sizes are [int]s. *)
Definition mesh_ok (m : Mesh) : Prop :=
  vsize (vertices m) ≤ INT_MAX ∧ vsize (normals m) ≤ INT_MAX
  ∧ vsize (indices m) ≤ INT_MAX
  ∧ (length (vertices m) ≤ length (a_texcoord m))%nat.

(** What [updateMesh] computes on such a mesh. *)
Definition merged (b : Batch) (m : Mesh) : Batch :=
  {| vertices_ := vertices_ b ++ vertices m;
     normals_ := normals_ b ++ normals m;
     tex_coords_ := tex_coords_ b ++ take (length (vertices m)) (a_texcoord m);
     indices_ :=
       indices_ b ++ map (λ i, to_ushort (to_int (i + index_offset_ b))) (indices m);
     matrix_indices_ :=
       matrix_indices_ b
       ++ replicate (length (vertices m)) (float_of_int (draw_count_ b));
     matrices_ := matrices_ b;
     render_data_set_ := render_data_set_ b;
     matrix_index_map_ := matrix_index_map_ b;
     draw_count_ := to_int (draw_count_ b + 1);
     vertex_count_ := to_int (vertex_count_ b + vsize (vertices m));
     index_count_ := to_int (index_count_ b + vsize (indices m));
     vertex_limit_ := vertex_limit_ b;
     indices_limit_ := indices_limit_ b;
     renderdata_ := renderdata_ b;
     mesh_init_ := false;
     index_offset_ := to_int (index_offset_ b + vsize (vertices m));
     not_batched_ := not_batched_ b;
     batch_dirty_ := batch_dirty_ b;
     material_ := material_ b;
     mesh_ := mesh_ b |}.

(** ** The rest of the class *)

(** [Batch::~Batch]: the members when the body of the destructor ends. *)
Definition Batch_dtor (b : Batch) : Batch :=
  let b := clearData b in
  set_renderdata_ None b.

(** The mesh that [meshInit] builds from the buffers. *)
Definition buffers_mesh (b : Batch) : Mesh :=
  {| indices := indices_ b; vertices := vertices_ b; normals := normals_ b;
     a_texcoord := tex_coords_ b; a_matrix_index := matrix_indices_ b |}.

(** The merged mesh, when marked initialised, holds the buffers, and the
    prototype, when there is one, points at it. *)
Definition mesh_cached (b : Batch) : Prop :=
  mesh_init_ b = true →
  mesh_ b = buffers_mesh b
  ∧ ∀ proto, renderdata_ b = Some proto → rd_mesh proto = BatchMesh.

(** The model matrix [regenerateMeshData] and [add] read for the renderable at
    an address (the default matrix when the address is dangling). *)
Definition model_matrix_at (h : gmap ptr RenderData) (q : ptr) : mat4 :=
  match h !! q with
  | Some rd => model_matrix_of rd
  | None => mat4_identity
  end.

(** The sum of an [int]-valued measure over meshes. *)
Definition total (f : Mesh → Z) (ms : list Mesh) : Z :=
  foldr (λ m acc, f m + acc) 0 ms.

(** The per-vertex buffers have one entry per vertex, and the index offset is
    the vertex counter. *)
Definition buffers_parallel (b : Batch) : Prop :=
  length (tex_coords_ b) = length (vertices_ b)
  ∧ length (matrix_indices_ b) = length (vertices_ b)
  ∧ index_offset_ b = vertex_count_ b.

End BatchModel.

Arguments Mesh : clear implicits.
Arguments MeshRef : clear implicits.
Arguments SceneObject : clear implicits.
Arguments RenderData : clear implicits.
Arguments Batch : clear implicits.
Arguments State : clear implicits.

(** * A small scene

    Concrete renderables for the worked scenarios.  Coordinates are integer
    triples, matrices are lists of sixteen integers and the matrix-index tags
    are the integers themselves (small integers convert to [float] exactly). *)

Module Scene.

Definition vec2 : Type := Z * Z.
Definition vec3 : Type := Z * Z * Z.
Definition mat4 : Type := list Z.
Definition gl_float : Type := Z.

Definition identity : mat4 := [1; 0; 0; 0; 0; 1; 0; 0; 0; 0; 1; 0; 0; 0; 0; 1].
Definition float_of_int (z : Z) : gl_float := z.

Definition texture_pass (addr : positive) : RenderPass :=
  {| material := {| material_addr := addr; shader_type := TEXTURE_SHADER |} |}.

Definition phong_pass (addr : positive) : RenderPass :=
  {| material := {| material_addr := addr; shader_type := OTHER_SHADER 1 |} |}.

(** A quad: 4 vertices, 6 indices, no normals. *)
Definition quad : Mesh vec2 vec3 gl_float :=
  {| indices := [0; 1; 2; 2; 3; 0];
     vertices := [(0, 0, 0); (1, 0, 0); (1, 1, 0); (0, 1, 0)];
     normals := [];
     a_texcoord := [(0, 0); (1, 0); (1, 1); (0, 1)];
     a_matrix_index := [] |}.

(** Two quads in one mesh: 8 vertices, 12 indices. *)
Definition two_quads : Mesh vec2 vec3 gl_float :=
  {| indices := [0; 1; 2; 2; 3; 0; 4; 5; 6; 6; 7; 4];
     vertices := [(0, 0, 0); (1, 0, 0); (1, 1, 0); (0, 1, 0);
                  (0, 0, 1); (1, 0, 1); (1, 1, 1); (0, 1, 1)];
     normals := [];
     a_texcoord := [(0, 0); (1, 0); (1, 1); (0, 1); (0, 0); (1, 0); (1, 1); (0, 1)];
     a_matrix_index := [] |}.

(** A point cloud drawn as one triangle: 7 vertices, 3 indices. *)
Definition cloud : Mesh vec2 vec3 gl_float :=
  {| indices := [0; 1; 2];
     vertices := [(0, 0, 0); (1, 0, 0); (2, 0, 0); (3, 0, 0);
                  (4, 0, 0); (5, 0, 0); (6, 0, 0)];
     normals := [];
     a_texcoord := [(0, 0); (1, 0); (2, 0); (3, 0); (4, 0); (5, 0); (6, 0)];
     a_matrix_index := [] |}.

(** A segment pair: 2 vertices, indices 0 and 1. *)
Definition segment : Mesh vec2 vec3 gl_float :=
  {| indices := [0; 1];
     vertices := [(0, 0, 0); (1, 0, 0)];
     normals := [];
     a_texcoord := [(0, 0); (1, 0)];
     a_matrix_index := [] |}.

Definition renderable (m : Mesh vec2 vec3 gl_float) (passes : list RenderPass)
    (batching_flag : bool) : RenderData vec2 vec3 mat4 gl_float :=
  {| rd_mesh := SceneMesh m;
     rd_passes := passes;
     owner_object :=
       {| transform := None; so_enabled := true; transform_dirty := true |};
     batching := batching_flag;
     enabled := true;
     renderdata_dirty := true;
     rd_batch := Some 1%positive |}.

Definition disable (rd : RenderData vec2 vec3 mat4 gl_float)
  : RenderData vec2 vec3 mat4 gl_float :=
  {| rd_mesh := rd_mesh rd; rd_passes := rd_passes rd;
     owner_object := owner_object rd; batching := batching rd;
     enabled := false; renderdata_dirty := renderdata_dirty rd;
     rd_batch := rd_batch rd |}.

(** The renderables of the scenarios: [A] and [B] are quads with their own
    texture materials, [C] opts out of batching, [D] has 12 indices, [E] has
    7 vertices and [F] has a pass that is not a texture shader. *)
Definition A := renderable quad [texture_pass 11] true.
Definition B := renderable quad [texture_pass 12] true.
Definition C := renderable quad [texture_pass 13] false.
Definition D := renderable two_quads [texture_pass 14] true.
Definition E := renderable cloud [texture_pass 15] true.
Definition F := renderable quad [texture_pass 16; phong_pass 17] true.

Definition pA : ptr := 1%positive.
Definition pB : ptr := 2%positive.
Definition pC : ptr := 3%positive.
Definition pD : ptr := 4%positive.
Definition pE : ptr := 5%positive.
Definition pF : ptr := 6%positive.

Definition scene : gmap ptr (RenderData vec2 vec3 mat4 gl_float) :=
  <[pA := A]> (<[pB := B]> (<[pC := C]> (<[pD := D]> (<[pE := E]> (<[pF := F]> ∅))))).

(** A batch of capacity 6 vertices and 10 indices, just constructed. *)
Definition start : State vec2 vec3 mat4 gl_float :=
  {| heap := scene; this := empty_batch 6 10; freeBatch_calls := 0 |}.

(** A batch that already holds 65535 vertices (the buffers themselves are
    left out), as far as the index offset is concerned. *)
Definition wide : Batch vec2 vec3 mat4 gl_float :=
  set_index_offset_ 65535 (set_vertex_count_ 65535 (empty_batch 70000 70000)).

Definition add := add (vec2 := vec2) (vec3 := vec3) identity float_of_int.
Definition setupMesh := setupMesh (vec2 := vec2) (vec3 := vec3) identity float_of_int.
Definition updateMesh :=
  updateMesh (vec2 := vec2) (vec3 := vec3) (mat4 := mat4) float_of_int.
Definition regenerateMeshData :=
  regenerateMeshData (vec2 := vec2) (vec3 := vec3) identity float_of_int.

(** The same scene with a batch of capacity 100 vertices and 100 indices. *)
Definition roomy : State vec2 vec3 mat4 gl_float :=
  {| heap := scene; this := empty_batch 100 100; freeBatch_calls := 0 |}.

(** The scene disables the renderable at an address. *)
Definition disable_at (q : ptr) (st : State vec2 vec3 mat4 gl_float)
  : State vec2 vec3 mat4 gl_float :=
  set_heap (alter disable q (heap st)) st.

(** The state after a call that returned, [start] otherwise. *)
Definition after (r : option (bool * State vec2 vec3 mat4 gl_float))
  : State vec2 vec3 mat4 gl_float :=
  match r with
  | Some (_, st) => st
  | None => start
  end.

(** [A] alone in the batch of capacity 6 and 10. *)
Definition with_A : State vec2 vec3 mat4 gl_float := after (add pA start).

(** [A] alone, refreshed once, then disabled by the scene. *)
Definition A_disabled : State vec2 vec3 mat4 gl_float :=
  disable_at pA (after (setupMesh false with_A)).

(** [A] and [B] in the roomy batch, then [B] disabled by the scene. *)
Definition B_disabled : State vec2 vec3 mat4 gl_float :=
  disable_at pB (after (add pB (after (add pA roomy)))).

(** [C], which opts out of batching, tracked alone. *)
Definition with_C : State vec2 vec3 mat4 gl_float := after (add pC start).


(** A triangle whose texture coordinates stop after the first vertex. *)
Definition bare : Mesh vec2 vec3 gl_float :=
  {| indices := [0; 1; 2];
     vertices := [(0, 0, 0); (1, 0, 0); (0, 1, 0)];
     normals := [];
     a_texcoord := [(0, 0)];
     a_matrix_index := [] |}.

(** [A] alone, then [A] and [B], in the roomy batch. *)
Definition roomy_A : State vec2 vec3 mat4 gl_float := after (add pA roomy).
Definition A_and_B : State vec2 vec3 mat4 gl_float := after (add pB roomy_A).

(** [C] tracked unbatched, then [A] merged, in the batch of capacity 6 and
    10. *)
Definition C_and_A : State vec2 vec3 mat4 gl_float := after (add pA with_C).

(** The batch of [A_disabled] after the scan has dropped its only member. *)
Definition emptied : State vec2 vec3 mat4 gl_float :=
  after (isRenderModified A_disabled).

End Scene.

Arguments to_int : simpl never.
Arguments to_size_t : simpl never.
Arguments to_ushort : simpl never.
Arguments vsize : simpl never.

(** ** Reduction of field accesses *)

Ltac batch_fields :=
  cbn [set_vertices_ set_normals_ set_tex_coords_ set_indices_
       set_matrix_indices_ set_matrices_ set_render_data_set_ set_matrix_index_map_
       set_draw_count_ set_vertex_count_ set_index_count_ set_renderdata_
       set_mesh_init_ set_index_offset_ set_not_batched_ set_batch_dirty_
       set_material_ set_mesh_
       vertices_ normals_ tex_coords_ indices_ matrix_indices_
       matrices_ render_data_set_ matrix_index_map_ draw_count_ vertex_count_
       index_count_ vertex_limit_ indices_limit_ renderdata_ mesh_init_
       index_offset_ not_batched_ batch_dirty_ material_ mesh_
       set_heap set_this heap this freeBatch_calls
       set_batching set_renderdata_dirty setBatchNull set_mesh setTransformUnDirty
       rd_mesh rd_passes owner_object batching enabled renderdata_dirty rd_batch
       transform so_enabled transform_dirty
       indices vertices normals a_texcoord a_matrix_index] in *.

Ltac batch_unfold :=
  unfold stored, tracked, bookkept, appended, synced, resetBatch, clearData,
    meshInit, empty_batch in *;
  batch_fields.

Ltac concrete :=
  repeat first
    [ apply Forall_nil_2 | apply Forall_cons_2 | split | reflexivity
    | (let H := fresh in intro H; discriminate H) | apply le_n | apply le_S
    | (right; reflexivity) | (left; reflexivity) ].

(** * Properties *)

(** ** Machine integers *)

Lemma to_int_id z : -2147483648 ≤ z ≤ INT_MAX → to_int z = z.
Proof.
  unfold to_int, INT_MAX. intros Hz.
  rewrite Z.mod_small; lia.
Qed.

Lemma to_int_range z : -2147483648 ≤ to_int z ≤ INT_MAX.
Proof.
  unfold to_int, INT_MAX.
  pose proof (Z.mod_pos_bound (z + 2147483648) 4294967296). lia.
Qed.

Lemma to_int_size_t a n : to_int (to_size_t (to_size_t a + n)) = to_int (a + n).
Proof. unfold to_int, to_size_t. Z.div_mod_to_equations. lia. Qed.

Lemma to_ushort_to_int z : to_ushort (to_int z) = z mod 65536.
Proof. unfold to_ushort, to_int. Z.div_mod_to_equations. lia. Qed.

Lemma to_ushort_range z : 0 ≤ to_ushort z < 65536.
Proof. unfold to_ushort. apply Z.mod_pos_bound. lia. Qed.

Lemma to_ushort_le z : 0 ≤ z → to_ushort z ≤ z.
Proof. unfold to_ushort. intros Hz. apply Z.mod_le; lia. Qed.

(** ** Loops *)

Lemma at_lookup {A} (v : list A) (i : Z) :
  0 ≤ i → at_ v i = v !! Z.to_nat i.
Proof. intros Hi. unfold at_. destruct (Z.ltb_spec i 0); [lia | done]. Qed.

Lemma Z_to_nat_succ i : 0 ≤ i → Z.to_nat (i + 1) = S (Z.to_nat i).
Proof. lia. Qed.

Section BatchProofs.

Context {vec2 vec3 mat4 gl_float : Type}.
Variable mat4_identity : mat4.
Variable float_of_int : Z → gl_float.

Abbreviation Mesh := (Mesh vec2 vec3 gl_float).
Abbreviation RenderData := (RenderData vec2 vec3 mat4 gl_float).
Abbreviation Batch := (Batch vec2 vec3 mat4 gl_float).
Abbreviation State := (State vec2 vec3 mat4 gl_float).
Abbreviation updateMesh := (updateMesh float_of_int).
Abbreviation merged := (merged float_of_int).
Abbreviation appended := (@appended vec2 vec3 mat4 gl_float).
Abbreviation add := (add mat4_identity float_of_int).
Abbreviation regenerate_step := (regenerate_step mat4_identity float_of_int).
Abbreviation regenerate_loop := (regenerate_loop mat4_identity float_of_int).
Abbreviation regenerateMeshData := (regenerateMeshData mat4_identity float_of_int).
Abbreviation setupMesh := (setupMesh mat4_identity float_of_int).
Abbreviation model_matrix_of := (model_matrix_of mat4_identity).
Abbreviation add_reachable := (add_reachable mat4_identity float_of_int).
Abbreviation reachable := (reachable mat4_identity float_of_int).
Abbreviation bookkept := (bookkept mat4_identity).
Abbreviation tracked := (@tracked vec2 vec3 mat4 gl_float).
Abbreviation stored := (@stored vec2 vec3 mat4 gl_float).
Abbreviation with_prototype := (@with_prototype vec2 vec3 mat4 gl_float).
Abbreviation synced := (@synced vec2 vec3 mat4 gl_float).
Abbreviation slot_tags := (slot_tags float_of_int).
Abbreviation refreshed := (@refreshed vec2 vec3 mat4 gl_float).
Abbreviation evicted := (@evicted vec2 vec3 mat4 gl_float).
Abbreviation mesh_at := (@mesh_at vec2 vec3 mat4 gl_float).
Abbreviation disabled := (@disabled vec2 vec3 mat4 gl_float).
Abbreviation offset_indices := (@offset_indices vec2 vec3 gl_float).
Abbreviation read_texcoords := (@read_texcoords vec2 vec3 gl_float).
Abbreviation indices_in_range := (@indices_in_range vec2 vec3 mat4 gl_float).
Abbreviation mesh_indices_valid := (@mesh_indices_valid vec2 vec3 gl_float).
Abbreviation mesh_ok := (@mesh_ok vec2 vec3 gl_float).
Abbreviation slots_agree := (slots_agree float_of_int).
Abbreviation Batch_dtor := (@Batch_dtor vec2 vec3 mat4 gl_float).
Abbreviation buffers_mesh := (@buffers_mesh vec2 vec3 mat4 gl_float).
Abbreviation mesh_cached := (@mesh_cached vec2 vec3 mat4 gl_float).
Abbreviation buffers_parallel := (@buffers_parallel vec2 vec3 mat4 gl_float).
Abbreviation total := (@total vec2 vec3 gl_float).
Abbreviation model_matrix_at := (model_matrix_at mat4_identity).

(** The vertex loop of [updateMesh]. *)
Lemma vertex_loop (vs : list vec3) (ts : list vec2) (n : nat) :
  ∀ (i : Z) (b : Batch),
    0 ≤ i →
    (Z.to_nat i + n ≤ length vs)%nat →
    (Z.to_nat i + n ≤ length ts)%nat →
    for_loop n i
      (λ i b,
         v ← at_ vs i;
         let b := set_vertices_ (vertices_ b ++ [v]) b in
         let b := set_matrix_indices_
                    (matrix_indices_ b ++ [float_of_int (draw_count_ b)]) b in
         t ← at_ ts i;
         Some (set_tex_coords_ (tex_coords_ b ++ [t]) b)) b
    = Some (set_tex_coords_ (tex_coords_ b ++ take n (drop (Z.to_nat i) ts))
             (set_matrix_indices_
                (matrix_indices_ b ++ replicate n (float_of_int (draw_count_ b)))
                (set_vertices_ (vertices_ b ++ take n (drop (Z.to_nat i) vs)) b))).
Proof.
  induction n as [|n IH]; intros i b Hi Hvs Hts.
  - destruct b. cbn [for_loop take replicate]. batch_fields.
    rewrite !app_nil_r. reflexivity.
  - cbn [for_loop].
    destruct (lookup_lt_is_Some_2 vs (Z.to_nat i)) as [v Hv]; [lia|].
    destruct (lookup_lt_is_Some_2 ts (Z.to_nat i)) as [t Ht]; [lia|].
    rewrite !at_lookup, Hv, Ht by lia. cbn [mbind option_bind].
    rewrite IH by (rewrite ?Z_to_nat_succ by lia; lia).
    rewrite Z_to_nat_succ by lia.
    rewrite (drop_S _ _ _ Hv), (drop_S _ _ _ Ht).
    destruct b. batch_fields. cbn [take replicate].
    rewrite <- !app_assoc. reflexivity.
Qed.

(** The normal loop of [updateMesh]. *)
Lemma normal_loop (ns : list vec3) (n : nat) :
  ∀ (i : Z) (b : Batch),
    0 ≤ i →
    (Z.to_nat i + n ≤ length ns)%nat →
    for_loop n i
      (λ i b, x ← at_ ns i; Some (set_normals_ (normals_ b ++ [x]) b)) b
    = Some (set_normals_ (normals_ b ++ take n (drop (Z.to_nat i) ns)) b).
Proof.
  induction n as [|n IH]; intros i b Hi Hns.
  - destruct b. cbn [for_loop take]. batch_fields.
    rewrite app_nil_r. reflexivity.
  - cbn [for_loop].
    destruct (lookup_lt_is_Some_2 ns (Z.to_nat i)) as [x Hx]; [lia|].
    rewrite at_lookup, Hx by lia. cbn [mbind option_bind].
    rewrite IH by (rewrite ?Z_to_nat_succ by lia; lia).
    rewrite Z_to_nat_succ by lia. rewrite (drop_S _ _ _ Hx).
    destruct b. batch_fields. cbn [take].
    rewrite <- !app_assoc. reflexivity.
Qed.

(** The index loop of [updateMesh]: [index_offset_] is not touched by it. *)
Lemma index_loop (ixs : list Z) (n : nat) :
  ∀ (i : Z) (b : Batch),
    0 ≤ i →
    (Z.to_nat i + n ≤ length ixs)%nat →
    for_loop n i
      (λ i b,
         index ← at_ ixs i;
         let index := to_ushort (to_int (index + index_offset_ b)) in
         Some (set_indices_ (indices_ b ++ [index]) b)) b
    = Some (set_indices_
              (indices_ b
               ++ map (λ x, to_ushort (to_int (x + index_offset_ b)))
                    (take n (drop (Z.to_nat i) ixs))) b).
Proof.
  induction n as [|n IH]; intros i b Hi Hix.
  - destruct b. cbn [for_loop take map]. batch_fields.
    rewrite app_nil_r. reflexivity.
  - cbn [for_loop].
    destruct (lookup_lt_is_Some_2 ixs (Z.to_nat i)) as [x Hx]; [lia|].
    rewrite at_lookup, Hx by lia. cbn [mbind option_bind].
    rewrite IH by (rewrite ?Z_to_nat_succ by lia; lia).
    rewrite Z_to_nat_succ by lia. rewrite (drop_S _ _ _ Hx).
    destruct b. batch_fields. cbn [take map].
    rewrite <- !app_assoc. reflexivity.
Qed.

Lemma to_int_vsize {A} (v : list A) :
  vsize v ≤ INT_MAX → Z.to_nat (to_int (vsize v)) = length v.
Proof.
  intros Hv. rewrite to_int_id; unfold vsize, INT_MAX in *; lia.
Qed.

(** [updateMesh] returns, with the closed form [merged]. *)
Lemma updateMesh_merged (b : Batch) (m : Mesh) :
  mesh_ok m → updateMesh b m = Some (merged b m).
Proof.
  intros (Hv & Hn & Hi & Ht).
  unfold updateMesh, for_int.
  rewrite !to_int_vsize by assumption.
  rewrite vertex_loop by (change (Z.to_nat 0) with 0%nat; lia).
  cbn [mbind option_bind].
  change (Z.to_nat 0) with 0%nat. rewrite !drop_0, !firstn_all.
  set (b1 := set_tex_coords_ _ _).
  assert (Hnorm :
    (if vsize (normals m) >? 0
     then for_loop (length (normals m)) 0
            (λ i b0, x ← at_ (normals m) i;
                     Some (set_normals_ (normals_ b0 ++ [x]) b0)) b1
     else Some b1)
    = Some (set_normals_ (normals_ b1 ++ normals m) b1)).
  { destruct (Z.gtb_spec (vsize (normals m)) 0) as [Hpos|Hzero].
    - rewrite normal_loop by (change (Z.to_nat 0) with 0%nat; lia).
      change (Z.to_nat 0) with 0%nat. rewrite drop_0, firstn_all. reflexivity.
    - assert (normals m = []) as ->.
      { unfold vsize in Hzero. destruct (normals m); cbn [length] in *; [done | lia]. }
      destruct b1. batch_fields. rewrite app_nil_r. reflexivity. }
  rewrite Hnorm. cbn [mbind option_bind].
  rewrite index_loop by (change (Z.to_nat 0) with 0%nat; lia).
  cbn [mbind option_bind].
  change (Z.to_nat 0) with 0%nat. rewrite !drop_0, !firstn_all.
  subst b1. destruct b. batch_fields.
  rewrite !to_int_size_t.
  rewrite (to_int_id (vsize (indices m))) by (unfold vsize, INT_MAX in *; lia).
  reflexivity.
Qed.

(** *** Whenever [updateMesh] returns *)

Lemma vertex_loop_some (vs : list vec3) (ts : list vec2) (n : nat) :
  ∀ (i : Z) (b b' : Batch),
    for_loop n i
      (λ i b,
         v ← at_ vs i;
         let b := set_vertices_ (vertices_ b ++ [v]) b in
         let b := set_matrix_indices_
                    (matrix_indices_ b ++ [float_of_int (draw_count_ b)]) b in
         t ← at_ ts i;
         Some (set_tex_coords_ (tex_coords_ b ++ [t]) b)) b = Some b' →
    ∃ vs' ts',
      b' = set_tex_coords_ (tex_coords_ b ++ ts')
             (set_matrix_indices_
                (matrix_indices_ b ++ replicate n (float_of_int (draw_count_ b)))
                (set_vertices_ (vertices_ b ++ vs') b)).
Proof.
  induction n as [|n IH]; intros i b b' Hrun.
  - cbn [for_loop] in Hrun. injection Hrun as <-. exists [], [].
    destruct b. batch_fields. cbn [replicate]. rewrite !app_nil_r. reflexivity.
  - cbn [for_loop] in Hrun.
    destruct (at_ vs i) as [v|]; [|discriminate]. cbn [mbind option_bind] in Hrun.
    destruct (at_ ts i) as [t|]; [|discriminate]. cbn [mbind option_bind] in Hrun.
    apply IH in Hrun as (vs' & ts' & ->).
    exists (v :: vs'), (t :: ts').
    destruct b. batch_fields. cbn [replicate].
    rewrite <- !app_assoc. reflexivity.
Qed.

Lemma normal_loop_some (ns : list vec3) (n : nat) :
  ∀ (i : Z) (b b' : Batch),
    for_loop n i
      (λ i b, x ← at_ ns i; Some (set_normals_ (normals_ b ++ [x]) b)) b = Some b' →
    ∃ ns', b' = set_normals_ (normals_ b ++ ns') b.
Proof.
  induction n as [|n IH]; intros i b b' Hrun.
  - cbn [for_loop] in Hrun. injection Hrun as <-. exists [].
    destruct b. batch_fields. rewrite app_nil_r. reflexivity.
  - cbn [for_loop] in Hrun.
    destruct (at_ ns i) as [x|]; [|discriminate]. cbn [mbind option_bind] in Hrun.
    apply IH in Hrun as (ns' & ->).
    exists (x :: ns').
    destruct b. batch_fields. rewrite <- !app_assoc. reflexivity.
Qed.

Lemma index_loop_some (ixs : list Z) (n : nat) :
  ∀ (i : Z) (b b' : Batch),
    for_loop n i
      (λ i b,
         index ← at_ ixs i;
         let index := to_ushort (to_int (index + index_offset_ b)) in
         Some (set_indices_ (indices_ b ++ [index]) b)) b = Some b' →
    ∃ ixs', b' = set_indices_ (indices_ b ++ ixs') b.
Proof.
  induction n as [|n IH]; intros i b b' Hrun.
  - cbn [for_loop] in Hrun. injection Hrun as <-. exists [].
    destruct b. batch_fields. rewrite app_nil_r. reflexivity.
  - cbn [for_loop] in Hrun.
    destruct (at_ ixs i) as [x|]; [|discriminate]. cbn [mbind option_bind] in Hrun.
    apply IH in Hrun as (ixs' & ->).
    exists (to_ushort (to_int (x + index_offset_ b)) :: ixs').
    destruct b. batch_fields. rewrite <- !app_assoc. reflexivity.
Qed.

Lemma to_int_add_to_int a n : to_int (a + to_int n) = to_int (a + n).
Proof. unfold to_int. Z.div_mod_to_equations. lia. Qed.

(** Every result of [updateMesh] has the shape [appended]: one tag
    [draw_count_] per vertex read, counters advanced by the sizes. *)
Lemma updateMesh_some (b b' : Batch) (m : Mesh) :
  updateMesh b m = Some b' →
  ∃ vs ns ts ixs,
    b' = appended b vs ns ts ixs
           (replicate (Z.to_nat (to_int (vsize (vertices m))))
              (float_of_int (draw_count_ b)))
           (vsize (vertices m)) (vsize (indices m)).
Proof.
  unfold updateMesh, for_int. intros Hrun.
  destruct (for_loop (Z.to_nat (to_int (vsize (vertices m)))) 0 _ b)
    as [b1|] eqn:H1; [|discriminate].
  cbn [mbind option_bind] in Hrun.
  apply vertex_loop_some in H1 as (vs & ts & ->).
  match type of Hrun with
  | context [mbind _ ?x] => destruct x as [b2|] eqn:H2; [|discriminate]
  end.
  cbn [mbind option_bind] in Hrun.
  assert (∃ ns, b2 = set_normals_ (normals_ b ++ ns)
    (set_tex_coords_ (tex_coords_ b ++ ts)
       (set_matrix_indices_
          (matrix_indices_ b
           ++ replicate (Z.to_nat (to_int (vsize (vertices m))))
                (float_of_int (draw_count_ b)))
          (set_vertices_ (vertices_ b ++ vs) b)))) as (ns & ->).
  { destruct (vsize (normals m) >? 0).
    - apply normal_loop_some in H2 as (ns & ->). exists ns.
      destruct b. reflexivity.
    - injection H2 as <-. exists []. destruct b. batch_fields.
      rewrite app_nil_r. reflexivity. }
  match type of Hrun with
  | context [mbind _ ?x] => destruct x as [b3|] eqn:H3; [|discriminate]
  end.
  cbn [mbind option_bind] in Hrun.
  apply index_loop_some in H3 as (ixs & ->).
  injection Hrun as <-.
  exists vs, ns, ts, ixs.
  destruct b. unfold appended. batch_fields.
  rewrite !to_int_size_t, to_int_add_to_int. reflexivity.
Qed.

Lemma merged_appended (b : Batch) (m : Mesh) :
  merged b m
  = appended b (vertices m) (normals m)
      (take (length (vertices m)) (a_texcoord m))
      (map (λ i, to_ushort (to_int (i + index_offset_ b))) (indices m))
      (replicate (length (vertices m)) (float_of_int (draw_count_ b)))
      (vsize (vertices m)) (vsize (indices m)).
Proof. reflexivity. Qed.

(** ** [add], branch by branch *)

Lemma add_unfold (p : ptr) (st : State) :
  add p st =
  rd ← heap st !! p;
  pass0 ← rd_passes rd !! 0%nat;
  let b1 := bookkept p rd pass0 (this st) in
  let m := resolve_mesh (this st) (rd_mesh rd) in
  if negb (batching rd) then
    Some (true, stored p (synced rd) (set_not_batched_ true (tracked p b1)) st)
  else if has_non_texture_pass rd then
    Some (true, stored p (synced rd) (tracked p b1) st)
  else if over_capacity (this st) (indices m) then
    if draw_count_ (this st) >? 0 then
      Some (false, stored p (synced rd) b1 st)
    else
      Some (true, stored p (set_batching false (synced rd))
                    (set_not_batched_ true (tracked p b1)) st)
  else
    b' ← updateMesh (tracked p (with_prototype (synced rd) b1)) m;
    Some (true, stored p (synced rd) b' st).
Proof. reflexivity. Qed.

Lemma with_prototype_shape (rd : RenderData) (b : Batch) :
  ∃ o, with_prototype rd b = set_renderdata_ o b.
Proof.
  unfold with_prototype.
  destruct (draw_count_ b =? 0); [destruct (renderdata_ b) eqn:Hp|].
  - exists (renderdata_ b). destruct b; reflexivity.
  - eexists; reflexivity.
  - exists (renderdata_ b). destruct b; reflexivity.
Qed.

(** ** Capacity *)

(** The capacity test, read on a batch whose index counter and limit are
    non-negative [int]s: it fails exactly when the merged index count would
    stay within the limit, and the [int] sum then does not wrap. *)
Lemma over_capacity_false (b : Batch) (ixs : list Z) :
  0 ≤ index_count_ b ≤ indices_limit_ b →
  indices_limit_ b ≤ INT_MAX →
  over_capacity b ixs = false →
  0 ≤ to_int (index_count_ b + vsize ixs) ≤ indices_limit_ b.
Proof.
  unfold over_capacity. intros Hic Hlim Hcap.
  apply orb_false_iff in Hcap as [_ Hgt].
  rewrite Z.gtb_ltb in Hgt. apply Z.ltb_ge in Hgt.
  assert (0 ≤ vsize ixs) by (unfold vsize; lia).
  revert Hgt. unfold to_size_t, to_int, INT_MAX in *.
  Z.div_mod_to_equations. lia.
Qed.

Lemma add_index_count (p : ptr) (st st' : State) (r : bool) :
  add p st = Some (r, st') →
  0 ≤ index_count_ (this st) ≤ indices_limit_ (this st) →
  indices_limit_ (this st) ≤ INT_MAX →
  0 ≤ index_count_ (this st') ≤ indices_limit_ (this st')
  ∧ indices_limit_ (this st') = indices_limit_ (this st)
  ∧ vertex_limit_ (this st') = vertex_limit_ (this st).
Proof.
  rewrite add_unfold. intros Hadd Hic Hlim.
  destruct (heap st !! p) as [rd|]; [|discriminate].
  cbn [mbind option_bind] in Hadd.
  destruct (rd_passes rd !! 0%nat) as [pass0|]; [|discriminate].
  cbn [mbind option_bind] in Hadd. cbv zeta in Hadd.
  destruct (negb (batching rd)).
  { injection Hadd as <- <-. batch_unfold. lia. }
  destruct (has_non_texture_pass rd).
  { injection Hadd as <- <-. batch_unfold. lia. }
  destruct (over_capacity (this st) _) eqn:Hcap.
  { destruct (draw_count_ (this st) >? 0);
      injection Hadd as <- <-; batch_unfold; lia. }
  destruct (updateMesh _ _) as [b'|] eqn:Hup; [|discriminate].
  cbn [mbind option_bind] in Hadd. injection Hadd as <- <-.
  apply updateMesh_some in Hup as (vs & ns & ts & ixs & ->).
  destruct (with_prototype_shape (synced rd) (bookkept p rd pass0 (this st)))
    as [o ->].
  apply over_capacity_false in Hcap; [|assumption..].
  batch_unfold. lia.
Qed.

Lemma add_reachable_invariant (no_vertices no_indices : Z) (st : State) :
  add_reachable no_vertices no_indices st →
  no_indices ≤ INT_MAX
  ∧ 0 ≤ index_count_ (this st) ≤ indices_limit_ (this st)
  ∧ indices_limit_ (this st) = no_indices
  ∧ vertex_limit_ (this st) = no_vertices.
Proof.
  induction 1 as [h b n Hmax Hctor | st p r st' _ IH Hadd | st h _ IH].
  - unfold Batch_ctor in Hctor.
    destruct ((no_vertices <? 0) || (no_indices <? 0)) eqn:Hneg; [discriminate|].
    injection Hctor as <-. apply orb_false_iff in Hneg as [_ Hni].
    apply Z.ltb_ge in Hni. batch_unfold. lia.
  - destruct IH as (Hmax & Hic & Hlim & Hv).
    destruct (add_index_count _ _ _ _ Hadd Hic) as (Hic' & Hl' & Hv'); lia.
  - exact IH.
Qed.

(** C1, as the code has it: along every sequence of [add] calls on a batch
    constructed with capacities [(no_vertices, no_indices)], whatever each
    call returns and however the scene changes in between, the index counter
    stays within the index limit, [0 <= index_count_ <= indices_limit_ =
    no_indices], and both capacities keep their constructed values.  The
    vertex counter is not part of the statement: [add] never compares it
    with [vertex_limit_]. *)
Theorem C1_index_count_within_limit (no_vertices no_indices : Z) (st : State) :
  add_reachable no_vertices no_indices st →
  0 ≤ index_count_ (this st) ≤ indices_limit_ (this st)
  ∧ indices_limit_ (this st) = no_indices
  ∧ vertex_limit_ (this st) = no_vertices.
Proof.
  intros Hreach. apply add_reachable_invariant in Hreach. tauto.
Qed.

(** ** Draw slots *)

Lemma slot_tags_snoc (k : nat) (ns : list nat) (n : nat) :
  slot_tags k (ns ++ [n])
  = slot_tags k ns
    ++ replicate n (float_of_int (to_int (Z.of_nat (k + length ns)))).
Proof.
  revert k. induction ns as [|n0 ns IH]; intros k.
  - cbn [slot_tags app length]. rewrite app_nil_r, Nat.add_0_r. reflexivity.
  - cbn [slot_tags app length]. rewrite IH, <- app_assoc.
    replace (S k + length ns)%nat with (k + S (length ns))%nat by lia.
    reflexivity.
Qed.

Lemma to_int_succ a : to_int (to_int a + 1) = to_int (a + 1).
Proof. unfold to_int. Z.div_mod_to_equations. lia. Qed.

(** A merge on a batch whose slots agree, after at least one more matrix was
    recorded, leaves the slots in agreement. *)
Lemma slots_agree_merge (b b1 b' : Batch) (m : Mesh) :
  slots_agree b →
  draw_count_ b1 = draw_count_ b →
  matrix_indices_ b1 = matrix_indices_ b →
  (length (matrices_ b) < length (matrices_ b1))%nat →
  updateMesh b1 m = Some b' →
  slots_agree b'.
Proof.
  intros (ns & Hdc & Hlen & Htags) Hdc1 Hmi1 Hmat Hup.
  apply updateMesh_some in Hup as (vs & nrm & ts & ixs & ->).
  exists (ns ++ [Z.to_nat (to_int (vsize (vertices m)))]).
  batch_unfold. rewrite length_app. cbn [length].
  rewrite Hdc1, Hmi1, Hdc, Htags, slot_tags_snoc, to_int_succ.
  cbn [Nat.add]. repeat split; [f_equal; lia | lia].
Qed.

Lemma slots_agree_frame (b b1 : Batch) :
  slots_agree b →
  draw_count_ b1 = draw_count_ b →
  matrix_indices_ b1 = matrix_indices_ b →
  (length (matrices_ b) ≤ length (matrices_ b1))%nat →
  slots_agree b1.
Proof.
  intros (ns & Hdc & Hlen & Htags) Hdc1 Hmi1 Hmat.
  exists ns. rewrite Hdc1, Hmi1. repeat split; [assumption | lia | assumption].
Qed.

Lemma slots_agree_empty (b : Batch) :
  draw_count_ b = 0 → matrix_indices_ b = [] → slots_agree b.
Proof.
  intros Hdc Hmi. exists []. rewrite Hdc, Hmi. cbn [length slot_tags].
  repeat split. lia.
Qed.

Lemma slots_agree_clearData (b : Batch) : slots_agree (clearData b).
Proof. apply slots_agree_empty; reflexivity. Qed.

Lemma slots_agree_add (p : ptr) (st st' : State) (r : bool) :
  add p st = Some (r, st') → slots_agree (this st) → slots_agree (this st').
Proof.
  rewrite add_unfold. intros Hadd Hagree.
  destruct (heap st !! p) as [rd|]; [|discriminate].
  cbn [mbind option_bind] in Hadd.
  destruct (rd_passes rd !! 0%nat) as [pass0|]; [|discriminate].
  cbn [mbind option_bind] in Hadd. cbv zeta in Hadd.
  assert (Hframe : ∀ b1 : Batch,
             draw_count_ b1 = draw_count_ (this st) →
             matrix_indices_ b1 = matrix_indices_ (this st) →
             matrices_ b1 = matrices_ (this st) ++ [model_matrix_of rd] →
             slots_agree b1).
  { intros b1 H1 H2 H3. apply (slots_agree_frame (this st)); try assumption.
    rewrite H3, length_app. lia. }
  destruct (negb (batching rd)).
  { injection Hadd as <- <-. apply Hframe; reflexivity. }
  destruct (has_non_texture_pass rd).
  { injection Hadd as <- <-. apply Hframe; reflexivity. }
  destruct (over_capacity (this st) _).
  { destruct (draw_count_ (this st) >? 0);
      injection Hadd as <- <-; apply Hframe; reflexivity. }
  destruct (updateMesh _ _) as [b'|] eqn:Hup; [|discriminate].
  cbn [mbind option_bind] in Hadd. injection Hadd as <- <-.
  destruct (with_prototype_shape (synced rd) (bookkept p rd pass0 (this st)))
    as [o Ho].
  rewrite Ho in Hup.
  refine (slots_agree_merge (this st) _ _ _ Hagree _ _ _ Hup);
    batch_unfold; [reflexivity | reflexivity |].
  rewrite length_app. cbn [length]. lia.
Qed.

(** The eviction scan only touches the tracking set of the batch. *)
Lemma isRenderModified_loop_batch (its : list ptr) :
  ∀ (u u' : bool) (st st' : State),
    isRenderModified_loop its u st = Some (u', st') →
    ∃ S', this st' = set_render_data_set_ S' (this st)
          ∧ freeBatch_calls st' = freeBatch_calls st.
Proof.
  induction its as [|it its IH]; intros u u' st st' Hrun.
  - cbn [isRenderModified_loop] in Hrun. injection Hrun as <- <-.
    exists (render_data_set_ (this st)). split; [|reflexivity].
    destruct (this st); reflexivity.
  - cbn [isRenderModified_loop] in Hrun.
    destruct (heap st !! it) as [rd|]; [|discriminate].
    cbn [mbind option_bind] in Hrun.
    destruct (negb (enabled rd) || negb (so_enabled (owner_object rd))).
    + apply IH in Hrun as (S' & -> & ->). batch_fields.
      exists S'. split; reflexivity.
    + apply IH in Hrun. exact Hrun.
Qed.

Lemma slots_agree_regenerate_loop (h : gmap ptr RenderData) (its : list ptr) :
  ∀ b b' : Batch,
    regenerate_loop h its b = Some b' → slots_agree b → slots_agree b'.
Proof.
  induction its as [|it its IH]; intros b b' Hrun Hagree.
  - cbn [regenerate_loop] in Hrun. injection Hrun as <-. assumption.
  - cbn [regenerate_loop] in Hrun.
    destruct (regenerate_step h b it) as [b1|] eqn:Hstep; [|discriminate].
    cbn [mbind option_bind] in Hrun.
    apply (IH _ _ Hrun).
    unfold regenerate_step in Hstep.
    destruct (h !! it) as [rd|]; [|discriminate].
    cbn [mbind option_bind] in Hstep.
    refine (slots_agree_merge b _ _ _ Hagree _ _ _ Hstep);
      batch_fields; [reflexivity | reflexivity |].
    rewrite length_app. cbn [length]. lia.
Qed.

Lemma slots_agree_setupMesh (d r : bool) (st st' : State) :
  setupMesh d st = Some (r, st') → slots_agree (this st) → slots_agree (this st').
Proof.
  unfold setupMesh, isRenderModified. intros Hrun Hagree.
  destruct (isRenderModified_loop _ false st) as [[u st1]|] eqn:Hscan;
    [|discriminate].
  cbn [mbind option_bind] in Hrun.
  apply isRenderModified_loop_batch in Hscan as (S' & Hb1 & _).
  destruct (0 =? Z.of_nat (size (render_data_set_ (this st1)))).
  { injection Hrun as <- <-. apply slots_agree_empty; reflexivity. }
  assert (Hagree1 : slots_agree (this st1)).
  { rewrite Hb1. apply (slots_agree_frame (this st));
      first [assumption | reflexivity | apply Nat.le_refl]. }
  match type of Hrun with
  | context [mbind _ ?x] => destruct x as [st2|] eqn:Hregen; [|discriminate]
  end.
  cbn [mbind option_bind] in Hrun. cbv zeta in Hrun.
  assert (Hagree2 : slots_agree (this st2)).
  { destruct (d || u).
    - unfold regenerateMeshData in Hregen.
      destruct (regenerate_loop _ _ _) as [b2|] eqn:Hloop; [|discriminate].
      cbn [mbind option_bind] in Hregen. injection Hregen as <-.
      batch_fields.
      exact (slots_agree_regenerate_loop _ _ _ _ Hloop
               (slots_agree_clearData (this st1))).
    - injection Hregen as <-. assumption. }
  injection Hrun as <- <-.
  batch_fields.
  destruct (negb (mesh_init_ (this st2))).
  - batch_fields. unfold meshInit. batch_fields.
    destruct (renderdata_ (this st2));
      apply (slots_agree_frame (this st2));
      first [assumption | reflexivity | apply Nat.le_refl].
  - batch_fields. apply (slots_agree_frame (this st2));
      first [assumption | reflexivity | apply Nat.le_refl].
Qed.

(** C2, as the code has it: at every point of a history of [add] and
    [setupMesh] calls on a constructed batch, the matrix-index buffer is made
    of [draw_count_] blocks, one per merge since the buffers were last
    cleared, the block of the k-th merge (1-based) holding the tag [k-1]
    only, and [matrices_] has at least [draw_count_] entries
    ([slots_agree]); every merge tags each vertex it appends with the
    [draw_count_] it starts from and then advances [draw_count_] by one.
    [len(matrices) = draw_count] itself does not hold: an [add] that does
    not merge still records a matrix. *)
Theorem C2_slots_agree (st : State) :
  reachable st →
  slots_agree (this st)
  ∧ ∀ (b b' : Batch) (m : Mesh),
      updateMesh b m = Some b' →
      matrix_indices_ b'
      = matrix_indices_ b
        ++ replicate (Z.to_nat (to_int (vsize (vertices m))))
             (float_of_int (draw_count_ b))
      ∧ matrices_ b' = matrices_ b
      ∧ draw_count_ b' = to_int (draw_count_ b + 1).
Proof.
  intros Hreach. split.
  - induction Hreach
      as [nv ni h b n Hctor | st p r st' _ IH Hadd | st d r st' _ IH Hrun | st h _ IH].
    + unfold Batch_ctor in Hctor.
      destruct ((nv <? 0) || (ni <? 0)); [discriminate|].
      injection Hctor as <-. apply slots_agree_empty; reflexivity.
    + exact (slots_agree_add _ _ _ _ Hadd IH).
    + exact (slots_agree_setupMesh _ _ _ _ Hrun IH).
    + exact IH.
  - intros b b' m Hup.
    apply updateMesh_some in Hup as (vs & nrm & ts & ixs & ->).
    repeat split.
Qed.

(** ** Offset indices *)

Lemma indices_in_range_empty_batch (nv ni : Z) :
  indices_in_range (empty_batch nv ni).
Proof. repeat split. apply Forall_nil_2. Qed.

Lemma indices_in_range_clearData (b : Batch) : indices_in_range (clearData b).
Proof. repeat split. apply Forall_nil_2. Qed.

(** C3: a merge of a mesh whose indices all point at its own vertices, into
    a batch whose index buffer is in range, returns and leaves every index of
    the merged index buffer non-negative and strictly below the new
    [vertex_count_], which is the length of the merged vertex buffer.  The
    vertex counter must not pass [INT_MAX]. *)
Theorem C3_offset_indices_in_range (b : Batch) (m : Mesh) :
  indices_in_range b →
  mesh_ok m →
  mesh_indices_valid m →
  vertex_count_ b + vsize (vertices m) ≤ INT_MAX →
  ∃ b', updateMesh b m = Some b'
        ∧ indices_in_range b'
        ∧ Forall (λ i, 0 ≤ i < vertex_count_ b') (indices_ b')
        ∧ vertex_count_ b' = vsize (vertices_ b').
Proof.
  intros (Hoff & Hvc & Hold) Hok Hvalid Hmax.
  exists (merged b m). split; [apply updateMesh_merged; assumption|].
  assert (Hvs : 0 ≤ vsize (vertices m)) by (unfold vsize; lia).
  assert (Hvb : 0 ≤ vertex_count_ b) by (rewrite Hvc; unfold vsize; lia).
  assert (Hvc' : vertex_count_ (merged b m) = vertex_count_ b + vsize (vertices m)).
  { unfold merged. batch_fields. apply to_int_id. unfold INT_MAX in *. lia. }
  assert (Hrange : Forall (λ i, 0 ≤ i < vertex_count_ (merged b m))
                     (indices_ (merged b m))).
  { rewrite Hvc'. unfold merged. batch_fields.
    apply Forall_app. split.
    - eapply Forall_impl; [exact Hold|]. cbn beta. intros i Hi. lia.
    - apply Forall_map. eapply Forall_impl; [exact Hvalid|].
      cbn beta. intros i Hi. rewrite Hoff.
      rewrite to_int_id by (unfold INT_MAX in *; lia).
      pose proof (to_ushort_range (i + vertex_count_ b)).
      pose proof (to_ushort_le (i + vertex_count_ b)). lia. }
  assert (Hlen : vertex_count_ (merged b m) = vsize (vertices_ (merged b m))).
  { rewrite Hvc'. unfold merged. batch_fields.
    rewrite Hvc. unfold vsize. rewrite length_app. lia. }
  repeat split; try assumption.
  unfold merged. batch_fields. rewrite Hoff. reflexivity.
Qed.

(** C10: every index appended by a merge is the sum of the source index and
    [index_offset_] reduced modulo 2^16; when that sum reaches 65536 the
    stored index is strictly smaller than the position [index + index_offset_]
    of the vertex it was meant to address. *)
Theorem C10_index_wraps_at_16_bits (b : Batch) (m : Mesh) :
  mesh_ok m →
  ∃ b', updateMesh b m = Some b'
        ∧ indices_ b'
          = indices_ b ++ map (λ i, (i + index_offset_ b) mod 65536) (indices m)
        ∧ ∀ i, i ∈ indices m →
               65536 ≤ i + index_offset_ b →
               0 ≤ (i + index_offset_ b) mod 65536 < 65536
               ∧ (i + index_offset_ b) mod 65536 ≠ i + index_offset_ b.
Proof.
  intros Hok. exists (merged b m).
  split; [apply updateMesh_merged; assumption|]. split.
  - unfold merged. batch_fields. f_equal. apply map_ext. intros i.
    apply to_ushort_to_int.
  - intros i _ Hwrap.
    pose proof (Z.mod_pos_bound (i + index_offset_ b) 65536). lia.
Qed.

(** ** The three outcomes of [add] *)

Lemma ShaderType_eqb_eq (a b : ShaderType) : ShaderType_eqb a b = true ↔ a = b.
Proof.
  destruct a as [|i], b as [|j]; cbn [ShaderType_eqb]; split;
    try discriminate; try reflexivity.
  - intros H%Nat.eqb_eq. congruence.
  - intros [= ->]. apply Nat.eqb_refl.
Qed.

Lemma has_non_texture_pass_false (rd : RenderData) :
  has_non_texture_pass rd = false
  ↔ Forall (λ q, shader_type (material q) = TEXTURE_SHADER) (rd_passes rd).
Proof.
  unfold has_non_texture_pass.
  induction (rd_passes rd) as [|q qs IH]; cbn [existsb].
  - split; [intros _; apply Forall_nil_2 | reflexivity].
  - rewrite orb_false_iff, negb_false_iff, ShaderType_eqb_eq, IH.
    split.
    + intros [Hq Hqs]. apply Forall_cons_2; assumption.
    + intros H. apply Forall_cons_1 in H. exact H.
Qed.

(** The capacity test on [int]-sized operands is the comparison of the
    mathematical sum with the limit. *)
Lemma over_capacity_spec (b : Batch) (ixs : list Z) :
  0 ≤ index_count_ b ≤ INT_MAX →
  0 ≤ indices_limit_ b ≤ INT_MAX →
  vsize ixs ≤ INT_MAX →
  over_capacity b ixs = true
  ↔ vsize ixs = 0 ∨ vsize ixs + index_count_ b > indices_limit_ b.
Proof.
  unfold over_capacity. intros Hic Hlim Hsz.
  assert (0 ≤ vsize ixs) by (unfold vsize; lia).
  rewrite orb_true_iff, Z.eqb_eq, Z.gtb_gt.
  unfold to_size_t, INT_MAX in *.
  rewrite (Z.mod_small (index_count_ b)) by lia.
  rewrite (Z.mod_small (indices_limit_ b)) by lia.
  rewrite (Z.mod_small (vsize ixs + index_count_ b)) by lia.
  lia.
Qed.

(** C4: on a live renderable with a first pass and an in-bounds mesh, and a
    batch whose index counter and limit are non-negative [int]s, [add]
    returns; it returns failure exactly when the renderable is
    batching-eligible, all its passes are texture shaders, its index count is
    zero or would push [index_count_] over [indices_limit_], and
    [draw_count_ > 0].  Under the same conditions but without a merged member
    it returns success, tracks the renderable, clears its batching flag,
    marks the batch as holding an unbatched member and leaves the draw
    counter, the other counters and the merge buffers as they were. *)
Theorem C4_add_failure_iff (p : ptr) (st : State) (rd : RenderData)
    (pass0 : RenderPass) :
  heap st !! p = Some rd →
  rd_passes rd !! 0%nat = Some pass0 →
  mesh_ok (resolve_mesh (this st) (rd_mesh rd)) →
  0 ≤ index_count_ (this st) ≤ INT_MAX →
  0 ≤ indices_limit_ (this st) ≤ INT_MAX →
  let n_indices := vsize (indices (resolve_mesh (this st) (rd_mesh rd))) in
  let eligible :=
    batching rd = true
    ∧ Forall (λ q, shader_type (material q) = TEXTURE_SHADER) (rd_passes rd)
    ∧ (n_indices = 0
       ∨ n_indices + index_count_ (this st) > indices_limit_ (this st)) in
  ∃ r st',
    add p st = Some (r, st')
    ∧ (r = false ↔ eligible ∧ draw_count_ (this st) > 0)
    ∧ (eligible → ¬ draw_count_ (this st) > 0 →
       r = true
       ∧ render_data_set_ (this st') = {[p]} ∪ render_data_set_ (this st)
       ∧ batching <$> heap st' !! p = Some false
       ∧ not_batched_ (this st') = true
       ∧ draw_count_ (this st') = draw_count_ (this st)
       ∧ vertex_count_ (this st') = vertex_count_ (this st)
       ∧ index_count_ (this st') = index_count_ (this st)
       ∧ index_offset_ (this st') = index_offset_ (this st)
       ∧ vertices_ (this st') = vertices_ (this st)
       ∧ normals_ (this st') = normals_ (this st)
       ∧ tex_coords_ (this st') = tex_coords_ (this st)
       ∧ indices_ (this st') = indices_ (this st)
       ∧ matrix_indices_ (this st') = matrix_indices_ (this st)).
Proof.
  intros Hp Hpass Hok Hic Hlim n_indices eligible.
  pose proof (over_capacity_spec (this st)
                (indices (resolve_mesh (this st) (rd_mesh rd))) Hic Hlim
                (proj1 (proj2 (proj2 Hok)))) as Hcap.
  pose proof (has_non_texture_pass_false rd) as Htex.
  rewrite add_unfold, Hp. cbn [mbind option_bind]. rewrite Hpass.
  cbn [mbind option_bind]. cbv zeta.
  subst eligible n_indices.
  destruct (batching rd) eqn:Hbatching; cbn [negb].
  2:{ eexists _, _. split; [reflexivity|].
      split; [split; [discriminate | intros ((? & _) & _); discriminate]|].
      intros (? & _); discriminate. }
  destruct (has_non_texture_pass rd) eqn:Hnt.
  { eexists _, _. split; [reflexivity|].
    assert (¬ Forall (λ q, shader_type (material q) = TEXTURE_SHADER)
              (rd_passes rd)) as Hno.
    { intros H. apply Htex in H. discriminate. }
    split; [split; [discriminate | intros ((_ & ? & _) & _); tauto]|].
    intros (_ & ? & _); tauto. }
  destruct (over_capacity (this st) _) eqn:Hover.
  - destruct (Z.gtb_spec (draw_count_ (this st)) 0) as [Hdc|Hdc].
    + eexists _, _. split; [reflexivity|].
      split; [|intros _ ?; lia].
      split; [intros _|reflexivity].
      repeat split; [apply Htex | apply Hcap | lia]; reflexivity.
    + eexists _, _. split; [reflexivity|].
      split; [split; [discriminate | intros (_ & ?); lia]|].
      intros _ _. batch_unfold. rewrite lookup_insert_eq.
      repeat split.
  - assert (¬ (vsize (indices (resolve_mesh (this st) (rd_mesh rd))) = 0
               ∨ vsize (indices (resolve_mesh (this st) (rd_mesh rd)))
                 + index_count_ (this st) > indices_limit_ (this st))) as Hfit.
    { intros H. apply Hcap in H. discriminate. }
    rewrite updateMesh_merged by assumption. cbn [mbind option_bind].
    eexists _, _. split; [reflexivity|].
    split; [split; [discriminate | intros ((_ & _ & ?) & _); tauto]|].
    intros (_ & _ & ?); tauto.
Qed.

(** C5, as the code has it: when [add] returns failure the merge buffers, the
    counters, the tracking set, the prototype, the capacities, the flags and
    the merged mesh of the batch are unchanged.  What changed is the
    bookkeeping that opens [add]: one matrix more in [matrices_], the entry
    of the renderable in [matrix_index_map_], and [material_], which now
    refers to the first-pass material of the rejected renderable; in the
    scene, only the two dirty flags of that renderable were cleared. *)
Theorem C5_rejection_frame (p : ptr) (st st' : State) :
  add p st = Some (false, st') →
  (vertices_ (this st') = vertices_ (this st)
   ∧ indices_ (this st') = indices_ (this st)
   ∧ normals_ (this st') = normals_ (this st)
   ∧ tex_coords_ (this st') = tex_coords_ (this st)
   ∧ matrix_indices_ (this st') = matrix_indices_ (this st)
   ∧ vertex_count_ (this st') = vertex_count_ (this st)
   ∧ index_count_ (this st') = index_count_ (this st)
   ∧ index_offset_ (this st') = index_offset_ (this st)
   ∧ draw_count_ (this st') = draw_count_ (this st)
   ∧ render_data_set_ (this st') = render_data_set_ (this st)
   ∧ renderdata_ (this st') = renderdata_ (this st))
  ∧ (vertex_limit_ (this st') = vertex_limit_ (this st)
     ∧ indices_limit_ (this st') = indices_limit_ (this st)
     ∧ mesh_init_ (this st') = mesh_init_ (this st)
     ∧ not_batched_ (this st') = not_batched_ (this st)
     ∧ batch_dirty_ (this st') = batch_dirty_ (this st)
     ∧ mesh_ (this st') = mesh_ (this st)
     ∧ freeBatch_calls st' = freeBatch_calls st)
  ∧ ∃ rd pass0,
      heap st !! p = Some rd
      ∧ rd_passes rd !! 0%nat = Some pass0
      ∧ matrices_ (this st') = matrices_ (this st) ++ [model_matrix_of rd]
      ∧ matrix_index_map_ (this st')
        = <[p := draw_count_ (this st)]> (matrix_index_map_ (this st))
      ∧ material_ (this st') = Some (material pass0)
      ∧ heap st' = <[p := synced rd]> (heap st).
Proof.
  rewrite add_unfold. intros Hadd.
  destruct (heap st !! p) as [rd|] eqn:Hp; [|discriminate].
  cbn [mbind option_bind] in Hadd.
  destruct (rd_passes rd !! 0%nat) as [pass0|] eqn:Hpass; [|discriminate].
  cbn [mbind option_bind] in Hadd. cbv zeta in Hadd.
  destruct (negb (batching rd)); [discriminate|].
  destruct (has_non_texture_pass rd); [discriminate|].
  destruct (over_capacity (this st) _).
  - destruct (draw_count_ (this st) >? 0); [|discriminate].
    injection Hadd as <-. batch_unfold.
    split; [repeat split|]. split; [repeat split|].
    exists rd, pass0. repeat split. exact Hpass.
  - destruct (updateMesh _ _); discriminate.
Qed.

(** ** The eviction scan *)

(** No member is evicted when every address of the scan is live and
    enabled, with an enabled owner. *)
Lemma isRenderModified_loop_quiet (its : list ptr) (u : bool) (st : State) :
  (∀ q, q ∈ its →
        ∃ rd, heap st !! q = Some rd ∧ enabled rd = true
              ∧ so_enabled (owner_object rd) = true) →
  isRenderModified_loop its u st = Some (u, st).
Proof.
  induction its as [|it its IH]; intros Hlive.
  - reflexivity.
  - cbn [isRenderModified_loop].
    destruct (Hlive it) as (rd & Hrd & Hen & Hown); [apply list_elem_of_here|].
    rewrite Hrd. cbn [mbind option_bind]. rewrite Hen, Hown. cbn [negb orb].
    apply IH. intros q Hq. apply Hlive. apply list_elem_of_further, Hq.
Qed.

Lemma isRenderModified_quiet (st : State) :
  (∀ q, q ∈ render_data_set_ (this st) →
        ∃ rd, heap st !! q = Some rd ∧ enabled rd = true
              ∧ so_enabled (owner_object rd) = true) →
  isRenderModified st = Some (false, st).
Proof.
  intros Hlive. apply isRenderModified_loop_quiet.
  intros q Hq. apply Hlive. apply elem_of_elements, Hq.
Qed.

(** ** Regeneration leaves the membership and the prototype alone *)

Lemma regenerate_loop_frame (h : gmap ptr RenderData) (its : list ptr) :
  ∀ b b' : Batch,
    regenerate_loop h its b = Some b' →
    render_data_set_ b' = render_data_set_ b
    ∧ renderdata_ b' = renderdata_ b
    ∧ vertex_limit_ b' = vertex_limit_ b
    ∧ indices_limit_ b' = indices_limit_ b
    ∧ not_batched_ b' = not_batched_ b
    ∧ material_ b' = material_ b
    ∧ mesh_ b' = mesh_ b.
Proof.
  induction its as [|it its IH]; intros b b' Hrun.
  - cbn [regenerate_loop] in Hrun. injection Hrun as <-. repeat split.
  - cbn [regenerate_loop] in Hrun.
    destruct (regenerate_step h b it) as [b1|] eqn:Hstep; [|discriminate].
    cbn [mbind option_bind] in Hrun.
    apply IH in Hrun as (-> & -> & -> & -> & -> & -> & ->).
    unfold regenerate_step in Hstep.
    destruct (h !! it) as [rd|]; [|discriminate].
    cbn [mbind option_bind] in Hstep.
    apply updateMesh_some in Hstep as (vs & ns & ts & ixs & ->).
    batch_unfold. repeat split.
Qed.

(** ** Refresh *)


Lemma set_batch_dirty_id (b : Batch) :
  batch_dirty_ b = false → set_batch_dirty_ false b = b.
Proof. destruct b. batch_fields. intros ->. reflexivity. Qed.

Lemma set_this_id (st : State) : set_this (this st) st = st.
Proof. destruct st. reflexivity. Qed.

(** What a call of [setupMesh] leaves behind: an inactive batch is a reset
    one with an empty tracking set; an active batch has a non-empty tracking
    set, an initialised mesh and a cleared dirty flag. *)
Lemma setupMesh_post (d r : bool) (st st1 : State) :
  setupMesh d st = Some (r, st1) →
  if r then
    size (render_data_set_ (this st1)) ≠ 0%nat
    ∧ mesh_init_ (this st1) = true
    ∧ batch_dirty_ (this st1) = false
  else
    render_data_set_ (this st1) = ∅
    ∧ ∃ b, this st1 = set_renderdata_ None (clearData b).
Proof.
  unfold setupMesh. intros Hrun.
  destruct (isRenderModified st) as [[u st0]|]; [|discriminate].
  cbn [mbind option_bind] in Hrun.
  destruct (Z.eqb_spec 0 (Z.of_nat (size (render_data_set_ (this st0)))))
    as [Hzero|Hsize].
  { injection Hrun as <- <-. split.
    - batch_unfold. apply leibniz_equiv, size_empty_inv. lia.
    - exists (this st0). reflexivity. }
  match type of Hrun with
  | context [mbind _ ?x] => destruct x as [st2|] eqn:Hregen; [|discriminate]
  end.
  cbn [mbind option_bind] in Hrun. cbv zeta in Hrun.
  injection Hrun as <- <-.
  assert (Hset : render_data_set_ (this st2) = render_data_set_ (this st0)).
  { destruct (d || u).
    - unfold regenerateMeshData in Hregen.
      destruct (regenerate_loop _ _ _) as [b2|] eqn:Hloop; [|discriminate].
      cbn [mbind option_bind] in Hregen. injection Hregen as <-.
      apply regenerate_loop_frame in Hloop as (Hs & _). exact Hs.
    - injection Hregen as <-. reflexivity. }
  batch_fields.
  destruct (mesh_init_ (this st2)) eqn:Hinit; cbn [negb]; batch_fields.
  - rewrite Hset. repeat split; [lia | assumption].
  - unfold meshInit. batch_fields.
    destruct (renderdata_ (this st2)); batch_fields;
      rewrite Hset; repeat split; lia.
Qed.

(** C8, as the code has it: after a call of [setupMesh], whatever its
    dirty argument, a second call with the dirty argument false, in a scene
    where every member is live and enabled, returns the same result and
    leaves the whole batch, merged buffers and merged mesh included, as the
    first call left it.  When the first call returned true the mesh is
    initialised after both calls and the second call changes nothing at all.
    When the first call returned false the batch is empty: the mesh is not
    initialised after either call, and the second call resets the batch
    again and notifies the pool owner once more. *)
Theorem C8_setupMesh_idempotent (d r : bool) (st st1 : State)
    (h : gmap ptr RenderData) :
  setupMesh d st = Some (r, st1) →
  (∀ q, q ∈ render_data_set_ (this st1) →
        ∃ rd, h !! q = Some rd ∧ enabled rd = true
              ∧ so_enabled (owner_object rd) = true) →
  ∃ st2,
    setupMesh false (set_heap h st1) = Some (r, st2)
    ∧ this st2 = this st1
    ∧ heap st2 = h
    ∧ mesh_init_ (this st2) = mesh_init_ (this st1)
    ∧ (r = true → mesh_init_ (this st2) = true ∧ st2 = set_heap h st1)
    ∧ (r = false →
       mesh_init_ (this st2) = false
       ∧ render_data_set_ (this st2) = ∅
       ∧ freeBatch_calls st2 = S (freeBatch_calls st1)).
Proof.
  intros Hfirst Hquiet.
  apply setupMesh_post in Hfirst.
  unfold setupMesh.
  rewrite isRenderModified_quiet by exact Hquiet.
  cbn [mbind option_bind].
  destruct r.
  - destruct Hfirst as (Hsize & Hinit & Hdirty).
    batch_fields.
    destruct (Z.eqb_spec 0 (Z.of_nat (size (render_data_set_ (this st1)))))
      as [Hzero|_]; [lia|].
    cbn [orb mbind option_bind]. cbv zeta. batch_fields.
    rewrite set_batch_dirty_id by assumption.
    rewrite Hinit. cbn [negb].
    change (set_this (this st1) (set_heap h st1))
      with (set_this (this (set_heap h st1)) (set_heap h st1)).
    rewrite set_this_id.
    exists (set_heap h st1).
    split; [reflexivity|]. split; [reflexivity|]. split; [reflexivity|].
    split; [exact Hinit|].
    split; [intros _; split; [exact Hinit | reflexivity]|].
    intros Hr. discriminate Hr.
  - destruct Hfirst as (Hempty & b & Hb).
    batch_fields. rewrite Hempty, size_empty. cbn [Z.of_nat Z.eqb].
    exists (resetBatch (set_heap h st1)).
    split; [reflexivity|]. batch_unfold. rewrite Hb in *. batch_fields.
    split; [reflexivity|]. split; [reflexivity|]. split; [reflexivity|].
    split; [intros Hr; discriminate Hr|].
    intros _. split; [reflexivity|]. split; [exact Hempty | reflexivity].
Qed.

(** ** Regeneration in closed form *)

Lemma regenerate_step_merged (h : gmap ptr RenderData) (b : Batch) (it : ptr)
    (rd : RenderData) :
  h !! it = Some rd →
  mesh_ok (mesh_at h b it) →
  regenerate_step h b it
  = Some (merged
            (set_matrices_ (matrices_ b ++ [model_matrix_of rd])
               (set_matrix_index_map_
                  (<[it := draw_count_ b]> (matrix_index_map_ b)) b))
            (mesh_at h b it)).
Proof.
  unfold regenerate_step, mesh_at. intros -> Hok.
  cbn [mbind option_bind]. cbv zeta.
  rewrite updateMesh_merged by exact Hok. reflexivity.
Qed.

Lemma to_int_add_l a n : to_int (to_int a + n) = to_int (a + n).
Proof. unfold to_int. Z.div_mod_to_equations. lia. Qed.

Lemma to_int_idem a : to_int (to_int a) = to_int a.
Proof. unfold to_int. Z.div_mod_to_equations. lia. Qed.

(** The loop of [regenerateMeshData] merges the mesh of every address it is
    given, in order, whatever the flags of the renderable. *)
Lemma regenerate_loop_closed (h : gmap ptr RenderData) (its : list ptr) :
  ∀ b : Batch,
    (∀ q, q ∈ its → is_Some (h !! q) ∧ mesh_ok (mesh_at h b q)) →
    to_int (draw_count_ b) = draw_count_ b →
    ∃ b',
      regenerate_loop h its b = Some b'
      ∧ vertices_ b' = vertices_ b ++ concat (map vertices (map (mesh_at h b) its))
      ∧ normals_ b' = normals_ b ++ concat (map normals (map (mesh_at h b) its))
      ∧ tex_coords_ b'
        = tex_coords_ b ++ concat (map read_texcoords (map (mesh_at h b) its))
      ∧ indices_ b'
        = indices_ b ++ offset_indices (index_offset_ b) (map (mesh_at h b) its)
      ∧ dom (matrix_index_map_ b') = dom (matrix_index_map_ b) ∪ list_to_set its
      ∧ draw_count_ b' = to_int (draw_count_ b + Z.of_nat (length its)).
Proof.
  induction its as [|it its IH]; intros b Hits Hdc.
  - exists b. cbn [regenerate_loop map concat offset_indices length list_to_set].
    rewrite !app_nil_r, Z.add_0_r, Hdc, (right_id_L ∅ (∪)).
    repeat split.
  - destruct (Hits it (list_elem_of_here _ _)) as [[rd Hrd] Hok].
    cbn [regenerate_loop].
    rewrite (regenerate_step_merged h b it rd Hrd Hok).
    cbn [mbind option_bind].
    set (b1 := merged _ _).
    destruct (IH b1) as (b' & Hrun & Hv & Hn & Ht & Hi & Hdom & Hdraw).
    { intros q Hq. exact (Hits q (list_elem_of_further _ _ _ Hq)). }
    { subst b1. unfold merged. batch_fields. apply to_int_idem. }
    exists b'. split; [exact Hrun|].
    rewrite Hv, Hn, Ht, Hi, Hdom, Hdraw.
    subst b1. unfold merged. batch_fields.
    cbn [map concat offset_indices length list_to_set].
    rewrite <- !app_assoc, dom_insert_L, to_int_add_l.
    rewrite (assoc_L (∪)), (comm_L (∪) (dom (matrix_index_map_ b)) {[it]}).
    repeat split. f_equal. lia.
Qed.

Lemma offset_indices_app (off : Z) (l1 l2 : list Mesh) :
  ∃ off', offset_indices off (l1 ++ l2)
          = offset_indices off l1 ++ offset_indices off' l2.
Proof.
  revert off. induction l1 as [|m l1 IH]; intros off.
  - exists off. reflexivity.
  - destruct (IH (to_int (off + vsize (vertices m)))) as [off' Hoff'].
    exists off'. cbn [app offset_indices]. rewrite Hoff', <- app_assoc.
    reflexivity.
Qed.

(** [regenerateMeshData] returns on a batch whose members are live with
    in-bounds meshes, and its buffers are the meshes of all the members, in
    iteration order. *)
Lemma regenerateMeshData_closed (st : State) :
  (∀ q, q ∈ render_data_set_ (this st) →
        is_Some (heap st !! q) ∧ mesh_ok (mesh_at (heap st) (this st) q)) →
  ∃ st',
    regenerateMeshData st = Some st'
    ∧ heap st' = heap st
    ∧ freeBatch_calls st' = freeBatch_calls st
    ∧ render_data_set_ (this st') = render_data_set_ (this st)
    ∧ mesh_ (this st') = mesh_ (this st)
    ∧ vertices_ (this st')
      = concat (map vertices (map (mesh_at (heap st) (this st))
                                (elements (render_data_set_ (this st)))))
    ∧ normals_ (this st')
      = concat (map normals (map (mesh_at (heap st) (this st))
                               (elements (render_data_set_ (this st)))))
    ∧ tex_coords_ (this st')
      = concat (map read_texcoords (map (mesh_at (heap st) (this st))
                                      (elements (render_data_set_ (this st)))))
    ∧ indices_ (this st')
      = offset_indices 0 (map (mesh_at (heap st) (this st))
                            (elements (render_data_set_ (this st))))
    ∧ dom (matrix_index_map_ (this st')) = render_data_set_ (this st)
    ∧ draw_count_ (this st')
      = to_int (Z.of_nat (size (render_data_set_ (this st)))).
Proof.
  intros Hmembers. unfold regenerateMeshData.
  destruct (regenerate_loop_closed (heap st)
              (elements (render_data_set_ (this st))) (clearData (this st)))
    as (b' & Hrun & Hv & Hn & Ht & Hi & Hdom & Hdraw).
  { intros q Hq. apply elem_of_elements in Hq. exact (Hmembers q Hq). }
  { reflexivity. }
  change (render_data_set_ (clearData (this st)))
    with (render_data_set_ (this st)).
  rewrite Hrun. cbn [mbind option_bind].
  exists (set_this b' st). split; [reflexivity|].
  apply regenerate_loop_frame in Hrun as (Hset & _ & _ & _ & _ & _ & Hmesh).
  batch_fields.
  rewrite Hv, Hn, Ht, Hi, Hdom, Hdraw, Hset, Hmesh.
  unfold clearData. batch_fields.
  rewrite dom_empty_L, (left_id_L ∅ (∪)), list_to_set_elements_L.
  repeat split.
Qed.

(** C9: [regenerateMeshData] merges the mesh of every renderable of the
    tracking set, with no test of its batching flag, of the shader types of
    its passes or of the index capacity: the regenerated buffers are the
    meshes of all the members in iteration order (the scene meshes [ms] when
    the members carry scene meshes), every member has a draw slot, and the
    vertices and the offset indices of the scene mesh of any member,
    batching-eligible or not, are a block of the regenerated vertex and
    index buffers. *)
Theorem C9_regeneration_merges_every_member (st : State) :
  (∀ q, q ∈ render_data_set_ (this st) →
        is_Some (heap st !! q) ∧ mesh_ok (mesh_at (heap st) (this st) q)) →
  ∃ st',
    regenerateMeshData st = Some st'
    ∧ vertices_ (this st')
      = concat (map vertices (map (mesh_at (heap st) (this st))
                                (elements (render_data_set_ (this st)))))
    ∧ indices_ (this st')
      = offset_indices 0 (map (mesh_at (heap st) (this st))
                            (elements (render_data_set_ (this st))))
    ∧ draw_count_ (this st')
      = to_int (Z.of_nat (size (render_data_set_ (this st))))
    ∧ (∀ ms : list Mesh,
         Forall2 (λ q m, ∃ rd, heap st !! q = Some rd ∧ rd_mesh rd = SceneMesh m)
           (elements (render_data_set_ (this st))) ms →
         vertices_ (this st') = concat (map vertices ms)
         ∧ indices_ (this st') = offset_indices 0 ms)
    ∧ ∀ (p : ptr) (rd : RenderData) (m : Mesh),
        p ∈ render_data_set_ (this st) →
        heap st !! p = Some rd →
        rd_mesh rd = SceneMesh m →
        is_Some (matrix_index_map_ (this st') !! p)
        ∧ ∃ vpre vpost ipre ipost off,
            vertices_ (this st') = vpre ++ vertices m ++ vpost
            ∧ indices_ (this st')
              = ipre
                ++ map (λ i, to_ushort (to_int (i + off))) (indices m)
                ++ ipost.
Proof.
  intros Hmembers.
  destruct (regenerateMeshData_closed st Hmembers)
    as (st' & Hrun & _ & _ & _ & _ & Hv & _ & _ & Hi & Hdom & Hdraw).
  exists st'. split; [exact Hrun|]. split; [exact Hv|]. split; [exact Hi|].
  split; [exact Hdraw|]. split.
  - intros ms Hms.
    assert (Hat : ∀ qs ms,
              Forall2 (λ q m, ∃ rd, heap st !! q = Some rd
                                    ∧ rd_mesh rd = SceneMesh m) qs ms →
              map (mesh_at (heap st) (this st)) qs = ms).
    { induction 1 as [|q m qs ms' (rd & Hrd & Hm) _ IH]; [reflexivity|].
      cbn [map]. rewrite IH. unfold mesh_at. rewrite Hrd, Hm. reflexivity. }
    apply Hat in Hms.
    rewrite Hv, Hi, Hms. split; reflexivity.
  - intros p rd m Hp Hrd Hm. split.
    + apply elem_of_dom. rewrite Hdom. assumption.
    + apply elem_of_elements, list_elem_of_split in Hp as (l1 & l2 & Hsplit).
      rewrite Hv, Hi, Hsplit, !map_app, concat_app.
      cbn [map concat].
      destruct (offset_indices_app 0 (map (mesh_at (heap st) (this st)) l1)
                  (mesh_at (heap st) (this st) p
                   :: map (mesh_at (heap st) (this st)) l2)) as [off Hoff].
      rewrite Hoff. cbn [offset_indices].
      assert (Hat : mesh_at (heap st) (this st) p = m).
      { unfold mesh_at. rewrite Hrd, Hm. reflexivity. }
      rewrite Hat.
      eexists _, _, _, _, off. split; reflexivity.
Qed.

(** ** Eviction *)

Lemma disabled_insert_ne (h : gmap ptr RenderData) (it q : ptr) (rd : RenderData) :
  q ≠ it → disabled (<[it := rd]> h) q = disabled h q.
Proof. intros Hne. unfold disabled. rewrite lookup_insert_ne by congruence. reflexivity. Qed.

(** The scan over distinct live addresses: it returns; the tracking set
    loses exactly the scanned addresses that are disabled; the store changes
    at those addresses only, where the batching flag and the batch
    back-reference are cleared; and the scan reports an eviction as soon as
    one scanned address is disabled. *)
Lemma isRenderModified_loop_spec (its : list ptr) :
  NoDup its →
  ∀ (u : bool) (st : State),
    (∀ q, q ∈ its → is_Some (heap st !! q)) →
    ∃ u' st',
      isRenderModified_loop its u st = Some (u', st')
      ∧ (∀ q, q ∈ render_data_set_ (this st')
              ↔ q ∈ render_data_set_ (this st)
                ∧ ¬ (q ∈ its ∧ disabled (heap st) q = true))
      ∧ (∀ q, q ∈ its → disabled (heap st) q = true →
              heap st' !! q = evicted <$> heap st !! q)
      ∧ (∀ q, ¬ (q ∈ its ∧ disabled (heap st) q = true) →
              heap st' !! q = heap st !! q)
      ∧ (u = true → u' = true)
      ∧ (∀ q, q ∈ its → disabled (heap st) q = true → u' = true).
Proof.
  induction 1 as [|it its Hnotin Hnodup IH]; intros u st Hlive.
  - exists u, st. split; [reflexivity|].
    split; [intros q; split; [intros Hq; split; [exact Hq|]|tauto]|].
    { intros [Hin _]. inversion Hin. }
    split; [intros q Hin; inversion Hin|].
    split; [reflexivity|].
    split; [tauto|]. intros q Hin; inversion Hin.
  - destruct (Hlive it (list_elem_of_here _ _)) as [rd Hrd].
    cbn [isRenderModified_loop]. rewrite Hrd. cbn [mbind option_bind].
    assert (Hdis : disabled (heap st) it
                   = negb (enabled rd) || negb (so_enabled (owner_object rd))).
    { unfold disabled. rewrite Hrd. reflexivity. }
    destruct (negb (enabled rd) || negb (so_enabled (owner_object rd))).
    + set (st1 := set_this _ _).
      destruct (IH true st1) as (u' & st' & Hrun & Hset & Hev & Hkeep & Hu & Hany).
      { intros q Hq. subst st1. batch_fields.
        destruct (decide (q = it)) as [->|Hne].
        - rewrite lookup_insert_eq. eauto.
        - rewrite lookup_insert_ne by congruence.
          apply Hlive, list_elem_of_further, Hq. }
      exists u', st'. split; [exact Hrun|].
      assert (Hit : heap st' !! it = Some (evicted rd)).
      { rewrite Hkeep by tauto. subst st1. batch_fields.
        apply lookup_insert_eq. }
      split; [|split; [|split; [|split]]].
      * intros q. rewrite Hset. subst st1. batch_fields.
        rewrite elem_of_difference, elem_of_singleton, elem_of_cons.
        destruct (decide (q = it)) as [->|Hne].
        -- tauto.
        -- rewrite disabled_insert_ne by assumption. tauto.
      * intros q Hq Hq_dis.
        destruct (decide (q = it)) as [->|Hne].
        -- rewrite Hit, Hrd. reflexivity.
        -- apply elem_of_cons in Hq as [?|Hq]; [contradiction|].
           rewrite Hev; subst st1; batch_fields;
             rewrite ?disabled_insert_ne by assumption;
             rewrite ?lookup_insert_ne by congruence; auto.
      * intros q Hq.
        assert (q ≠ it) as Hne.
        { intros ->. apply Hq. split; [apply list_elem_of_here | assumption]. }
        rewrite Hkeep; subst st1; batch_fields.
        -- apply lookup_insert_ne. congruence.
        -- rewrite disabled_insert_ne by assumption.
           intros [Hin Hd]. apply Hq. split; [|exact Hd].
           apply list_elem_of_further, Hin.
      * intros _. apply Hu. reflexivity.
      * intros _ _ _. apply Hu. reflexivity.
    + destruct (IH u st) as (u' & st' & Hrun & Hset & Hev & Hkeep & Hu & Hany).
      { intros q Hq. apply Hlive, list_elem_of_further, Hq. }
      exists u', st'. split; [exact Hrun|].
      split; [|split; [|split; [|split]]].
      * intros q. rewrite Hset, elem_of_cons.
        destruct (decide (q = it)) as [->|Hne]; [rewrite Hdis|]; split;
          intros [Hq Hno]; (split; [exact Hq|]); intros [Hin Hd];
          try discriminate; apply Hno; tauto.
      * intros q Hq Hq_dis.
        apply elem_of_cons in Hq as [->|Hq]; [congruence|].
        apply Hev; assumption.
      * intros q Hq. apply Hkeep. intros [Hin Hd]. apply Hq.
        split; [apply list_elem_of_further, Hin | exact Hd].
      * exact Hu.
      * intros q Hq Hq_dis.
        apply elem_of_cons in Hq as [->|Hq]; [congruence|].
        exact (Hany q Hq Hq_dis).
Qed.

(** The draw slots the loop of [regenerateMeshData] hands out to distinct
    addresses. *)
Lemma regenerate_loop_slots (h : gmap ptr RenderData) (its : list ptr) :
  NoDup its →
  ∀ (b : Batch) (k : nat),
    (∀ q, q ∈ its → is_Some (h !! q) ∧ mesh_ok (mesh_at h b q)) →
    draw_count_ b = to_int (Z.of_nat k) →
    ∃ b',
      regenerate_loop h its b = Some b'
      ∧ matrices_ b' = matrices_ b ++ map (model_matrix_at h) its
      ∧ matrix_indices_ b'
        = matrix_indices_ b
          ++ slot_tags k (map (λ q, length (vertices (mesh_at h b q))) its)
      ∧ (∀ (i : nat) q, its !! i = Some q →
           matrix_index_map_ b' !! q = Some (to_int (Z.of_nat (k + i))))
      ∧ (∀ q, q ∉ its → matrix_index_map_ b' !! q = matrix_index_map_ b !! q).
Proof.
  induction 1 as [|it its Hnotin Hnodup IH]; intros b k Hits Hdc.
  - exists b. cbn [regenerate_loop map slot_tags]. rewrite !app_nil_r.
    repeat split. intros i q Hi. rewrite lookup_nil in Hi. discriminate.
  - destruct (Hits it (list_elem_of_here _ _)) as [[rd Hrd] Hok].
    cbn [regenerate_loop].
    rewrite (regenerate_step_merged h b it rd Hrd Hok).
    cbn [mbind option_bind].
    set (b1 := merged _ _).
    destruct (IH b1 (S k)) as (b' & Hrun & Hmat & Htags & Hslots & Hrest).
    { intros q Hq. exact (Hits q (list_elem_of_further _ _ _ Hq)). }
    { subst b1. unfold merged. batch_fields. rewrite Hdc, to_int_succ.
      f_equal. lia. }
    exists b'. split; [exact Hrun|].
    rewrite Hmat, Htags. subst b1. unfold merged. batch_fields.
    cbn [map slot_tags]. rewrite <- !app_assoc, Hdc.
    unfold model_matrix_at at 2. rewrite Hrd.
    split; [reflexivity|]. split; [reflexivity|]. split.
    + intros [|i] q Hi.
      * cbn in Hi. injection Hi as <-.
        rewrite Hrest by exact Hnotin.
        unfold merged. batch_fields. rewrite lookup_insert_eq, Hdc.
        do 2 f_equal. lia.
      * cbn in Hi. rewrite (Hslots i q Hi). do 2 f_equal. lia.
    + intros q Hq. apply not_elem_of_cons in Hq as [Hne Hq].
      rewrite (Hrest q Hq). unfold merged. batch_fields.
      apply lookup_insert_ne. congruence.
Qed.

(** The transforms and the tags after [regenerateMeshData]. *)
Lemma regenerateMeshData_slots (st st' : State) :
  (∀ q, q ∈ render_data_set_ (this st) →
        is_Some (heap st !! q) ∧ mesh_ok (mesh_at (heap st) (this st) q)) →
  regenerateMeshData st = Some st' →
  matrices_ (this st')
  = map (model_matrix_at (heap st)) (elements (render_data_set_ (this st)))
  ∧ matrix_indices_ (this st')
    = slot_tags 0
        (map (λ q, length (vertices (mesh_at (heap st) (this st) q)))
           (elements (render_data_set_ (this st)))).
Proof.
  intros Hmembers Hrun. unfold regenerateMeshData in Hrun.
  destruct (regenerate_loop_slots (heap st)
              (elements (render_data_set_ (this st))) (NoDup_elements _)
              (clearData (this st)) 0%nat)
    as (b' & Hloop & Hmat & Htags & _).
  { intros q Hq. apply elem_of_elements in Hq. exact (Hmembers q Hq). }
  { reflexivity. }
  change (render_data_set_ (clearData (this st)))
    with (render_data_set_ (this st)) in Hrun.
  rewrite Hloop in Hrun. cbn [mbind option_bind] in Hrun.
  injection Hrun as <-. batch_fields.
  rewrite Hmat, Htags.
  change (matrices_ (clearData (this st))) with (@nil mat4).
  change (matrix_indices_ (clearData (this st))) with (@nil gl_float).
  split; reflexivity.
Qed.

Lemma map_ext_elem_of {A B} (f g : A → B) (l : list A) :
  (∀ x, x ∈ l → f x = g x) → map f l = map g l.
Proof.
  induction l as [|x l IH]; intros Hfg; [reflexivity|].
  cbn [map]. rewrite (Hfg x (list_elem_of_here _ _)), IH; [reflexivity|].
  intros y Hy. apply Hfg, list_elem_of_further, Hy.
Qed.

Lemma refreshed_fields (st : State) :
  heap (refreshed st) = heap st
  ∧ render_data_set_ (this (refreshed st)) = render_data_set_ (this st)
  ∧ matrix_index_map_ (this (refreshed st)) = matrix_index_map_ (this st)
  ∧ vertices_ (this (refreshed st)) = vertices_ (this st)
  ∧ normals_ (this (refreshed st)) = normals_ (this st)
  ∧ tex_coords_ (this (refreshed st)) = tex_coords_ (this st)
  ∧ indices_ (this (refreshed st)) = indices_ (this st).
Proof.
  unfold refreshed. cbv zeta. batch_fields.
  destruct (mesh_init_ (this st)); cbn [negb]; batch_fields;
    [repeat split|].
  unfold meshInit. batch_fields.
  destruct (renderdata_ (this st)); batch_fields; repeat split.
Qed.

Lemma refreshed_slots (st : State) :
  matrix_indices_ (this (refreshed st)) = matrix_indices_ (this st)
  ∧ matrices_ (this (refreshed st)) = matrices_ (this st).
Proof.
  unfold refreshed. cbv zeta. batch_fields.
  destruct (mesh_init_ (this st)); cbn [negb]; batch_fields;
    [split; reflexivity|].
  unfold meshInit. batch_fields.
  destruct (renderdata_ (this st)); batch_fields; split; reflexivity.
Qed.

(** C6: when a member of the tracking set is disabled, itself or through
    its owner, every member is live and the enabled ones have in-bounds
    meshes, [setupMesh] returns; the disabled member has left the tracking
    set and the matrix index map, its batching flag and batch back-reference
    are cleared, the members left are the enabled ones, and every merged
    buffer is rebuilt from the members left alone, in iteration order (empty
    when none is left): the vertices, the normals, the texture coordinates
    and the offset indices of their meshes, one block of matrix-index tags
    per member left, numbered from 0, and one transform per member left.
    When the members left carry the scene meshes [ms], the buffers are the
    geometry of [ms] and of nothing else. *)
Theorem C6_eviction_regenerates (d : bool) (st : State) (p : ptr) :
  p ∈ render_data_set_ (this st) →
  disabled (heap st) p = true →
  (∀ q, q ∈ render_data_set_ (this st) → is_Some (heap st !! q)) →
  (∀ q, q ∈ render_data_set_ (this st) → disabled (heap st) q = false →
        mesh_ok (mesh_at (heap st) (this st) q)) →
  ∃ r st',
    setupMesh d st = Some (r, st')
    ∧ (p ∉ render_data_set_ (this st'))
    ∧ (p ∉ dom (matrix_index_map_ (this st')))
    ∧ (∃ rd', heap st' !! p = Some rd' ∧ batching rd' = false
              ∧ rd_batch rd' = None)
    ∧ (∀ q, q ∈ render_data_set_ (this st')
            ↔ (q ∈ render_data_set_ (this st) ∧ disabled (heap st) q = false))
    ∧ vertices_ (this st')
      = concat (map vertices (map (mesh_at (heap st) (this st))
                                (elements (render_data_set_ (this st')))))
    ∧ normals_ (this st')
      = concat (map normals (map (mesh_at (heap st) (this st))
                               (elements (render_data_set_ (this st')))))
    ∧ tex_coords_ (this st')
      = concat (map read_texcoords (map (mesh_at (heap st) (this st))
                                      (elements (render_data_set_ (this st')))))
    ∧ indices_ (this st')
      = offset_indices 0 (map (mesh_at (heap st) (this st))
                            (elements (render_data_set_ (this st'))))
    ∧ matrix_indices_ (this st')
      = slot_tags 0
          (map (λ q, length (vertices (mesh_at (heap st) (this st) q)))
             (elements (render_data_set_ (this st'))))
    ∧ matrices_ (this st')
      = map (model_matrix_at (heap st)) (elements (render_data_set_ (this st')))
    ∧ ∀ ms : list Mesh,
        Forall2 (λ q m, ∃ rd, heap st !! q = Some rd ∧ rd_mesh rd = SceneMesh m)
          (elements (render_data_set_ (this st'))) ms →
        vertices_ (this st') = concat (map vertices ms)
        ∧ normals_ (this st') = concat (map normals ms)
        ∧ tex_coords_ (this st') = concat (map read_texcoords ms)
        ∧ indices_ (this st') = offset_indices 0 ms
        ∧ matrix_indices_ (this st')
          = slot_tags 0 (map (λ m, length (vertices m)) ms).
Proof.
  intros Hp Hdis Hlive Hmeshes.
  destruct (isRenderModified_loop_spec (elements (render_data_set_ (this st)))
              (NoDup_elements _) false st)
    as (u & st1 & Hscan & Hset & Hev & Hkeep & _ & Hany).
  { intros q Hq. apply elem_of_elements in Hq. apply Hlive, Hq. }
  destruct (isRenderModified_loop_batch _ _ _ _ _ Hscan) as (S1 & Hb1 & Hfree).
  assert (Hu : u = true).
  { apply (Hany p); [apply elem_of_elements|]; assumption. }
  assert (Hleft : ∀ q, q ∈ render_data_set_ (this st1)
                       ↔ (q ∈ render_data_set_ (this st)
                          ∧ disabled (heap st) q = false)).
  { intros q. rewrite Hset, elem_of_elements. split.
    - intros [Hq Hno]. split; [exact Hq|].
      destruct (disabled (heap st) q); [|reflexivity].
      exfalso. apply Hno. split; [exact Hq | reflexivity].
    - intros [Hq Hno]. split; [exact Hq|]. intros [_ Hd]. congruence. }
  assert (Hp1 : p ∉ render_data_set_ (this st1)).
  { rewrite Hleft. intros [_ Hno]. congruence. }
  assert (Hheap : ∃ rd', heap st1 !! p = Some rd' ∧ batching rd' = false
                         ∧ rd_batch rd' = None).
  { destruct (Hlive p Hp) as [rd Hrd].
    exists (evicted rd).
    rewrite (Hev p), Hrd; [repeat split | apply elem_of_elements, Hp | exact Hdis]. }
  assert (Hmesh : ∀ q, q ∈ elements (render_data_set_ (this st1)) →
                       mesh_at (heap st1) (this st1) q
                       = mesh_at (heap st) (this st) q).
  { intros q Hq. apply elem_of_elements, Hleft in Hq as [Hq Hno].
    unfold mesh_at. rewrite Hkeep by (intros [_ ?]; congruence).
    rewrite Hb1. reflexivity. }
  assert (Hmatrix : ∀ q, q ∈ elements (render_data_set_ (this st1)) →
                         model_matrix_at (heap st1) q
                         = model_matrix_at (heap st) q).
  { intros q Hq. apply elem_of_elements, Hleft in Hq as [Hq Hno].
    unfold model_matrix_at. rewrite Hkeep by (intros [_ ?]; congruence).
    reflexivity. }
  assert (Hlen : ∀ q, q ∈ elements (render_data_set_ (this st1)) →
                      length (vertices (mesh_at (heap st1) (this st1) q))
                      = length (vertices (mesh_at (heap st) (this st) q))).
  { intros q Hq. rewrite (Hmesh q Hq). reflexivity. }
  unfold setupMesh, isRenderModified. rewrite Hscan. cbn [mbind option_bind].
  destruct (Z.eqb_spec 0 (Z.of_nat (size (render_data_set_ (this st1)))))
    as [Hzero|Hsize].
  - assert (render_data_set_ (this st1) = ∅) as Hempty.
    { apply leibniz_equiv, size_empty_inv. lia. }
    exists false, (resetBatch st1). split; [reflexivity|].
    unfold resetBatch, clearData. batch_fields.
    split; [exact Hp1|].
    split; [rewrite dom_empty_L; apply not_elem_of_empty|].
    split; [exact Hheap|]. split; [exact Hleft|].
    rewrite Hempty, elements_empty.
    do 6 (split; [reflexivity|]).
    intros ms Hms. apply Forall2_nil_inv_l in Hms. subst ms.
    repeat split.
  - rewrite Hu, orb_true_r.
    assert (Hmembers : ∀ q, q ∈ render_data_set_ (this st1) →
              is_Some (heap st1 !! q)
              ∧ mesh_ok (mesh_at (heap st1) (this st1) q)).
    { intros q Hq. pose proof (proj1 (Hleft q) Hq) as [Hq0 Hno]. split.
      - rewrite Hkeep by (intros [_ ?]; congruence). exact (Hlive q Hq0).
      - rewrite (Hmesh q) by (apply elem_of_elements, Hq).
        exact (Hmeshes q Hq0 Hno). }
    destruct (regenerateMeshData_closed st1 Hmembers)
      as (st2 & Hregen & Hh2 & _ & Hset2 & _ & Hv & Hn & Ht & Hi & Hdom & _).
    destruct (regenerateMeshData_slots st1 st2 Hmembers Hregen)
      as (Hmat & Htags).
    rewrite Hregen. cbn [mbind option_bind]. cbv zeta.
    rewrite (map_ext_elem_of _ _ _ Hmesh) in Hv, Hn, Ht, Hi.
    rewrite (map_ext_elem_of _ _ _ Hmatrix) in Hmat.
    rewrite (map_ext_elem_of _ _ _ Hlen) in Htags.
    exists true, (refreshed st2). split; [reflexivity|].
    destruct (refreshed_slots st2) as (-> & ->).
    destruct (refreshed_fields st2) as (-> & -> & -> & -> & -> & -> & ->).
    rewrite Hh2, Hset2, Hdom.
    split; [exact Hp1|]. split; [exact Hp1|]. split; [exact Hheap|].
    split; [exact Hleft|].
    split; [exact Hv|]. split; [exact Hn|]. split; [exact Ht|].
    split; [exact Hi|]. split; [exact Htags|]. split; [exact Hmat|].
    intros ms Hms.
    assert (Hat : ∀ qs ms,
              Forall2 (λ q m, ∃ rd, heap st !! q = Some rd
                                    ∧ rd_mesh rd = SceneMesh m) qs ms →
              map (mesh_at (heap st) (this st)) qs = ms).
    { induction 1 as [|q m qs ms' (rd & Hrd & Hm) _ IH]; [reflexivity|].
      cbn [map]. rewrite IH. unfold mesh_at. rewrite Hrd, Hm. reflexivity. }
    apply Hat in Hms.
    rewrite Hv, Hn, Ht, Hi, Htags, <- Hms.
    do 4 (split; [reflexivity|]).
    f_equal. symmetry. apply map_map.
Qed.

(** * Further properties of the class *)

(** ** [updateMesh] *)

(** The vertex loop runs out of texture coordinates. *)
Lemma vertex_loop_none (vs : list vec3) (ts : list vec2) (n : nat) :
  ∀ (i : Z) (b : Batch),
    0 ≤ i →
    (Z.to_nat i + n ≤ length vs)%nat →
    (Z.to_nat i ≤ length ts < Z.to_nat i + n)%nat →
    for_loop n i
      (λ i b,
         v ← at_ vs i;
         let b := set_vertices_ (vertices_ b ++ [v]) b in
         let b := set_matrix_indices_
                    (matrix_indices_ b ++ [float_of_int (draw_count_ b)]) b in
         t ← at_ ts i;
         Some (set_tex_coords_ (tex_coords_ b ++ [t]) b)) b
    = None.
Proof.
  induction n as [|n IH]; intros i b Hi Hvs Hts; [lia|].
  cbn [for_loop].
  destruct (lookup_lt_is_Some_2 vs (Z.to_nat i)) as [v Hv]; [lia|].
  rewrite !at_lookup, Hv by lia. cbn [mbind option_bind].
  destruct (ts !! Z.to_nat i) as [t|] eqn:Ht; cbn [mbind option_bind];
    [|reflexivity].
  apply lookup_lt_Some in Ht.
  apply IH; rewrite ?Z_to_nat_succ by lia; lia.
Qed.

(** X1: on a mesh whose sizes are [int]s and which has a texture coordinate
    for every vertex, [updateMesh] returns, and the batch it returns has the
    vertices appended to [vertices_], the texture coordinates of these
    vertices appended to [tex_coords_], one tag [draw_count_] per vertex
    appended to [matrix_indices_], all the normals of the mesh (none when it
    has none) appended to [normals_], the indices shifted by
    [index_offset_] modulo 2^16 appended to [indices_], the counters advanced
    by the sizes, [draw_count_] advanced by one and [mesh_init_] lowered;
    the transforms, the map, the tracking set, the capacities, the prototype,
    the other flags, the material and the merged mesh are untouched. *)
Theorem X1_updateMesh_appends (b : Batch) (m : Mesh) :
  mesh_ok m →
  ∃ b',
    updateMesh b m = Some b'
    ∧ (vertices_ b' = vertices_ b ++ vertices m
       ∧ tex_coords_ b'
         = tex_coords_ b ++ take (length (vertices m)) (a_texcoord m)
       ∧ matrix_indices_ b'
         = matrix_indices_ b
           ++ replicate (length (vertices m)) (float_of_int (draw_count_ b))
       ∧ normals_ b' = normals_ b ++ normals m
       ∧ indices_ b'
         = indices_ b
           ++ map (λ i, (i + index_offset_ b) mod 65536) (indices m))
    ∧ (draw_count_ b' = to_int (draw_count_ b + 1)
       ∧ vertex_count_ b' = to_int (vertex_count_ b + vsize (vertices m))
       ∧ index_count_ b' = to_int (index_count_ b + vsize (indices m))
       ∧ index_offset_ b' = to_int (index_offset_ b + vsize (vertices m))
       ∧ mesh_init_ b' = false)
    ∧ (matrices_ b' = matrices_ b
       ∧ matrix_index_map_ b' = matrix_index_map_ b
       ∧ render_data_set_ b' = render_data_set_ b
       ∧ vertex_limit_ b' = vertex_limit_ b
       ∧ indices_limit_ b' = indices_limit_ b
       ∧ renderdata_ b' = renderdata_ b
       ∧ not_batched_ b' = not_batched_ b
       ∧ batch_dirty_ b' = batch_dirty_ b
       ∧ material_ b' = material_ b
       ∧ mesh_ b' = mesh_ b).
Proof.
  intros Hok. exists (merged b m).
  split; [apply updateMesh_merged; assumption|].
  unfold merged. batch_fields.
  split; [|split; repeat split].
  repeat split. f_equal. apply map_ext. intros i. apply to_ushort_to_int.
Qed.

(** X2: on a mesh whose sizes are [int]s, [updateMesh] reads outside a
    vector, and so has no result, exactly when the mesh has fewer texture
    coordinates than vertices. *)
Theorem X2_updateMesh_out_of_bounds (b : Batch) (m : Mesh) :
  vsize (vertices m) ≤ INT_MAX →
  vsize (normals m) ≤ INT_MAX →
  vsize (indices m) ≤ INT_MAX →
  updateMesh b m = None
  ↔ (length (a_texcoord m) < length (vertices m))%nat.
Proof.
  intros Hv Hn Hi. split.
  - intros Hnone.
    destruct (Nat.lt_ge_cases (length (a_texcoord m)) (length (vertices m)))
      as [Hlt|Hge]; [exact Hlt|].
    rewrite updateMesh_merged in Hnone; [discriminate|].
    repeat split; assumption.
  - intros Hlt. unfold updateMesh, for_int.
    rewrite (to_int_vsize (vertices m)) by assumption.
    rewrite vertex_loop_none; [reflexivity | lia | |];
      change (Z.to_nat 0) with 0%nat; lia.
Qed.

(** ** [add] *)

(** The five ways out of [add]. *)
Lemma add_inv (p : ptr) (st st' : State) (r : bool) :
  add p st = Some (r, st') →
  ∃ rd pass0,
    heap st !! p = Some rd
    ∧ rd_passes rd !! 0%nat = Some pass0
    ∧ ((batching rd = false ∧ r = true
        ∧ st' = stored p (synced rd)
                  (set_not_batched_ true
                     (tracked p (bookkept p rd pass0 (this st)))) st)
       ∨ (batching rd = true ∧ has_non_texture_pass rd = true ∧ r = true
          ∧ st' = stored p (synced rd)
                    (tracked p (bookkept p rd pass0 (this st))) st)
       ∨ (batching rd = true ∧ has_non_texture_pass rd = false
          ∧ over_capacity (this st)
              (indices (resolve_mesh (this st) (rd_mesh rd))) = true
          ∧ draw_count_ (this st) > 0 ∧ r = false
          ∧ st' = stored p (synced rd) (bookkept p rd pass0 (this st)) st)
       ∨ (batching rd = true ∧ has_non_texture_pass rd = false
          ∧ over_capacity (this st)
              (indices (resolve_mesh (this st) (rd_mesh rd))) = true
          ∧ draw_count_ (this st) ≤ 0 ∧ r = true
          ∧ st' = stored p (set_batching false (synced rd))
                    (set_not_batched_ true
                       (tracked p (bookkept p rd pass0 (this st)))) st)
       ∨ (batching rd = true ∧ has_non_texture_pass rd = false
          ∧ over_capacity (this st)
              (indices (resolve_mesh (this st) (rd_mesh rd))) = false
          ∧ r = true
          ∧ ∃ b',
              updateMesh
                (tracked p
                   (with_prototype (synced rd) (bookkept p rd pass0 (this st))))
                (resolve_mesh (this st) (rd_mesh rd)) = Some b'
              ∧ st' = stored p (synced rd) b' st)).
Proof.
  rewrite add_unfold. intros Hadd.
  destruct (heap st !! p) as [rd|] eqn:Hp; [|discriminate].
  cbn [mbind option_bind] in Hadd.
  destruct (rd_passes rd !! 0%nat) as [pass0|] eqn:Hpass; [|discriminate].
  cbn [mbind option_bind] in Hadd. cbv zeta in Hadd.
  exists rd, pass0. split; [reflexivity|]. split; [exact Hpass|].
  destruct (batching rd); cbn [negb] in Hadd.
  2:{ injection Hadd as <- <-. left. repeat split. }
  right.
  destruct (has_non_texture_pass rd).
  { injection Hadd as <- <-. left. repeat split. }
  right.
  destruct (over_capacity (this st) _).
  - destruct (Z.gtb_spec (draw_count_ (this st)) 0) as [Hdc|Hdc];
      injection Hadd as <- <-.
    + left. repeat split. lia.
    + right. left. repeat split. lia.
  - right. right.
    destruct (updateMesh _ _) as [b'|] eqn:Hup; [|discriminate].
    cbn [mbind option_bind] in Hadd. injection Hadd as <- <-.
    repeat split. exists b'. split; reflexivity.
Qed.

Ltac add_cases H p st :=
  let rd := fresh "rd" in
  let pass0 := fresh "pass0" in
  let Hp := fresh "Hp" in
  let Hpass := fresh "Hpass" in
  let Hup := fresh "Hup" in
  let b' := fresh "b'" in
  let o := fresh "o" in
  let Ho := fresh "Ho" in
  apply add_inv in H
    as (rd & pass0 & Hp & Hpass
        & [ (Hbatching & -> & ->)
          | [ (Hbatching & Hnt & -> & ->)
            | [ (Hbatching & Hnt & Hcap & Hdc & -> & ->)
              | [ (Hbatching & Hnt & Hcap & Hdc & -> & ->)
                | (Hbatching & Hnt & Hcap & -> & b' & Hup & ->) ]]]]);
  [ | | | |
    destruct (with_prototype_shape (synced rd)
                (bookkept p rd pass0 (this st))) as [o Ho];
    rewrite Ho in Hup;
    let vs := fresh "vs" in
    let ns := fresh "ns" in
    let ts := fresh "ts" in
    let ixs := fresh "ixs" in
    apply updateMesh_some in Hup as (vs & ns & ts & ixs & ->) ].

(** X3: whatever [add] returns, merged, unbatched or rejected, it has pointed
    [material_] at the first-pass material of the renderable, mapped the
    renderable to the value [draw_count_] had before the call, leaving the
    other entries of the map alone, and appended the model matrix of the
    renderable (the default matrix when its owner has no transform) to
    [matrices_]. *)
Theorem X3_add_records_slot (p : ptr) (st st' : State) (r : bool) :
  add p st = Some (r, st') →
  ∃ rd pass0,
    heap st !! p = Some rd
    ∧ rd_passes rd !! 0%nat = Some pass0
    ∧ material_ (this st') = Some (material pass0)
    ∧ matrix_index_map_ (this st') !! p = Some (draw_count_ (this st))
    ∧ (∀ q, q ≠ p →
            matrix_index_map_ (this st') !! q = matrix_index_map_ (this st) !! q)
    ∧ matrices_ (this st')
      = matrices_ (this st)
        ++ [match transform (owner_object rd) with
            | Some m => m
            | None => mat4_identity
            end].
Proof.
  intros Hadd. add_cases Hadd p st; exists rd, pass0; batch_unfold;
    (split; [exact Hp|]); (split; [exact Hpass|]); (split; [reflexivity|]);
    (split; [apply lookup_insert_eq|]);
    (split; [intros q Hq; apply lookup_insert_ne; congruence | reflexivity]).
Qed.

(** X4: a call of [add] that returns success has put the renderable in the
    tracking set, a call that returns failure has left the tracking set as it
    was, and no call removes a member. *)
Theorem X4_add_tracks_on_success (p : ptr) (st st' : State) (r : bool) :
  add p st = Some (r, st') →
  render_data_set_ (this st')
  = (if r then {[p]} ∪ render_data_set_ (this st) else render_data_set_ (this st))
  ∧ render_data_set_ (this st) ⊆ render_data_set_ (this st').
Proof.
  intros Hadd. add_cases Hadd p st; batch_unfold;
    (split; [reflexivity|]); try reflexivity; apply union_subseteq_r.
Qed.

(** X5: in the scene, [add] writes to the offered renderable only, whatever
    it returns: every other renderable is as it was; the offered one has both
    dirty flags cleared and keeps its mesh, its passes, its enabled flags,
    its transform and its batch back-reference; its batching flag is kept
    too, except that a batching-eligible renderable loses it when the call
    returns success without advancing [draw_count_] beyond zero (the lone
    renderable that does not fit). *)
Theorem X5_add_writes_one_renderable (p : ptr) (st st' : State) (r : bool) :
  add p st = Some (r, st') →
  (∀ q, q ≠ p → heap st' !! q = heap st !! q)
  ∧ freeBatch_calls st' = freeBatch_calls st
  ∧ ∃ rd rd',
      heap st !! p = Some rd
      ∧ heap st' !! p = Some rd'
      ∧ renderdata_dirty rd' = false
      ∧ transform_dirty (owner_object rd') = false
      ∧ rd_mesh rd' = rd_mesh rd
      ∧ rd_passes rd' = rd_passes rd
      ∧ enabled rd' = enabled rd
      ∧ so_enabled (owner_object rd') = so_enabled (owner_object rd)
      ∧ transform (owner_object rd') = transform (owner_object rd)
      ∧ rd_batch rd' = rd_batch rd
      ∧ (batching rd' = batching rd
         ∨ (batching rd = true ∧ batching rd' = false ∧ r = true
            ∧ has_non_texture_pass rd = false
            ∧ draw_count_ (this st) ≤ 0
            ∧ draw_count_ (this st') = draw_count_ (this st))).
Proof.
  intros Hadd. add_cases Hadd p st; batch_unfold;
    (split; [intros q Hq; apply lookup_insert_ne; congruence|]);
    (split; [reflexivity|]);
    eexists rd, _; (split; [exact Hp|]);
    (split; [apply lookup_insert_eq|]); batch_fields;
    repeat (split; [reflexivity|]).
  - left. reflexivity.
  - left. reflexivity.
  - left. reflexivity.
  - right. repeat split; assumption.
  - left. reflexivity.
Qed.

(** X6: [add] never replaces a prototype: a batch that owns one keeps it; a
    batch that owns none receives one exactly when the call merges the
    renderable while [draw_count_] is zero, and that prototype is the
    renderable as [add] left it, with its batching flag raised. *)
Theorem X6_add_prototype (p : ptr) (st st' : State) (r : bool) :
  add p st = Some (r, st') →
  ∃ rd,
    heap st !! p = Some rd
    ∧ renderdata_ (this st')
      = match renderdata_ (this st) with
        | Some proto => Some proto
        | None =>
            if (draw_count_ (this st) =? 0)
               && negb (draw_count_ (this st') =? draw_count_ (this st))
            then Some (set_batching true (synced rd))
            else None
        end.
Proof.
  intros Hadd.
  assert (Hsucc : ∀ z, (to_int (z + 1) =? z) = false).
  { intros z. apply Z.eqb_neq. unfold to_int. Z.div_mod_to_equations. lia. }
  apply add_inv in Hadd
    as (rd & pass0 & Hp & Hpass
        & [ (Hbatching & -> & ->)
          | [ (Hbatching & Hnt & -> & ->)
            | [ (Hbatching & Hnt & Hcap & Hdc & -> & ->)
              | [ (Hbatching & Hnt & Hcap & Hdc & -> & ->)
                | (Hbatching & Hnt & Hcap & -> & b' & Hup & ->) ]]]]);
    exists rd; (split; [exact Hp|]).
  1-4: batch_unfold; rewrite Z.eqb_refl, andb_false_r;
       destruct (renderdata_ (this st)); reflexivity.
  apply updateMesh_some in Hup as (vs & ns & ts & ixs & ->).
  unfold with_prototype. batch_unfold.
  destruct (draw_count_ (this st) =? 0) eqn:Hzero;
    destruct (renderdata_ (this st)) eqn:Hproto; batch_fields;
    rewrite ?Hproto, ?Hsucc; reflexivity.
Qed.

(** X8: after [add] the flag [not_batched_] is raised if it was raised
    before or if the renderable ends with its batching flag cleared (it opted
    out, or it is the lone renderable that does not fit), and only then: a
    renderable tracked for a pass that is not a texture shader does not raise
    it, and no call lowers it. *)
Theorem X8_add_not_batched (p : ptr) (st st' : State) (r : bool) :
  add p st = Some (r, st') →
  ∃ rd',
    heap st' !! p = Some rd'
    ∧ not_batched_ (this st')
      = not_batched_ (this st) || negb (batching rd').
Proof.
  intros Hadd. add_cases Hadd p st; batch_unfold;
    eexists; (split; [apply lookup_insert_eq|]); batch_fields;
    rewrite ?Hbatching; cbn [negb];
    rewrite ?orb_true_r, ?orb_false_r; reflexivity.
Qed.

Lemma to_int_succ_neq z : to_int (z + 1) ≠ z.
Proof. unfold to_int. Z.div_mod_to_equations. lia. Qed.

(** X7: on a live renderable with a first pass and an in-bounds mesh, and a
    batch whose index counter and limit are non-negative [int]s, [add]
    merges the renderable exactly when it is batching-eligible, all its
    passes are texture shaders, it has at least one index and its indices fit
    under [indices_limit_].  A merge returns success, advances [draw_count_]
    by one and [index_count_] by the number of indices without wrapping,
    appends the geometry tagged with the former [draw_count_], lowers
    [mesh_init_] and leaves the batching flag of the renderable raised.  In
    every other case the counters, the five merge buffers, [mesh_init_] and
    the prototype are as they were. *)
Theorem X7_add_merges_iff (p : ptr) (st : State) (rd : RenderData)
    (pass0 : RenderPass) :
  heap st !! p = Some rd →
  rd_passes rd !! 0%nat = Some pass0 →
  mesh_ok (resolve_mesh (this st) (rd_mesh rd)) →
  0 ≤ index_count_ (this st) ≤ INT_MAX →
  0 ≤ indices_limit_ (this st) ≤ INT_MAX →
  let m := resolve_mesh (this st) (rd_mesh rd) in
  let fits :=
    batching rd = true
    ∧ Forall (λ q, shader_type (material q) = TEXTURE_SHADER) (rd_passes rd)
    ∧ vsize (indices m) ≠ 0
    ∧ vsize (indices m) + index_count_ (this st) ≤ indices_limit_ (this st) in
  ∃ r st',
    add p st = Some (r, st')
    ∧ (fits ↔ draw_count_ (this st') ≠ draw_count_ (this st))
    ∧ (fits →
       r = true
       ∧ draw_count_ (this st') = to_int (draw_count_ (this st) + 1)
       ∧ index_count_ (this st') = index_count_ (this st) + vsize (indices m)
       ∧ vertices_ (this st') = vertices_ (this st) ++ vertices m
       ∧ indices_ (this st')
         = indices_ (this st)
           ++ map (λ i, to_ushort (to_int (i + index_offset_ (this st))))
                (indices m)
       ∧ matrix_indices_ (this st')
         = matrix_indices_ (this st)
           ++ replicate (length (vertices m))
                (float_of_int (draw_count_ (this st)))
       ∧ mesh_init_ (this st') = false
       ∧ batching <$> heap st' !! p = Some true)
    ∧ (¬ fits →
       draw_count_ (this st') = draw_count_ (this st)
       ∧ vertex_count_ (this st') = vertex_count_ (this st)
       ∧ index_count_ (this st') = index_count_ (this st)
       ∧ index_offset_ (this st') = index_offset_ (this st)
       ∧ vertices_ (this st') = vertices_ (this st)
       ∧ normals_ (this st') = normals_ (this st)
       ∧ tex_coords_ (this st') = tex_coords_ (this st)
       ∧ indices_ (this st') = indices_ (this st)
       ∧ matrix_indices_ (this st') = matrix_indices_ (this st)
       ∧ mesh_init_ (this st') = mesh_init_ (this st)
       ∧ renderdata_ (this st') = renderdata_ (this st)).
Proof.
  intros Hp Hpass Hok Hic Hlim m fits.
  pose proof (over_capacity_spec (this st) (indices m) Hic Hlim
                (proj1 (proj2 (proj2 Hok)))) as Hcap.
  pose proof (has_non_texture_pass_false rd) as Htex.
  assert (Hframe : ∀ (r : bool) (rd' : RenderData) (b1 : Batch),
    ¬ fits →
    draw_count_ b1 = draw_count_ (this st) →
    vertex_count_ b1 = vertex_count_ (this st) →
    index_count_ b1 = index_count_ (this st) →
    index_offset_ b1 = index_offset_ (this st) →
    vertices_ b1 = vertices_ (this st) →
    normals_ b1 = normals_ (this st) →
    tex_coords_ b1 = tex_coords_ (this st) →
    indices_ b1 = indices_ (this st) →
    matrix_indices_ b1 = matrix_indices_ (this st) →
    mesh_init_ b1 = mesh_init_ (this st) →
    renderdata_ b1 = renderdata_ (this st) →
    ∃ r0 st',
      Some (r, stored p rd' b1 st) = Some (r0, st')
      ∧ (fits ↔ draw_count_ (this st') ≠ draw_count_ (this st))
      ∧ (fits → r0 = true
         ∧ draw_count_ (this st') = to_int (draw_count_ (this st) + 1)
         ∧ index_count_ (this st') = index_count_ (this st) + vsize (indices m)
         ∧ vertices_ (this st') = vertices_ (this st) ++ vertices m
         ∧ indices_ (this st')
           = indices_ (this st)
             ++ map (λ i, to_ushort (to_int (i + index_offset_ (this st))))
                  (indices m)
         ∧ matrix_indices_ (this st')
           = matrix_indices_ (this st)
             ++ replicate (length (vertices m))
                  (float_of_int (draw_count_ (this st)))
         ∧ mesh_init_ (this st') = false
         ∧ batching <$> heap st' !! p = Some true)
      ∧ (¬ fits →
         draw_count_ (this st') = draw_count_ (this st)
         ∧ vertex_count_ (this st') = vertex_count_ (this st)
         ∧ index_count_ (this st') = index_count_ (this st)
         ∧ index_offset_ (this st') = index_offset_ (this st)
         ∧ vertices_ (this st') = vertices_ (this st)
         ∧ normals_ (this st') = normals_ (this st)
         ∧ tex_coords_ (this st') = tex_coords_ (this st)
         ∧ indices_ (this st') = indices_ (this st)
         ∧ matrix_indices_ (this st') = matrix_indices_ (this st)
         ∧ mesh_init_ (this st') = mesh_init_ (this st)
         ∧ renderdata_ (this st') = renderdata_ (this st))).
  { intros r rd' b1 Hno H1 H2 H3 H4 H5 H6 H7 H8 H9 H10 H11.
    eexists _, _. split; [reflexivity|]. unfold stored. batch_fields.
    split; [split; [tauto | intros Hne; congruence]|].
    split; [tauto|]. intros _. repeat split; assumption. }
  rewrite add_unfold, Hp. cbn [mbind option_bind]. rewrite Hpass.
  cbn [mbind option_bind]. cbv zeta. fold m.
  destruct (batching rd) eqn:Hbatching; cbn [negb].
  2:{ apply Hframe; try reflexivity. intros (? & _). discriminate. }
  destruct (has_non_texture_pass rd) eqn:Hnt.
  { apply Hframe; try reflexivity. intros (_ & Hall & _).
    apply Htex in Hall. discriminate. }
  destruct (over_capacity (this st) (indices m)) eqn:Hover.
  - assert (¬ fits) as Hno.
    { intros (_ & _ & Hnz & Hle). pose proof (proj1 Hcap eq_refl). lia. }
    destruct (draw_count_ (this st) >? 0); apply Hframe;
      try reflexivity; exact Hno.
  - assert (fits) as Hfits.
    { split; [reflexivity|]. split; [apply Htex; reflexivity|].
      assert (¬ (vsize (indices m) = 0
                 ∨ vsize (indices m) + index_count_ (this st)
                   > indices_limit_ (this st))) as Hfit.
      { intros H. apply (proj2 Hcap) in H. discriminate H. }
      lia. }
    rewrite updateMesh_merged by assumption. cbn [mbind option_bind].
    eexists _, _. split; [reflexivity|].
    destruct (with_prototype_shape (synced rd) (bookkept p rd pass0 (this st)))
      as [o ->].
    unfold merged. batch_unfold. rewrite lookup_insert_eq.
    split; [split; [intros _; apply to_int_succ_neq | intros _; exact Hfits]|].
    split; [|tauto]. intros _.
    assert (0 ≤ vsize (indices m)) by (unfold vsize; lia).
    destruct Hfits as (_ & _ & _ & Hle).
    rewrite (to_int_id (index_count_ (this st) + vsize (indices m)))
      by (unfold INT_MAX in *; lia).
    cbn [fmap option_map option_fmap]. batch_fields. rewrite Hbatching.
    repeat split.
Qed.

(** ** [setupMesh] *)

Lemma isRenderModified_loop_subset (its : list ptr) :
  ∀ (u u' : bool) (st st' : State),
    isRenderModified_loop its u st = Some (u', st') →
    render_data_set_ (this st') ⊆ render_data_set_ (this st).
Proof.
  induction its as [|it its IH]; intros u u' st st' Hrun.
  - cbn [isRenderModified_loop] in Hrun. injection Hrun as <- <-. reflexivity.
  - cbn [isRenderModified_loop] in Hrun.
    destruct (heap st !! it) as [rd|]; [|discriminate].
    cbn [mbind option_bind] in Hrun.
    destruct (negb (enabled rd) || negb (so_enabled (owner_object rd))).
    + apply IH in Hrun. batch_fields.
      etransitivity; [exact Hrun|]. apply subseteq_difference_l. reflexivity.
    + apply IH in Hrun. exact Hrun.
Qed.

(** [setupMesh], step by step. *)
Lemma setupMesh_inv (d r : bool) (st st' : State) :
  setupMesh d st = Some (r, st') →
  ∃ u st1,
    isRenderModified st = Some (u, st1)
    ∧ ((render_data_set_ (this st1) = ∅ ∧ r = false ∧ st' = resetBatch st1)
       ∨ (size (render_data_set_ (this st1)) ≠ 0%nat ∧ r = true
          ∧ ∃ st2,
              (if d || u then regenerateMeshData st1 else Some st1) = Some st2
              ∧ st' = refreshed st2)).
Proof.
  unfold setupMesh. intros Hrun.
  destruct (isRenderModified st) as [[u st1]|]; [|discriminate].
  cbn [mbind option_bind] in Hrun. exists u, st1. split; [reflexivity|].
  destruct (Z.eqb_spec 0 (Z.of_nat (size (render_data_set_ (this st1)))))
    as [Hzero|Hsize].
  - injection Hrun as <- <-. left. repeat split.
    apply leibniz_equiv, size_empty_inv. lia.
  - right. split; [lia|].
    match type of Hrun with
    | context [mbind _ ?x] => destruct x as [st2|]; [|discriminate]
    end.
    cbn [mbind option_bind] in Hrun. injection Hrun as <- <-.
    split; [reflexivity|]. exists st2. split; reflexivity.
Qed.

Lemma regenerateMeshData_frame (st st' : State) :
  regenerateMeshData st = Some st' →
  heap st' = heap st
  ∧ freeBatch_calls st' = freeBatch_calls st
  ∧ render_data_set_ (this st') = render_data_set_ (this st)
  ∧ renderdata_ (this st') = renderdata_ (this st)
  ∧ vertex_limit_ (this st') = vertex_limit_ (this st)
  ∧ indices_limit_ (this st') = indices_limit_ (this st)
  ∧ not_batched_ (this st') = not_batched_ (this st)
  ∧ material_ (this st') = material_ (this st)
  ∧ mesh_ (this st') = mesh_ (this st).
Proof.
  unfold regenerateMeshData. intros Hrun.
  destruct (regenerate_loop _ _ _) as [b2|] eqn:Hloop; [|discriminate].
  cbn [mbind option_bind] in Hrun. injection Hrun as <-.
  apply regenerate_loop_frame in Hloop as (H1 & H2 & H3 & H4 & H5 & H6 & H7).
  batch_fields. rewrite H1, H2, H3, H4, H5, H6, H7.
  repeat split.
Qed.

Lemma refreshed_frame (st : State) :
  freeBatch_calls (refreshed st) = freeBatch_calls st
  ∧ vertex_limit_ (this (refreshed st)) = vertex_limit_ (this st)
  ∧ indices_limit_ (this (refreshed st)) = indices_limit_ (this st)
  ∧ not_batched_ (this (refreshed st)) = not_batched_ (this st)
  ∧ material_ (this (refreshed st)) = material_ (this st)
  ∧ batch_dirty_ (this (refreshed st)) = false
  ∧ mesh_init_ (this (refreshed st)) = true.
Proof.
  unfold refreshed. cbv zeta. batch_fields.
  destruct (mesh_init_ (this st)) eqn:Hinit; cbn [negb]; batch_fields;
    [repeat split; exact Hinit|].
  unfold meshInit. batch_fields.
  destruct (renderdata_ (this st)); batch_fields; repeat split.
Qed.

(** X9: a call of [setupMesh] that returns never adds a member and never
    changes the capacities, the flag [not_batched_] or the material pointer;
    it leaves the dirty flag cleared; it returns false exactly when it leaves
    the tracking set empty, and it is then, and only then, that the pool
    owner receives a [freeBatch] notification, exactly one; when it returns
    true the merged mesh is marked initialised. *)
Theorem X9_setupMesh_frame (d r : bool) (st st' : State) :
  setupMesh d st = Some (r, st') →
  render_data_set_ (this st') ⊆ render_data_set_ (this st)
  ∧ vertex_limit_ (this st') = vertex_limit_ (this st)
  ∧ indices_limit_ (this st') = indices_limit_ (this st)
  ∧ not_batched_ (this st') = not_batched_ (this st)
  ∧ material_ (this st') = material_ (this st)
  ∧ batch_dirty_ (this st') = false
  ∧ (r = false ↔ render_data_set_ (this st') = ∅)
  ∧ freeBatch_calls st'
    = (if r then freeBatch_calls st else S (freeBatch_calls st))
  ∧ (r = true → mesh_init_ (this st') = true).
Proof.
  intros Hrun.
  apply setupMesh_inv in Hrun
    as (u & st1 & Hscan
        & [ (Hempty & -> & ->) | (Hsize & -> & st2 & Hregen & ->) ]);
    unfold isRenderModified in Hscan;
    pose proof (isRenderModified_loop_subset _ _ _ _ _ Hscan) as Hsub;
    apply isRenderModified_loop_batch in Hscan as (S1 & Hb1 & Hfree).
  - unfold resetBatch, clearData. batch_fields.
    rewrite Hempty, Hb1, Hfree. batch_fields.
    split; [apply empty_subseteq|].
    repeat split; try reflexivity. discriminate.
  - assert (Hframe : render_data_set_ (this st2) = render_data_set_ (this st1)
                     ∧ vertex_limit_ (this st2) = vertex_limit_ (this st1)
                     ∧ indices_limit_ (this st2) = indices_limit_ (this st1)
                     ∧ not_batched_ (this st2) = not_batched_ (this st1)
                     ∧ material_ (this st2) = material_ (this st1)
                     ∧ freeBatch_calls st2 = freeBatch_calls st1).
    { destruct (d || u).
      - apply regenerateMeshData_frame in Hregen
          as (_ & ? & ? & _ & ? & ? & ? & ? & _). repeat split; assumption.
      - injection Hregen as <-. repeat split. }
    destruct Hframe as (Hs & Hvl & Hil & Hnb & Hmat & Hfr).
    destruct (refreshed_fields st2) as (_ & Hrs & _).
    destruct (refreshed_frame st2) as (Hrf & Hrvl & Hril & Hrnb & Hrmat & Hrd & Hri).
    rewrite Hrs, Hrf, Hrvl, Hril, Hrnb, Hrmat, Hrd, Hri.
    rewrite Hs, Hvl, Hil, Hnb, Hmat, Hfr, Hfree.
    assert (Hne : render_data_set_ (this st1) ≠ ∅).
    { intros Hempty. rewrite Hempty, size_empty in Hsize.
      apply Hsize. reflexivity. }
    rewrite Hb1 in *. batch_fields.
    split; [exact Hsub|].
    repeat (split; [reflexivity|]).
    split; [split; [discriminate | intros ?; contradiction]|].
    split; reflexivity.
Qed.

(** X10: on a tracking set whose members are live and whose enabled members
    have in-bounds meshes, [setupMesh] returns; the members it leaves are
    exactly the enabled ones (enabled themselves, with an enabled owner); it
    returns true exactly when there is one; in the scene it writes to the
    disabled members only, whose batching flag and batch back-reference it
    clears: it never destroys a renderable and never touches one it keeps. *)
Theorem X10_setupMesh_evicts_the_disabled (d : bool) (st : State) :
  (∀ q, q ∈ render_data_set_ (this st) → is_Some (heap st !! q)) →
  (∀ q, q ∈ render_data_set_ (this st) → disabled (heap st) q = false →
        mesh_ok (mesh_at (heap st) (this st) q)) →
  ∃ r st',
    setupMesh d st = Some (r, st')
    ∧ (∀ q, q ∈ render_data_set_ (this st')
            ↔ (q ∈ render_data_set_ (this st) ∧ disabled (heap st) q = false))
    ∧ (r = true
       ↔ ∃ q, q ∈ render_data_set_ (this st) ∧ disabled (heap st) q = false)
    ∧ (∀ q, q ∈ render_data_set_ (this st) → disabled (heap st) q = true →
            heap st' !! q
            = (λ rd, setBatchNull (set_batching false rd)) <$> heap st !! q)
    ∧ (∀ q, ¬ (q ∈ render_data_set_ (this st) ∧ disabled (heap st) q = true) →
            heap st' !! q = heap st !! q).
Proof.
  intros Hlive Hmeshes.
  destruct (isRenderModified_loop_spec (elements (render_data_set_ (this st)))
              (NoDup_elements _) false st)
    as (u & st1 & Hscan & Hset & Hev & Hkeep & _ & _).
  { intros q Hq. apply elem_of_elements in Hq. apply Hlive, Hq. }
  destruct (isRenderModified_loop_batch _ _ _ _ _ Hscan) as (S1 & Hb1 & Hfree).
  assert (Hleft : ∀ q, q ∈ render_data_set_ (this st1)
                       ↔ (q ∈ render_data_set_ (this st)
                          ∧ disabled (heap st) q = false)).
  { intros q. rewrite Hset, elem_of_elements. split.
    - intros [Hq Hno]. split; [exact Hq|].
      destruct (disabled (heap st) q); [|reflexivity].
      exfalso. apply Hno. split; [exact Hq | reflexivity].
    - intros [Hq Hno]. split; [exact Hq|]. intros [_ Hd]. congruence. }
  assert (Hev' : ∀ q, q ∈ render_data_set_ (this st) →
                      disabled (heap st) q = true →
                      heap st1 !! q
                      = (λ rd, setBatchNull (set_batching false rd))
                          <$> heap st !! q).
  { intros q Hq Hd. apply Hev; [apply elem_of_elements, Hq | exact Hd]. }
  assert (Hkeep' : ∀ q, ¬ (q ∈ render_data_set_ (this st)
                           ∧ disabled (heap st) q = true) →
                        heap st1 !! q = heap st !! q).
  { intros q Hq. apply Hkeep. rewrite elem_of_elements. exact Hq. }
  assert (Hmesh : ∀ q, q ∈ render_data_set_ (this st1) →
                       mesh_at (heap st1) (this st1) q
                       = mesh_at (heap st) (this st) q).
  { intros q Hq. apply Hleft in Hq as [Hq Hno].
    unfold mesh_at. rewrite Hkeep' by (intros [_ ?]; congruence).
    rewrite Hb1. reflexivity. }
  unfold setupMesh, isRenderModified. rewrite Hscan. cbn [mbind option_bind].
  destruct (Z.eqb_spec 0 (Z.of_nat (size (render_data_set_ (this st1)))))
    as [Hzero|Hsize].
  - assert (render_data_set_ (this st1) = ∅) as Hempty.
    { apply leibniz_equiv, size_empty_inv. lia. }
    exists false, (resetBatch st1). split; [reflexivity|].
    unfold resetBatch, clearData. batch_fields.
    split; [exact Hleft|].
    split; [|split; [exact Hev' | exact Hkeep']].
    split; [discriminate|].
    intros (q & Hq). apply Hleft in Hq. rewrite Hempty in Hq.
    exfalso. exact (not_elem_of_empty q Hq).
  - assert (∃ st2, (if d || u then regenerateMeshData st1 else Some st1)
                   = Some st2
                   ∧ heap st2 = heap st1
                   ∧ render_data_set_ (this st2) = render_data_set_ (this st1))
      as (st2 & Hregen & Hh2 & Hs2).
    { destruct (d || u); [|exists st1; repeat split].
      destruct (regenerateMeshData_closed st1) as (st2 & Hregen & Hh2 & _ & Hs2 & _).
      - intros q Hq. pose proof (proj1 (Hleft q) Hq) as [Hq0 Hno]. split.
        + rewrite Hkeep' by (intros [_ ?]; congruence). exact (Hlive q Hq0).
        + rewrite (Hmesh q Hq). exact (Hmeshes q Hq0 Hno).
      - exists st2. repeat split; assumption. }
    rewrite Hregen. cbn [mbind option_bind]. cbv zeta.
    exists true, (refreshed st2). split; [reflexivity|].
    destruct (refreshed_fields st2) as (-> & -> & _).
    rewrite Hh2, Hs2.
    split; [exact Hleft|].
    split; [|split; [exact Hev' | exact Hkeep']].
    split; [intros _|reflexivity].
    destruct (set_choose_L (render_data_set_ (this st1))) as [q Hq].
    { intros Hempty. rewrite Hempty, size_empty in Hsize. lia. }
    exists q. apply Hleft, Hq.
Qed.

(** X11: without the dirty argument and without a disabled member, a call of
    [setupMesh] on a non-empty tracking set returns true and regenerates
    nothing: the scene, the merge buffers, the counters, the transforms, the
    map and the tracking set are as they were.  The merged mesh is rebuilt
    from the buffers only if it was marked stale, and the prototype, when
    there is one, is then pointed at it; a mesh already initialised is left
    alone. *)
Theorem X11_setupMesh_quiet (st : State) :
  render_data_set_ (this st) ≠ ∅ →
  (∀ q, q ∈ render_data_set_ (this st) →
        ∃ rd, heap st !! q = Some rd ∧ enabled rd = true
              ∧ so_enabled (owner_object rd) = true) →
  ∃ st',
    setupMesh false st = Some (true, st')
    ∧ (heap st' = heap st
       ∧ freeBatch_calls st' = freeBatch_calls st
       ∧ render_data_set_ (this st') = render_data_set_ (this st)
       ∧ matrices_ (this st') = matrices_ (this st)
       ∧ matrix_index_map_ (this st') = matrix_index_map_ (this st))
    ∧ (vertices_ (this st') = vertices_ (this st)
       ∧ normals_ (this st') = normals_ (this st)
       ∧ tex_coords_ (this st') = tex_coords_ (this st)
       ∧ indices_ (this st') = indices_ (this st)
       ∧ matrix_indices_ (this st') = matrix_indices_ (this st)
       ∧ draw_count_ (this st') = draw_count_ (this st)
       ∧ vertex_count_ (this st') = vertex_count_ (this st)
       ∧ index_count_ (this st') = index_count_ (this st)
       ∧ index_offset_ (this st') = index_offset_ (this st))
    ∧ mesh_init_ (this st') = true
    ∧ mesh_ (this st')
      = (if mesh_init_ (this st) then mesh_ (this st)
         else {| indices := indices_ (this st);
                 vertices := vertices_ (this st);
                 normals := normals_ (this st);
                 a_texcoord := tex_coords_ (this st);
                 a_matrix_index := matrix_indices_ (this st) |})
    ∧ renderdata_ (this st')
      = (if mesh_init_ (this st) then renderdata_ (this st)
         else set_mesh BatchMesh <$> renderdata_ (this st)).
Proof.
  intros Hne Hquiet. unfold setupMesh.
  rewrite isRenderModified_quiet by exact Hquiet.
  cbn [mbind option_bind].
  destruct (Z.eqb_spec 0 (Z.of_nat (size (render_data_set_ (this st)))))
    as [Hzero|_].
  { exfalso. apply Hne, leibniz_equiv, size_empty_inv. lia. }
  cbn [orb mbind option_bind]. cbv zeta. batch_fields.
  eexists. split; [reflexivity|].
  destruct (mesh_init_ (this st)) eqn:Hinit; cbn [negb]; batch_fields.
  - rewrite ?Hinit. repeat split.
  - unfold meshInit. batch_fields.
    destruct (renderdata_ (this st)) eqn:Hproto; batch_fields;
      rewrite ?Hproto; repeat split.
Qed.

(** ** [regenerateMeshData] *)


Lemma lookup_map {A B} (f : A → B) (l : list A) (i : nat) :
  map f l !! i = f <$> l !! i.
Proof.
  revert i. induction l as [|x l IH]; intros [|i]; cbn; auto.
Qed.

(** X12: a regeneration restores the correspondence between draw slots and
    transforms.  On a tracking set whose members are live with in-bounds
    meshes, [regenerateMeshData] returns; [matrices_] then has one entry per
    member, [draw_count_] is the number of members, and the member met at
    position [i] of the iteration is mapped to [i] by [matrix_index_map_],
    has its model matrix at [matrices_[i]], and owns the block of tags [i]
    of [matrix_indices_], one tag per vertex of its mesh. *)
Theorem X12_regeneration_aligns_slots (st : State) :
  (∀ q, q ∈ render_data_set_ (this st) →
        is_Some (heap st !! q) ∧ mesh_ok (mesh_at (heap st) (this st) q)) →
  ∃ st',
    regenerateMeshData st = Some st'
    ∧ length (matrices_ (this st')) = size (render_data_set_ (this st))
    ∧ draw_count_ (this st')
      = to_int (Z.of_nat (size (render_data_set_ (this st))))
    ∧ matrix_indices_ (this st')
      = slot_tags 0
          (map (λ q, length (vertices (mesh_at (heap st) (this st) q)))
             (elements (render_data_set_ (this st))))
    ∧ ∀ (i : nat) q rd,
        elements (render_data_set_ (this st)) !! i = Some q →
        heap st !! q = Some rd →
        matrix_index_map_ (this st') !! q = Some (to_int (Z.of_nat i))
        ∧ matrices_ (this st') !! i
          = Some (match transform (owner_object rd) with
                  | Some m => m
                  | None => mat4_identity
                  end).
Proof.
  intros Hmembers.
  destruct (regenerateMeshData_closed st Hmembers)
    as (st' & Hrun & _ & _ & _ & _ & _ & _ & _ & _ & _ & Hdraw).
  exists st'. split; [exact Hrun|].
  unfold regenerateMeshData in Hrun.
  destruct (regenerate_loop_slots (heap st)
              (elements (render_data_set_ (this st))) (NoDup_elements _)
              (clearData (this st)) 0%nat)
    as (b' & Hloop & Hmat & Htags & Hslots & _).
  { intros q Hq. apply elem_of_elements in Hq. exact (Hmembers q Hq). }
  { reflexivity. }
  change (render_data_set_ (clearData (this st)))
    with (render_data_set_ (this st)) in Hrun.
  rewrite Hloop in Hrun. cbn [mbind option_bind] in Hrun.
  injection Hrun as <-. batch_fields.
  rewrite Hmat, Htags.
  change (matrices_ (clearData (this st))) with (@nil mat4).
  change (matrix_indices_ (clearData (this st))) with (@nil gl_float).
  cbn [app]. rewrite length_map.
  split; [reflexivity|]. split; [exact Hdraw|]. split; [reflexivity|].
  intros i q rd Hi Hrd. split.
  - exact (Hslots i q Hi).
  - rewrite lookup_map, Hi. cbn [fmap option_fmap option_map].
    unfold model_matrix_at. rewrite Hrd. reflexivity.
Qed.

(** ** Draw slots and transforms under [add] *)

(** X13: on a batch whose transform sequence has exactly [draw_count_]
    entries, the slot that [add] records for the renderable is the position
    of the matrix it appends for it, and the batch is in that state again
    after the call exactly when the call merged the renderable; any call that
    does not merge, a rejection included, leaves one matrix more than draw
    slots. *)
Theorem X13_add_alignment (p : ptr) (st st' : State) (r : bool) :
  add p st = Some (r, st') →
  vsize (matrices_ (this st)) = draw_count_ (this st) →
  draw_count_ (this st) < INT_MAX →
  (∃ k rd,
     heap st !! p = Some rd
     ∧ matrix_index_map_ (this st') !! p = Some (Z.of_nat k)
     ∧ matrices_ (this st') !! k
       = Some (match transform (owner_object rd) with
               | Some m => m
               | None => mat4_identity
               end))
  ∧ (vsize (matrices_ (this st')) = draw_count_ (this st')
     ↔ draw_count_ (this st') ≠ draw_count_ (this st))
  ∧ (draw_count_ (this st') = draw_count_ (this st) →
     vsize (matrices_ (this st')) = draw_count_ (this st') + 1).
Proof.
  intros Hadd Haligned Hmax.
  assert (Hpos : 0 ≤ draw_count_ (this st))
    by (rewrite <- Haligned; unfold vsize; lia).
  assert (Hfacts :
    ∃ rd, heap st !! p = Some rd
          ∧ matrix_index_map_ (this st') !! p = Some (draw_count_ (this st))
          ∧ matrices_ (this st')
            = matrices_ (this st) ++ [model_matrix_of rd]
          ∧ (draw_count_ (this st') = draw_count_ (this st)
             ∨ draw_count_ (this st') = draw_count_ (this st) + 1)).
  { add_cases Hadd p st; exists rd; batch_unfold;
      (split; [exact Hp|]); (split; [apply lookup_insert_eq|]);
      (split; [reflexivity|]); auto.
    right. apply to_int_id. unfold INT_MAX in *. lia. }
  destruct Hfacts as (rd & Hp & Hslot & Hmat & Hdc).
  assert (Hlen : vsize (matrices_ (this st')) = draw_count_ (this st) + 1).
  { rewrite Hmat. unfold vsize in *. rewrite length_app. cbn [length]. lia. }
  split; [|split].
  - exists (length (matrices_ (this st))), rd.
    split; [exact Hp|]. split.
    + rewrite Hslot. f_equal. unfold vsize in Haligned. lia.
    + rewrite Hmat. apply list_lookup_middle. reflexivity.
  - rewrite Hlen. destruct Hdc as [-> | ->]; lia.
  - intros ->. exact Hlen.
Qed.

(** ** Invariants of the histories *)

Lemma refreshed_shape (st : State) :
  ∃ m o,
    this (refreshed st)
    = set_renderdata_ o
        (set_mesh_ m (set_mesh_init_ true (set_batch_dirty_ false (this st)))).
Proof.
  unfold refreshed. cbv zeta. batch_fields.
  destruct (mesh_init_ (this st)) eqn:Hinit; cbn [negb]; batch_fields.
  - exists (mesh_ (this st)), (renderdata_ (this st)).
    destruct (this st). batch_fields. rewrite Hinit. reflexivity.
  - unfold meshInit. batch_fields.
    destruct (renderdata_ (this st)) eqn:Hproto; batch_fields.
    + eexists _, _. reflexivity.
    + exists (buffers_mesh (this st)), None.
      destruct (this st). unfold buffers_mesh. batch_fields.
      rewrite Hproto. reflexivity.
Qed.

Lemma regenerate_loop_stale (h : gmap ptr RenderData) (its : list ptr) :
  ∀ b b' : Batch,
    regenerate_loop h its b = Some b' →
    mesh_init_ b = false → mesh_init_ b' = false.
Proof.
  induction its as [|it its IH]; intros b b' Hrun Hinit.
  - cbn [regenerate_loop] in Hrun. injection Hrun as <-. exact Hinit.
  - cbn [regenerate_loop] in Hrun.
    destruct (regenerate_step h b it) as [b1|] eqn:Hstep; [|discriminate].
    cbn [mbind option_bind] in Hrun.
    apply (IH _ _ Hrun).
    unfold regenerate_step in Hstep.
    destruct (h !! it) as [rd|]; [|discriminate].
    cbn [mbind option_bind] in Hstep.
    apply updateMesh_some in Hstep as (vs & ns & ts & ixs & ->).
    reflexivity.
Qed.

Lemma mesh_cached_add (p : ptr) (st st' : State) (r : bool) :
  add p st = Some (r, st') → mesh_cached (this st) → mesh_cached (this st').
Proof.
  intros Hadd Hcached. unfold mesh_cached, buffers_mesh in *.
  add_cases Hadd p st; batch_unfold; try exact Hcached.
  discriminate.
Qed.

Lemma mesh_cached_setupMesh (d r : bool) (st st' : State) :
  setupMesh d st = Some (r, st') → mesh_cached (this st) →
  mesh_cached (this st').
Proof.
  intros Hrun Hcached.
  apply setupMesh_inv in Hrun
    as (u & st1 & Hscan
        & [ (Hempty & -> & ->) | (Hsize & -> & st2 & Hregen & ->) ]);
    unfold isRenderModified in Hscan;
    apply isRenderModified_loop_batch in Hscan as (S1 & Hb1 & Hfree).
  - unfold mesh_cached, resetBatch, clearData. batch_fields. discriminate.
  - assert (Hcached2 : mesh_cached (this st2)).
    { destruct (d || u).
      - unfold regenerateMeshData in Hregen.
        destruct (regenerate_loop _ _ _) as [b2|] eqn:Hloop; [|discriminate].
        cbn [mbind option_bind] in Hregen. injection Hregen as <-.
        apply regenerate_loop_stale in Hloop; [|reflexivity].
        unfold mesh_cached. batch_fields. rewrite Hloop. discriminate.
      - injection Hregen as <-. rewrite Hb1.
        unfold mesh_cached, buffers_mesh in *. batch_fields. exact Hcached. }
    unfold refreshed. cbv zeta. batch_fields.
    destruct (mesh_init_ (this st2)) eqn:Hinit; cbn [negb]; batch_fields.
    + unfold mesh_cached, buffers_mesh in *. batch_fields. exact Hcached2.
    + unfold mesh_cached, buffers_mesh, meshInit. batch_fields.
      destruct (renderdata_ (this st2)) eqn:Hproto; batch_fields; intros _;
        (split; [reflexivity|]); intros proto Hq.
      * injection Hq as <-. reflexivity.
      * rewrite Hproto in Hq. discriminate.
Qed.

(** X14: the merged mesh is never marked initialised while out of date.  At
    every point of a history of [add] and [setupMesh] calls on a constructed
    batch, if [mesh_init_] is raised then the merged mesh holds exactly the
    five merge buffers and the prototype, when there is one, points at the
    merged mesh; this is the case after every call of [setupMesh] that
    returns true. *)
Theorem X14_merged_mesh_up_to_date (st : State) :
  reachable st →
  (mesh_init_ (this st) = true →
   mesh_ (this st)
   = {| indices := indices_ (this st); vertices := vertices_ (this st);
        normals := normals_ (this st); a_texcoord := tex_coords_ (this st);
        a_matrix_index := matrix_indices_ (this st) |}
   ∧ ∀ proto, renderdata_ (this st) = Some proto → rd_mesh proto = BatchMesh)
  ∧ ∀ (d : bool) (st' : State),
      setupMesh d st = Some (true, st') →
      mesh_ (this st')
      = {| indices := indices_ (this st'); vertices := vertices_ (this st');
           normals := normals_ (this st'); a_texcoord := tex_coords_ (this st');
           a_matrix_index := matrix_indices_ (this st') |}
      ∧ ∀ proto, renderdata_ (this st') = Some proto → rd_mesh proto = BatchMesh.
Proof.
  intros Hreach.
  assert (Hcached : mesh_cached (this st)).
  { induction Hreach
      as [nv ni h b n Hctor | st p r st' _ IH Hadd | st d r st' _ IH Hrun | st h _ IH].
    - unfold Batch_ctor in Hctor.
      destruct ((nv <? 0) || (ni <? 0)); [discriminate|].
      injection Hctor as <-. unfold mesh_cached. batch_unfold. discriminate.
    - exact (mesh_cached_add _ _ _ _ Hadd IH).
    - exact (mesh_cached_setupMesh _ _ _ _ Hrun IH).
    - exact IH. }
  split; [exact Hcached|].
  intros d st' Hrun.
  pose proof (mesh_cached_setupMesh _ _ _ _ Hrun Hcached) as Hcached'.
  apply Hcached'.
  apply setupMesh_post in Hrun. tauto.
Qed.

Lemma vertex_loop_lengths (vs : list vec3) (ts : list vec2) (n : nat) :
  ∀ (i : Z) (b b' : Batch),
    for_loop n i
      (λ i b,
         v ← at_ vs i;
         let b := set_vertices_ (vertices_ b ++ [v]) b in
         let b := set_matrix_indices_
                    (matrix_indices_ b ++ [float_of_int (draw_count_ b)]) b in
         t ← at_ ts i;
         Some (set_tex_coords_ (tex_coords_ b ++ [t]) b)) b = Some b' →
    length (vertices_ b') = (length (vertices_ b) + n)%nat
    ∧ length (tex_coords_ b') = (length (tex_coords_ b) + n)%nat
    ∧ length (matrix_indices_ b') = (length (matrix_indices_ b) + n)%nat.
Proof.
  induction n as [|n IH]; intros i b b' Hrun.
  - cbn [for_loop] in Hrun. injection Hrun as <-. lia.
  - cbn [for_loop] in Hrun.
    destruct (at_ vs i) as [v|]; [|discriminate]. cbn [mbind option_bind] in Hrun.
    destruct (at_ ts i) as [t|]; [|discriminate]. cbn [mbind option_bind] in Hrun.
    apply IH in Hrun as (Hv & Ht & Hm). batch_fields.
    rewrite Hv, Ht, Hm, !length_app. cbn [length]. lia.
Qed.

(** A merge keeps the per-vertex buffers parallel. *)
Lemma updateMesh_parallel (b b' : Batch) (m : Mesh) :
  updateMesh b m = Some b' → buffers_parallel b → buffers_parallel b'.
Proof.
  unfold updateMesh, for_int. intros Hrun (Ht & Hm & Hoff).
  destruct (for_loop (Z.to_nat (to_int (vsize (vertices m)))) 0 _ b)
    as [b1|] eqn:H1; [|discriminate].
  cbn [mbind option_bind] in Hrun.
  pose proof (vertex_loop_lengths _ _ _ _ _ _ H1) as (Hv1 & Ht1 & Hm1).
  apply vertex_loop_some in H1 as (vs & ts & Hb1).
  assert (Hoff1 : index_offset_ b1 = index_offset_ b
                  ∧ vertex_count_ b1 = vertex_count_ b)
    by (rewrite Hb1; split; reflexivity).
  clear Hb1.
  match type of Hrun with
  | context [mbind _ ?x] => destruct x as [b2|] eqn:H2; [|discriminate]
  end.
  cbn [mbind option_bind] in Hrun.
  assert (∃ ns, b2 = set_normals_ (normals_ b1 ++ ns) b1) as (ns & ->).
  { destruct (vsize (normals m) >? 0).
    - apply normal_loop_some in H2 as (ns & ->). exists ns. reflexivity.
    - injection H2 as <-. exists []. destruct b1. batch_fields.
      rewrite app_nil_r. reflexivity. }
  match type of Hrun with
  | context [mbind _ ?x] => destruct x as [b3|] eqn:H3; [|discriminate]
  end.
  cbn [mbind option_bind] in Hrun.
  apply index_loop_some in H3 as (ixs & ->).
  injection Hrun as <-.
  unfold buffers_parallel. batch_fields.
  destruct Hoff1 as (-> & ->). rewrite Hoff.
  repeat split; lia.
Qed.

Lemma buffers_parallel_frame (b b1 : Batch) :
  buffers_parallel b →
  vertices_ b1 = vertices_ b →
  tex_coords_ b1 = tex_coords_ b →
  matrix_indices_ b1 = matrix_indices_ b →
  index_offset_ b1 = index_offset_ b →
  vertex_count_ b1 = vertex_count_ b →
  buffers_parallel b1.
Proof.
  unfold buffers_parallel. intros H -> -> -> -> ->. exact H.
Qed.

Lemma buffers_parallel_regenerate_loop (h : gmap ptr RenderData) (its : list ptr) :
  ∀ b b' : Batch,
    regenerate_loop h its b = Some b' →
    buffers_parallel b → buffers_parallel b'.
Proof.
  induction its as [|it its IH]; intros b b' Hrun Hpar.
  - cbn [regenerate_loop] in Hrun. injection Hrun as <-. exact Hpar.
  - cbn [regenerate_loop] in Hrun.
    destruct (regenerate_step h b it) as [b1|] eqn:Hstep; [|discriminate].
    cbn [mbind option_bind] in Hrun.
    apply (IH _ _ Hrun).
    unfold regenerate_step in Hstep.
    destruct (h !! it) as [rd|]; [|discriminate].
    cbn [mbind option_bind] in Hstep.
    apply (updateMesh_parallel _ _ _ Hstep).
    apply (buffers_parallel_frame b); [exact Hpar | reflexivity..].
Qed.

(** X15: at every point of a history of [add] and [setupMesh] calls on a
    constructed batch, whatever the meshes and whatever the calls return, the
    texture-coordinate buffer and the matrix-index buffer have exactly one
    entry per entry of the vertex buffer, and the index offset equals the
    vertex counter. *)
Theorem X15_per_vertex_buffers_parallel (st : State) :
  reachable st →
  length (tex_coords_ (this st)) = length (vertices_ (this st))
  ∧ length (matrix_indices_ (this st)) = length (vertices_ (this st))
  ∧ index_offset_ (this st) = vertex_count_ (this st).
Proof.
  intros Hreach. change (buffers_parallel (this st)).
  induction Hreach
    as [nv ni h b n Hctor | st p r st' _ IH Hadd | st d r st' _ IH Hrun | st h _ IH].
  - unfold Batch_ctor in Hctor.
    destruct ((nv <? 0) || (ni <? 0)); [discriminate|].
    injection Hctor as <-. repeat split.
  - apply add_inv in Hadd
      as (rd & pass0 & Hp & Hpass
          & [ (Hbatching & -> & ->)
            | [ (Hbatching & Hnt & -> & ->)
              | [ (Hbatching & Hnt & Hcap & Hdc & -> & ->)
                | [ (Hbatching & Hnt & Hcap & Hdc & -> & ->)
                  | (Hbatching & Hnt & Hcap & -> & b' & Hup & ->) ]]]]).
    1-4: apply (buffers_parallel_frame (this st)); [exact IH | reflexivity..].
    destruct (with_prototype_shape (synced rd) (bookkept p rd pass0 (this st)))
      as [o Ho].
    rewrite Ho in Hup. change (buffers_parallel b').
    apply (updateMesh_parallel _ _ _ Hup).
    apply (buffers_parallel_frame (this st)); [exact IH | reflexivity..].
  - apply setupMesh_inv in Hrun
      as (u & st1 & Hscan
          & [ (Hempty & -> & ->) | (Hsize & -> & st2 & Hregen & ->) ]);
      unfold isRenderModified in Hscan;
      apply isRenderModified_loop_batch in Hscan as (S1 & Hb1 & Hfree).
    + repeat split.
    + assert (Hpar2 : buffers_parallel (this st2)).
      { destruct (d || u).
        - unfold regenerateMeshData in Hregen.
          destruct (regenerate_loop _ _ _) as [b2|] eqn:Hloop; [|discriminate].
          cbn [mbind option_bind] in Hregen. injection Hregen as <-.
          apply (buffers_parallel_regenerate_loop _ _ _ _ Hloop).
          repeat split.
        - injection Hregen as <-. rewrite Hb1.
          apply (buffers_parallel_frame (this st)); [exact IH | reflexivity..]. }
      destruct (refreshed_shape st2) as (m & o & ->).
      apply (buffers_parallel_frame (this st2)); [exact Hpar2 | reflexivity..].
  - exact IH.
Qed.

(** ** Reuse and regeneration *)

(** X16: a batch with no member left that [resetBatch] has returned to the
    pool takes the next renderable as a freshly constructed batch of the same
    capacities does.  For a live renderable with a first pass and an in-bounds mesh of the
    scene, [add] returns the same result on both and writes the same
    renderable; the two batches then agree on every field but two: the reset
    batch keeps its former merged mesh object, and its flag [not_batched_]
    is raised if it was raised before the reset or if the fresh batch raises
    it. *)
Theorem X16_reset_batch_reusable (p : ptr) (st1 : State) (rd : RenderData)
    (pass0 : RenderPass) (m : Mesh) :
  render_data_set_ (this st1) = ∅ →
  heap st1 !! p = Some rd →
  rd_passes rd !! 0%nat = Some pass0 →
  rd_mesh rd = SceneMesh m →
  mesh_ok m →
  let fresh : State :=
    {| heap := heap st1;
       this := empty_batch (vertex_limit_ (this st1)) (indices_limit_ (this st1));
       freeBatch_calls := freeBatch_calls st1 |} in
  ∃ r stF stR,
    add p fresh = Some (r, stF)
    ∧ add p (resetBatch st1) = Some (r, stR)
    ∧ heap stR = heap stF
    ∧ this stR
      = set_not_batched_ (not_batched_ (this st1) || not_batched_ (this stF))
          (set_mesh_ (mesh_ (this st1)) (this stF)).
Proof.
  intros Hempty Hp Hpass Hmesh Hok fresh.
  rewrite !add_unfold. subst fresh.
  change (heap (resetBatch st1)) with (heap st1). batch_fields. rewrite Hp.
  cbn [mbind option_bind]. rewrite Hpass. cbn [mbind option_bind]. cbv zeta.
  rewrite Hmesh. cbn [resolve_mesh].
  unfold over_capacity.
  change (index_count_ (this (resetBatch st1))) with 0.
  change (indices_limit_ (this (resetBatch st1)))
    with (indices_limit_ (this st1)).
  change (draw_count_ (this (resetBatch st1))) with 0.
  unfold empty_batch. batch_fields.
  destruct (negb (batching rd)).
  { eexists _, _, _. split; [reflexivity|]. split; [reflexivity|].
    split; [reflexivity|].
    unfold resetBatch. batch_unfold. rewrite Hempty, orb_true_r. reflexivity. }
  destruct (has_non_texture_pass rd).
  { eexists _, _, _. split; [reflexivity|]. split; [reflexivity|].
    split; [reflexivity|].
    unfold resetBatch. batch_unfold. rewrite Hempty, orb_false_r. reflexivity. }
  match goal with |- context [if (?c || ?d)%bool then _ else _] =>
    destruct (c || d)%bool end.
  { cbn [Z.gtb Z.compare].
    eexists _, _, _. split; [reflexivity|]. split; [reflexivity|].
    split; [reflexivity|].
    unfold resetBatch. batch_unfold. rewrite Hempty, orb_true_r. reflexivity. }
  rewrite !updateMesh_merged by exact Hok. cbn [mbind option_bind].
  eexists _, _, _. split; [reflexivity|]. split; [reflexivity|].
  split; [reflexivity|].
  unfold resetBatch, with_prototype, merged. batch_unfold.
  cbn [Z.eqb]. batch_fields. rewrite Hempty, orb_false_r. reflexivity.
Qed.

Lemma to_int_add_r a n : to_int (a + to_int n) = to_int (a + n).
Proof. unfold to_int. Z.div_mod_to_equations. lia. Qed.

(** The counters after the loop of [regenerateMeshData]. *)
Lemma regenerate_loop_counters (h : gmap ptr RenderData) (its : list ptr) :
  ∀ b : Batch,
    (∀ q, q ∈ its → is_Some (h !! q) ∧ mesh_ok (mesh_at h b q)) →
    to_int (index_count_ b) = index_count_ b →
    to_int (vertex_count_ b) = vertex_count_ b →
    ∃ b',
      regenerate_loop h its b = Some b'
      ∧ index_count_ b'
        = to_int (index_count_ b
                  + total (λ m, vsize (indices m)) (map (mesh_at h b) its))
      ∧ vertex_count_ b'
        = to_int (vertex_count_ b
                  + total (λ m, vsize (vertices m)) (map (mesh_at h b) its))
      ∧ indices_limit_ b' = indices_limit_ b
      ∧ vertex_limit_ b' = vertex_limit_ b.
Proof.
  induction its as [|it its IH]; intros b Hits Hic Hvc.
  - exists b. cbn [regenerate_loop map total foldr].
    rewrite !Z.add_0_r, Hic, Hvc. repeat split.
  - destruct (Hits it (list_elem_of_here _ _)) as [[rd Hrd] Hok].
    cbn [regenerate_loop].
    rewrite (regenerate_step_merged h b it rd Hrd Hok).
    cbn [mbind option_bind].
    set (b1 := merged _ _).
    destruct (IH b1) as (b' & Hrun & Hi & Hv & Hil & Hvl).
    { intros q Hq. exact (Hits q (list_elem_of_further _ _ _ Hq)). }
    { subst b1. unfold merged. batch_fields. apply to_int_idem. }
    { subst b1. unfold merged. batch_fields. apply to_int_idem. }
    exists b'. split; [exact Hrun|].
    rewrite Hi, Hv, Hil, Hvl.
    change (mesh_at h b1) with (mesh_at h b).
    subst b1. unfold merged. batch_fields.
    cbn [map]. unfold total. cbn [foldr]. rewrite !to_int_add_l.
    split; [f_equal; lia|]. split; [f_equal; lia|]. split; reflexivity.
Qed.

(** X17: a regeneration does not look at the capacities.  On a tracking set
    whose members are live with in-bounds meshes, [regenerateMeshData]
    returns with [index_count_] equal to the number of indices of all the
    members together and [vertex_count_] to their number of vertices (as
    [int]s), whatever [indices_limit_] and [vertex_limit_], which it leaves
    unchanged; in particular, when the members have more indices than
    [indices_limit_] allows, the index counter exceeds the limit. *)
Theorem X17_regeneration_ignores_capacity (st : State) :
  (∀ q, q ∈ render_data_set_ (this st) →
        is_Some (heap st !! q) ∧ mesh_ok (mesh_at (heap st) (this st) q)) →
  let meshes :=
    map (mesh_at (heap st) (this st)) (elements (render_data_set_ (this st))) in
  ∃ st',
    regenerateMeshData st = Some st'
    ∧ index_count_ (this st') = to_int (total (λ m, vsize (indices m)) meshes)
    ∧ vertex_count_ (this st') = to_int (total (λ m, vsize (vertices m)) meshes)
    ∧ indices_limit_ (this st') = indices_limit_ (this st)
    ∧ vertex_limit_ (this st') = vertex_limit_ (this st)
    ∧ (indices_limit_ (this st) < total (λ m, vsize (indices m)) meshes
       ≤ INT_MAX →
       indices_limit_ (this st') < index_count_ (this st')).
Proof.
  intros Hmembers meshes. unfold regenerateMeshData.
  destruct (regenerate_loop_counters (heap st)
              (elements (render_data_set_ (this st))) (clearData (this st)))
    as (b' & Hrun & Hi & Hv & Hil & Hvl).
  { intros q Hq. apply elem_of_elements in Hq. exact (Hmembers q Hq). }
  { reflexivity. }
  { reflexivity. }
  change (render_data_set_ (clearData (this st)))
    with (render_data_set_ (this st)).
  rewrite Hrun. cbn [mbind option_bind].
  exists (set_this b' st). split; [reflexivity|]. batch_fields.
  change (mesh_at (heap st) (clearData (this st)))
    with (mesh_at (heap st) (this st)) in Hi, Hv.
  rewrite Hi, Hv, Hil, Hvl.
  change (index_count_ (clearData (this st))) with 0.
  change (vertex_count_ (clearData (this st))) with 0.
  rewrite !Z.add_0_l. fold meshes.
  change (indices_limit_ (clearData (this st))) with (indices_limit_ (this st)).
  change (vertex_limit_ (clearData (this st))) with (vertex_limit_ (this st)).
  repeat split.
  intros [Hover Hmax].
  assert (0 ≤ total (λ m, vsize (indices m)) meshes).
  { generalize meshes. clear. intros ms.
    induction ms as [|m ms IH]; unfold total in *; cbn [foldr];
      [lia | unfold vsize in *; lia]. }
  rewrite to_int_id by (unfold INT_MAX in *; lia). exact Hover.
Qed.

End BatchProofs.

(** * Worked scenarios *)

Section Scenarios.

Import Scene.

Abbreviation State := (State vec2 vec3 mat4 gl_float).

(** The batch of capacity 6 vertices and 10 indices after [A] was added. *)
Lemma C1_index_count_within_limit_witness :
  let st := after (add pA start) in
  add_reachable identity float_of_int 6 10 st
  ∧ (0 ≤ index_count_ (this st) ≤ indices_limit_ (this st)
     ∧ indices_limit_ (this st) = 10
     ∧ vertex_limit_ (this st) = 6).
Proof.
  intros st.
  assert (Hreach : add_reachable identity float_of_int 6 10 st).
  { apply (ar_add identity float_of_int 6 10 start pA true st).
    - apply (ar_ctor identity float_of_int 6 10 scene (empty_batch 6 10) 0%nat).
      + unfold INT_MAX. lia.
      + reflexivity.
    - vm_compute. reflexivity. }
  split; [exact Hreach|].
  exact (C1_index_count_within_limit identity float_of_int 6 10 st Hreach).
Defined.

(** [E] has 7 vertices and 3 indices: the batch of capacity 6 vertices and
    10 indices merges it, and holds 7 vertices afterwards. *)
Lemma C1_vertex_limit_counterexample :
  Batch_ctor 6 10 = Some (this start)
  ∧ add pE start = Some (true, after (add pE start))
  ∧ vertex_count_ (this (after (add pE start))) = 7
  ∧ vertex_limit_ (this (after (add pE start))) = 6
  ∧ ¬ (vertex_count_ (this (after (add pE start)))
       ≤ vertex_limit_ (this (after (add pE start)))).
Proof.
  split; [reflexivity|].
  split; [vm_compute; reflexivity|].
  split; [vm_compute; reflexivity|].
  split; [vm_compute; reflexivity|].
  vm_compute. intros H. apply H. reflexivity.
Qed.

(** The batch after [C], which opts out of batching, then [A] were added. *)
Lemma C2_slots_agree_witness :
  let st := after (add pA (after (add pC start))) in
  reachable identity float_of_int st
  ∧ (slots_agree float_of_int (this st)
     ∧ ∀ (b b' : Batch vec2 vec3 mat4 gl_float) (m : Mesh vec2 vec3 gl_float),
         updateMesh b m = Some b' →
         matrix_indices_ b'
         = matrix_indices_ b
           ++ replicate (Z.to_nat (to_int (vsize (vertices m))))
                (float_of_int (draw_count_ b))
         ∧ matrices_ b' = matrices_ b
         ∧ draw_count_ b' = to_int (draw_count_ b + 1)).
Proof.
  intros st.
  assert (Hreach : reachable identity float_of_int st).
  { apply (reach_add identity float_of_int (after (add pC start)) pA true st).
    - apply (reach_add identity float_of_int start pC true (after (add pC start))).
      + apply (reach_ctor identity float_of_int 6 10 scene (empty_batch 6 10) 0%nat).
        reflexivity.
      + vm_compute. reflexivity.
    - vm_compute. reflexivity. }
  split; [exact Hreach|].
  exact (C2_slots_agree identity float_of_int st Hreach).
Defined.

(** [C] opts out of batching: [add] records its matrix and returns success,
    and the draw counter stays at 0. *)
Lemma C2_matrices_counterexample :
  add pC start = Some (true, after (add pC start))
  ∧ vsize (matrices_ (this (after (add pC start)))) = 1
  ∧ draw_count_ (this (after (add pC start))) = 0
  ∧ vsize (matrices_ (this (after (add pC start))))
    ≠ draw_count_ (this (after (add pC start))).
Proof.
  split; [vm_compute; reflexivity|].
  split; [vm_compute; reflexivity|].
  split; [vm_compute; reflexivity|].
  vm_compute. discriminate.
Qed.


(** A second quad merged into the batch that holds [A]. *)
Lemma C3_offset_indices_in_range_witness :
  let b := this (after (add pA start)) in
  (indices_in_range b ∧ mesh_ok quad ∧ mesh_indices_valid quad
   ∧ vertex_count_ b + vsize (vertices quad) ≤ INT_MAX)
  ∧ ∃ b', updateMesh b quad = Some b'
          ∧ indices_in_range b'
          ∧ Forall (λ i, 0 ≤ i < vertex_count_ b') (indices_ b')
          ∧ vertex_count_ b' = vsize (vertices_ b').
Proof.
  intros b.
  assert (Hb : indices_in_range b) by (vm_compute; concrete).
  assert (Hok : mesh_ok quad) by (vm_compute; concrete).
  assert (Hvalid : mesh_indices_valid quad) by (vm_compute; concrete).
  assert (Hmax : vertex_count_ b + vsize (vertices quad) ≤ INT_MAX)
    by (vm_compute; concrete).
  split; [exact (conj Hb (conj Hok (conj Hvalid Hmax)))|].
  exact (C3_offset_indices_in_range float_of_int b quad Hb Hok Hvalid Hmax).
Defined.

(** The segment merged at index offset 65535: its second index, 1, is stored
    as 0. *)
Lemma C10_index_wraps_at_16_bits_witness :
  mesh_ok segment
  ∧ ∃ b', updateMesh wide segment = Some b'
          ∧ indices_ b'
            = indices_ wide
              ++ map (λ i, (i + index_offset_ wide) mod 65536) (indices segment)
          ∧ ∀ i, i ∈ indices segment →
                 65536 ≤ i + index_offset_ wide →
                 0 ≤ (i + index_offset_ wide) mod 65536 < 65536
                 ∧ (i + index_offset_ wide) mod 65536 ≠ i + index_offset_ wide.
Proof.
  assert (Hok : mesh_ok segment) by (vm_compute; concrete).
  split; [exact Hok|].
  exact (C10_index_wraps_at_16_bits float_of_int wide segment Hok).
Defined.

Example segment_at_65535 :
  indices_ <$> updateMesh wide segment = Some [65535; 0].
Proof. vm_compute. reflexivity. Qed.

(** [B] offered to the batch of capacity 10 indices that holds [A]: 6 + 6
    indices exceed the limit and [A] is merged, so [add] returns failure. *)
Lemma C4_add_failure_iff_witness :
  (heap with_A !! pB = Some B
   ∧ rd_passes B !! 0%nat = Some (texture_pass 12)
   ∧ mesh_ok (resolve_mesh (this with_A) (rd_mesh B))
   ∧ 0 ≤ index_count_ (this with_A) ≤ INT_MAX
   ∧ 0 ≤ indices_limit_ (this with_A) ≤ INT_MAX)
  ∧ ∃ st', add pB with_A = Some (false, st').
Proof.
  assert (Hp : heap with_A !! pB = Some B) by (vm_compute; reflexivity).
  assert (Hpass : rd_passes B !! 0%nat = Some (texture_pass 12)) by reflexivity.
  assert (Hok : mesh_ok (resolve_mesh (this with_A) (rd_mesh B)))
    by (vm_compute; concrete).
  assert (Hic : 0 ≤ index_count_ (this with_A) ≤ INT_MAX)
    by (vm_compute; concrete).
  assert (Hlim : 0 ≤ indices_limit_ (this with_A) ≤ INT_MAX)
    by (vm_compute; concrete).
  split; [exact (conj Hp (conj Hpass (conj Hok (conj Hic Hlim))))|].
  destruct (C4_add_failure_iff identity float_of_int pB with_A B (texture_pass 12)
              Hp Hpass Hok Hic Hlim) as (r & st' & Hadd & Hiff & _).
  exists st'.
  assert (Hr : r = false).
  { apply (proj2 Hiff). clear Hadd Hiff. vm_compute. concrete. }
  rewrite <- Hr. exact Hadd.
Defined.

(** [B] rejected by the batch that holds [A]. *)
Lemma C5_rejection_frame_witness :
  add pB with_A = Some (false, after (add pB with_A))
  ∧ (vertices_ (this (after (add pB with_A))) = vertices_ (this with_A)
     ∧ indices_ (this (after (add pB with_A))) = indices_ (this with_A)
     ∧ draw_count_ (this (after (add pB with_A))) = draw_count_ (this with_A)
     ∧ render_data_set_ (this (after (add pB with_A)))
       = render_data_set_ (this with_A)
     ∧ renderdata_ (this (after (add pB with_A))) = renderdata_ (this with_A)).
Proof.
  assert (Hadd : add pB with_A = Some (false, after (add pB with_A)))
    by (vm_compute; reflexivity).
  split; [exact Hadd|].
  pose proof (C5_rejection_frame identity float_of_int pB with_A _ Hadd)
    as ((Hv & Hi & _ & _ & _ & _ & _ & _ & Hd & Hs & Hp) & _).
  exact (conj Hv (conj Hi (conj Hd (conj Hs Hp)))).
Defined.

(** [B] rejected by the batch that holds [A]: the batch now refers to the
    material of [B]. *)
Lemma C5_material_counterexample :
  add pB with_A = Some (false, after (add pB with_A))
  ∧ material_ (this with_A)
    = Some {| material_addr := 11; shader_type := TEXTURE_SHADER |}
  ∧ material_ (this (after (add pB with_A)))
    = Some {| material_addr := 12; shader_type := TEXTURE_SHADER |}
  ∧ material_ (this (after (add pB with_A))) ≠ material_ (this with_A).
Proof.
  split; [vm_compute; reflexivity|].
  split; [vm_compute; reflexivity|].
  split; [vm_compute; reflexivity|].
  vm_compute. intros H. discriminate H.
Qed.

Lemma B_disabled_members (q : ptr) :
  q ∈ render_data_set_ (this B_disabled) → q = pA ∨ q = pB.
Proof.
  assert (render_data_set_ (this B_disabled) = {[pA; pB]}) as ->
    by (vm_compute; reflexivity).
  rewrite elem_of_union, !elem_of_singleton. tauto.
Qed.

(** [B] disabled in the batch that holds [A] and [B]: the refresh leaves
    the quad of [A] alone in the buffers, under the tag 0 and with one
    transform. *)
Lemma C6_eviction_regenerates_witness :
  (pB ∈ render_data_set_ (this B_disabled)
   ∧ disabled (heap B_disabled) pB = true
   ∧ (∀ q, q ∈ render_data_set_ (this B_disabled) →
           is_Some (heap B_disabled !! q))
   ∧ (∀ q, q ∈ render_data_set_ (this B_disabled) →
           disabled (heap B_disabled) q = false →
           mesh_ok (mesh_at (heap B_disabled) (this B_disabled) q)))
  ∧ ∃ r st',
      setupMesh false B_disabled = Some (r, st')
      ∧ (pB ∉ render_data_set_ (this st'))
      ∧ (pB ∉ dom (matrix_index_map_ (this st')))
      ∧ (∃ rd', heap st' !! pB = Some rd' ∧ batching rd' = false
                ∧ rd_batch rd' = None)
      ∧ vertices_ (this st') = [(0, 0, 0); (1, 0, 0); (1, 1, 0); (0, 1, 0)]
      ∧ normals_ (this st') = []
      ∧ tex_coords_ (this st') = [(0, 0); (1, 0); (1, 1); (0, 1)]
      ∧ indices_ (this st') = [0; 1; 2; 2; 3; 0]
      ∧ matrix_indices_ (this st') = [0; 0; 0; 0]
      ∧ matrices_ (this st') = [identity].
Proof.
  assert (Hp : pB ∈ render_data_set_ (this B_disabled))
    by (apply (bool_decide_unpack _); vm_compute; exact I).
  assert (Hdis : disabled (heap B_disabled) pB = true)
    by (vm_compute; reflexivity).
  assert (Hlive : ∀ q, q ∈ render_data_set_ (this B_disabled) →
            is_Some (heap B_disabled !! q)).
  { intros q Hq. apply B_disabled_members in Hq as [-> | ->];
      eexists; vm_compute; reflexivity. }
  assert (Hmeshes : ∀ q, q ∈ render_data_set_ (this B_disabled) →
            disabled (heap B_disabled) q = false →
            mesh_ok (mesh_at (heap B_disabled) (this B_disabled) q)).
  { intros q Hq _. apply B_disabled_members in Hq as [-> | ->];
      vm_compute; concrete. }
  assert (HpA : pA ∈ render_data_set_ (this B_disabled))
    by (apply (bool_decide_unpack _); vm_compute; exact I).
  assert (HA : disabled (heap B_disabled) pA = false)
    by (vm_compute; reflexivity).
  assert (Hmatrix : map (model_matrix_at identity (heap B_disabled)) [pA]
                    = [identity])
    by (vm_compute; reflexivity).
  split; [exact (conj Hp (conj Hdis (conj Hlive Hmeshes)))|].
  destruct (C6_eviction_regenerates identity float_of_int false B_disabled pB
              Hp Hdis Hlive Hmeshes)
    as (r & st' & Hrun & Hset & Hmap & Hheap & Hleft & _ & _ & _ & _ & _ & Hmat
        & Hscene).
  assert (Hone : render_data_set_ (this st') = {[pA]}).
  { apply set_eq. intros q. rewrite (Hleft q), elem_of_singleton. split.
    - intros [Hq Hno]. apply B_disabled_members in Hq as [-> | ->].
      + reflexivity.
      + rewrite Hdis in Hno. discriminate Hno.
    - intros ->. exact (conj HpA HA). }
  rewrite Hone, elements_singleton in Hmat, Hscene. rewrite Hmatrix in Hmat.
  destruct (Hscene [quad]) as (Hv & Hn & Ht & Hi & Htags).
  { constructor; [|constructor].
    eexists. split; [vm_compute; reflexivity | reflexivity]. }
  exists r, st'.
  exact (conj Hrun (conj Hset (conj Hmap (conj Hheap
           (conj Hv (conj Hn (conj Ht (conj Hi (conj Htags Hmat))))))))).
Defined.

Example B_disabled_refresh :
  (λ st, (vertices_ (this st), indices_ (this st), matrix_indices_ (this st),
          elements (render_data_set_ (this st))))
    <$> (snd <$> setupMesh false B_disabled)
  = Some ([(0, 0, 0); (1, 0, 0); (1, 1, 0); (0, 1, 0)], [0; 1; 2; 2; 3; 0],
          [0; 0; 0; 0], [pA]).
Proof. vm_compute. reflexivity. Qed.



(** Two refreshes of the batch that holds [A], the scene unchanged. *)
Lemma C8_setupMesh_idempotent_witness :
  (setupMesh false with_A = Some (true, after (setupMesh false with_A))
   ∧ ∀ q, q ∈ render_data_set_ (this (after (setupMesh false with_A))) →
          ∃ rd, heap (after (setupMesh false with_A)) !! q = Some rd
                ∧ enabled rd = true
                ∧ so_enabled (owner_object rd) = true)
  ∧ ∃ st2,
      setupMesh false
        (set_heap (heap (after (setupMesh false with_A)))
           (after (setupMesh false with_A)))
      = Some (true, st2)
      ∧ this st2 = this (after (setupMesh false with_A))
      ∧ mesh_init_ (this st2) = true.
Proof.
  assert (Hfirst : setupMesh false with_A
                   = Some (true, after (setupMesh false with_A)))
    by (vm_compute; reflexivity).
  assert (Hquiet :
            ∀ q, q ∈ render_data_set_ (this (after (setupMesh false with_A))) →
                 ∃ rd, heap (after (setupMesh false with_A)) !! q = Some rd
                       ∧ enabled rd = true
                       ∧ so_enabled (owner_object rd) = true).
  { intros q Hq.
    assert (render_data_set_ (this (after (setupMesh false with_A))) = {[pA]})
      as Hset by (vm_compute; reflexivity).
    rewrite Hset in Hq. apply elem_of_singleton in Hq. subst q.
    exists (synced A). split; [vm_compute; reflexivity|].
    split; reflexivity. }
  split; [exact (conj Hfirst Hquiet)|].
  destruct (C8_setupMesh_idempotent identity float_of_int false true with_A
              (after (setupMesh false with_A))
              (heap (after (setupMesh false with_A))) Hfirst Hquiet)
    as (st2 & Hsecond & Hsame & _ & _ & Hactive & _).
  exists st2.
  exact (conj Hsecond (conj Hsame (proj1 (Hactive eq_refl)))).
Defined.

(** [A], the only member, disabled: the first refresh empties and resets
    the batch and returns false; a second refresh with the dirty argument
    false, the scene unchanged and no member left to disable, returns false
    again with the mesh still uninitialised, and has reset the batch and
    notified the pool owner a second time. *)
Lemma C8_emptied_batch_counterexample :
  setupMesh false A_disabled
  = Some (false, after (setupMesh false A_disabled))
  ∧ render_data_set_ (this (after (setupMesh false A_disabled))) = ∅
  ∧ freeBatch_calls (after (setupMesh false A_disabled)) = 1%nat
  ∧ setupMesh false (after (setupMesh false A_disabled))
    = Some (false, after (setupMesh false (after (setupMesh false A_disabled))))
  ∧ freeBatch_calls
      (after (setupMesh false (after (setupMesh false A_disabled)))) = 2%nat
  ∧ mesh_init_ (this (after (setupMesh false A_disabled))) = false
  ∧ mesh_init_
      (this (after (setupMesh false (after (setupMesh false A_disabled)))))
    = false
  ∧ mesh_init_
      (this (after (setupMesh false (after (setupMesh false A_disabled)))))
    ≠ true.
Proof.
  split; [vm_compute; reflexivity|].
  split; [vm_compute; reflexivity|].
  split; [vm_compute; reflexivity|].
  split; [vm_compute; reflexivity|].
  split; [vm_compute; reflexivity|].
  split; [vm_compute; reflexivity|].
  split; [vm_compute; reflexivity|].
  vm_compute. intros H. discriminate H.
Qed.

(** [C] opted out of batching and is tracked alone: a regeneration merges
    its quad. *)
Lemma C9_regeneration_merges_every_member_witness :
  (batching <$> heap with_C !! pC = Some false
   ∧ draw_count_ (this with_C) = 0
   ∧ ∀ q, q ∈ render_data_set_ (this with_C) →
          is_Some (heap with_C !! q)
          ∧ mesh_ok (mesh_at (heap with_C) (this with_C) q))
  ∧ ∃ st',
      regenerateMeshData with_C = Some st'
      ∧ vertices_ (this st') = [(0, 0, 0); (1, 0, 0); (1, 1, 0); (0, 1, 0)]
      ∧ indices_ (this st') = [0; 1; 2; 2; 3; 0]
      ∧ draw_count_ (this st') = 1
      ∧ is_Some (matrix_index_map_ (this st') !! pC).
Proof.
  assert (Hflag : batching <$> heap with_C !! pC = Some false)
    by (vm_compute; reflexivity).
  assert (Hdraw0 : draw_count_ (this with_C) = 0) by (vm_compute; reflexivity).
  assert (Hset : render_data_set_ (this with_C) = {[pC]})
    by (vm_compute; reflexivity).
  assert (HpC : heap with_C !! pC = Some (synced C))
    by (vm_compute; reflexivity).
  assert (Hmembers : ∀ q, q ∈ render_data_set_ (this with_C) →
            is_Some (heap with_C !! q)
            ∧ mesh_ok (mesh_at (heap with_C) (this with_C) q)).
  { intros q Hq.
    rewrite Hset in Hq. apply elem_of_singleton in Hq. subst q.
    split; [exists (synced C); exact HpC | vm_compute; concrete]. }
  assert (Hel : elements (render_data_set_ (this with_C)) = [pC])
    by (vm_compute; reflexivity).
  assert (Hone : to_int (Z.of_nat (size (render_data_set_ (this with_C)))) = 1)
    by (vm_compute; reflexivity).
  assert (HpC_in : pC ∈ render_data_set_ (this with_C)).
  { rewrite Hset. apply elem_of_singleton. reflexivity. }
  split; [exact (conj Hflag (conj Hdraw0 Hmembers))|].
  destruct (C9_regeneration_merges_every_member identity float_of_int with_C
              Hmembers)
    as (st' & Hrun & _ & _ & Hdraw & Hscene & Hblock).
  rewrite Hel in Hscene.
  destruct (Hscene [quad]) as (Hv & Hi).
  { constructor; [|constructor].
    exists (synced C). split; [exact HpC | reflexivity]. }
  exists st'.
  exact (conj Hrun (conj Hv (conj Hi (conj (eq_trans Hdraw Hone)
           (proj1 (Hblock pC (synced C) quad HpC_in HpC eq_refl)))))).
Defined.

Example with_C_regenerated :
  (λ st, (vertices_ (this st), indices_ (this st), draw_count_ (this st)))
    <$> regenerateMeshData with_C
  = Some ([(0, 0, 0); (1, 0, 0); (1, 1, 0); (0, 1, 0)], [0; 1; 2; 2; 3; 0], 1).
Proof. vm_compute. reflexivity. Qed.

(** ** Scenarios for the further properties *)

Lemma A_and_B_live (q : ptr) :
  q ∈ render_data_set_ (this A_and_B) →
  ∃ rd, heap A_and_B !! q = Some rd ∧ enabled rd = true
        ∧ so_enabled (owner_object rd) = true.
Proof.
  assert (render_data_set_ (this A_and_B) = {[pA; pB]}) as ->
    by (vm_compute; reflexivity).
  rewrite elem_of_union, !elem_of_singleton. intros [-> | ->].
  - exists (synced A). split; [vm_compute; reflexivity|]. split; reflexivity.
  - exists (synced B). split; [vm_compute; reflexivity|]. split; reflexivity.
Qed.

Lemma C_and_A_live (q : ptr) :
  q ∈ render_data_set_ (this C_and_A) →
  is_Some (heap C_and_A !! q)
  ∧ mesh_ok (mesh_at (heap C_and_A) (this C_and_A) q).
Proof.
  assert (render_data_set_ (this C_and_A) = {[pA; pC]}) as ->
    by (vm_compute; reflexivity).
  rewrite elem_of_union, !elem_of_singleton. intros [-> | ->].
  - split; [exists (synced A); vm_compute; reflexivity | vm_compute; concrete].
  - split; [exists (synced C); vm_compute; reflexivity | vm_compute; concrete].
Qed.

(** The point cloud merged into the batch that holds [A]. *)
Lemma X1_updateMesh_appends_witness :
  mesh_ok cloud
  ∧ ∃ b', updateMesh (this with_A) cloud = Some b'
          ∧ vertices_ b' = vertices_ (this with_A) ++ vertices cloud
          ∧ index_count_ b'
            = to_int (index_count_ (this with_A) + vsize (indices cloud))
          ∧ render_data_set_ b' = render_data_set_ (this with_A).
Proof.
  assert (Hok : mesh_ok cloud) by (vm_compute; concrete).
  split; [exact Hok|].
  destruct (X1_updateMesh_appends float_of_int (this with_A) cloud Hok)
    as (b' & Hrun & (Hv & _) & (_ & _ & Hi & _) & (_ & _ & Hs & _)).
  exists b'. exact (conj Hrun (conj Hv (conj Hi Hs))).
Defined.

(** The triangle with one texture coordinate for three vertices. *)
Lemma X2_updateMesh_out_of_bounds_witness :
  (vsize (vertices bare) ≤ INT_MAX
   ∧ vsize (normals bare) ≤ INT_MAX
   ∧ vsize (indices bare) ≤ INT_MAX)
  ∧ (length (a_texcoord bare) < length (vertices bare))%nat
  ∧ updateMesh (this start) bare = None.
Proof.
  assert (Hv : vsize (vertices bare) ≤ INT_MAX) by (vm_compute; concrete).
  assert (Hn : vsize (normals bare) ≤ INT_MAX) by (vm_compute; concrete).
  assert (Hi : vsize (indices bare) ≤ INT_MAX) by (vm_compute; concrete).
  assert (Hshort : (length (a_texcoord bare) < length (vertices bare))%nat)
    by (vm_compute; concrete).
  split; [exact (conj Hv (conj Hn Hi))|].
  split; [exact Hshort|].
  exact (proj2 (X2_updateMesh_out_of_bounds float_of_int (this start) bare
                  Hv Hn Hi) Hshort).
Defined.

(** [B] rejected by the batch that holds [A]: its slot and matrix are
    recorded all the same. *)
Lemma X3_add_records_slot_witness :
  add pB with_A = Some (false, after (add pB with_A))
  ∧ matrix_index_map_ (this (after (add pB with_A))) !! pB
    = Some (draw_count_ (this with_A))
  ∧ ∃ rd,
      heap with_A !! pB = Some rd
      ∧ matrices_ (this (after (add pB with_A)))
        = matrices_ (this with_A)
          ++ [match transform (owner_object rd) with
              | Some m => m
              | None => identity
              end].
Proof.
  assert (Hadd : add pB with_A = Some (false, after (add pB with_A)))
    by (vm_compute; reflexivity).
  split; [exact Hadd|].
  destruct (X3_add_records_slot identity float_of_int pB with_A _ _ Hadd)
    as (rd & pass0 & Hrd & _ & _ & Hslot & _ & Hmat).
  split; [exact Hslot|].
  exists rd. exact (conj Hrd Hmat).
Defined.

(** [F], which has a pass that is not a texture shader, added to the empty
    batch. *)
Lemma X4_add_tracks_on_success_witness :
  add pF start = Some (true, after (add pF start))
  ∧ render_data_set_ (this (after (add pF start)))
    = {[pF]} ∪ render_data_set_ (this start)
  ∧ render_data_set_ (this start)
    ⊆ render_data_set_ (this (after (add pF start))).
Proof.
  assert (Hadd : add pF start = Some (true, after (add pF start)))
    by (vm_compute; reflexivity).
  split; [exact Hadd|].
  exact (X4_add_tracks_on_success identity float_of_int pF start _ _ Hadd).
Defined.

(** [D], with 12 indices, added to the empty batch of capacity 10. *)
Lemma X5_add_writes_one_renderable_witness :
  add pD start = Some (true, after (add pD start))
  ∧ (∀ q, q ≠ pD → heap (after (add pD start)) !! q = heap start !! q)
  ∧ freeBatch_calls (after (add pD start)) = freeBatch_calls start
  ∧ ∃ rd rd',
      heap start !! pD = Some rd
      ∧ heap (after (add pD start)) !! pD = Some rd'
      ∧ renderdata_dirty rd' = false
      ∧ rd_mesh rd' = rd_mesh rd.
Proof.
  assert (Hadd : add pD start = Some (true, after (add pD start)))
    by (vm_compute; reflexivity).
  split; [exact Hadd|].
  destruct (X5_add_writes_one_renderable identity float_of_int pD start _ _ Hadd)
    as (Hothers & Hfree & rd & rd' & Hrd & Hrd' & Hdirty & _ & Hmesh & _).
  split; [exact Hothers|]. split; [exact Hfree|].
  exists rd, rd'. exact (conj Hrd (conj Hrd' (conj Hdirty Hmesh))).
Defined.

(** [A] merged into the empty batch: the batch takes a prototype. *)
Lemma X6_add_prototype_witness :
  add pA start = Some (true, with_A)
  ∧ ∃ rd,
      heap start !! pA = Some rd
      ∧ renderdata_ (this with_A)
        = match renderdata_ (this start) with
          | Some proto => Some proto
          | None =>
              if (draw_count_ (this start) =? 0)
                 && negb (draw_count_ (this with_A) =? draw_count_ (this start))
              then Some (set_batching true (synced rd))
              else None
          end.
Proof.
  assert (Hadd : add pA start = Some (true, with_A))
    by (vm_compute; reflexivity).
  split; [exact Hadd|].
  exact (X6_add_prototype identity float_of_int pA start _ _ Hadd).
Defined.

(** [B] offered to the roomy batch that holds [A]: it fits. *)
Lemma X7_add_merges_iff_witness :
  (heap roomy_A !! pB = Some B
   ∧ rd_passes B !! 0%nat = Some (texture_pass 12)
   ∧ mesh_ok (resolve_mesh (this roomy_A) (rd_mesh B))
   ∧ 0 ≤ index_count_ (this roomy_A) ≤ INT_MAX
   ∧ 0 ≤ indices_limit_ (this roomy_A) ≤ INT_MAX)
  ∧ ∃ r st',
      add pB roomy_A = Some (r, st')
      ∧ r = true
      ∧ draw_count_ (this st') = to_int (draw_count_ (this roomy_A) + 1)
      ∧ draw_count_ (this st') ≠ draw_count_ (this roomy_A).
Proof.
  assert (Hp : heap roomy_A !! pB = Some B) by (vm_compute; reflexivity).
  assert (Hpass : rd_passes B !! 0%nat = Some (texture_pass 12)) by reflexivity.
  assert (Hok : mesh_ok (resolve_mesh (this roomy_A) (rd_mesh B)))
    by (vm_compute; concrete).
  assert (Hic : 0 ≤ index_count_ (this roomy_A) ≤ INT_MAX)
    by (vm_compute; concrete).
  assert (Hlim : 0 ≤ indices_limit_ (this roomy_A) ≤ INT_MAX)
    by (vm_compute; concrete).
  split; [exact (conj Hp (conj Hpass (conj Hok (conj Hic Hlim))))|].
  pose proof (X7_add_merges_iff identity float_of_int pB roomy_A B
                (texture_pass 12) Hp Hpass Hok Hic Hlim) as Hmerge.
  cbv zeta in Hmerge.
  destruct Hmerge as (r & st' & Hadd & Hiff & Hfits & _).
  exists r, st'.
  assert (Hmoved : draw_count_ (this st') ≠ draw_count_ (this roomy_A)).
  { apply (proj1 Hiff). clear. vm_compute. concrete. }
  destruct (Hfits (proj2 Hiff Hmoved)) as (Hr & Hdraw & _).
  exact (conj Hadd (conj Hr (conj Hdraw Hmoved))).
Defined.

(** [C], which opts out of batching, added to the empty batch. *)
Lemma X8_add_not_batched_witness :
  add pC start = Some (true, with_C)
  ∧ ∃ rd',
      heap with_C !! pC = Some rd'
      ∧ not_batched_ (this with_C)
        = not_batched_ (this start) || negb (batching rd').
Proof.
  assert (Hadd : add pC start = Some (true, with_C))
    by (vm_compute; reflexivity).
  split; [exact Hadd|].
  exact (X8_add_not_batched identity float_of_int pC start _ _ Hadd).
Defined.

(** A refresh of the roomy batch that holds [A] and [B]. *)
Lemma X9_setupMesh_frame_witness :
  setupMesh true A_and_B = Some (true, after (setupMesh true A_and_B))
  ∧ render_data_set_ (this (after (setupMesh true A_and_B)))
    ⊆ render_data_set_ (this A_and_B)
  ∧ indices_limit_ (this (after (setupMesh true A_and_B)))
    = indices_limit_ (this A_and_B)
  ∧ batch_dirty_ (this (after (setupMesh true A_and_B))) = false
  ∧ mesh_init_ (this (after (setupMesh true A_and_B))) = true.
Proof.
  assert (Hrun : setupMesh true A_and_B
                 = Some (true, after (setupMesh true A_and_B)))
    by (vm_compute; reflexivity).
  split; [exact Hrun|].
  destruct (X9_setupMesh_frame identity float_of_int true true A_and_B _ Hrun)
    as (Hsub & _ & Hil & _ & _ & Hdirty & _ & _ & Hinit).
  exact (conj Hsub (conj Hil (conj Hdirty (Hinit eq_refl)))).
Defined.

(** [B] disabled in the batch that holds [A] and [B], and the batch
    refreshed with the dirty argument set. *)
Lemma X10_setupMesh_evicts_the_disabled_witness :
  ((∀ q, q ∈ render_data_set_ (this B_disabled) →
         is_Some (heap B_disabled !! q))
   ∧ (∀ q, q ∈ render_data_set_ (this B_disabled) →
           disabled (heap B_disabled) q = false →
           mesh_ok (mesh_at (heap B_disabled) (this B_disabled) q)))
  ∧ ∃ r st',
      setupMesh true B_disabled = Some (r, st')
      ∧ (∀ q, q ∈ render_data_set_ (this st')
              ↔ (q ∈ render_data_set_ (this B_disabled)
                 ∧ disabled (heap B_disabled) q = false))
      ∧ heap st' !! pB
        = (λ rd, setBatchNull (set_batching false rd)) <$> heap B_disabled !! pB.
Proof.
  assert (Hlive : ∀ q, q ∈ render_data_set_ (this B_disabled) →
            is_Some (heap B_disabled !! q)).
  { intros q Hq. apply B_disabled_members in Hq as [-> | ->];
      eexists; vm_compute; reflexivity. }
  assert (Hmeshes : ∀ q, q ∈ render_data_set_ (this B_disabled) →
            disabled (heap B_disabled) q = false →
            mesh_ok (mesh_at (heap B_disabled) (this B_disabled) q)).
  { intros q Hq _. apply B_disabled_members in Hq as [-> | ->];
      vm_compute; concrete. }
  assert (Hp : pB ∈ render_data_set_ (this B_disabled))
    by (apply (bool_decide_unpack _); vm_compute; exact I).
  assert (Hdis : disabled (heap B_disabled) pB = true)
    by (vm_compute; reflexivity).
  split; [exact (conj Hlive Hmeshes)|].
  destruct (X10_setupMesh_evicts_the_disabled identity float_of_int true
              B_disabled Hlive Hmeshes)
    as (r & st' & Hrun & Hset & _ & Hevicted & _).
  exists r, st'. exact (conj Hrun (conj Hset (Hevicted pB Hp Hdis))).
Defined.

(** A first refresh of the roomy batch that holds [A] and [B], both
    enabled. *)
Lemma X11_setupMesh_quiet_witness :
  (render_data_set_ (this A_and_B) ≠ ∅
   ∧ ∀ q, q ∈ render_data_set_ (this A_and_B) →
          ∃ rd, heap A_and_B !! q = Some rd ∧ enabled rd = true
                ∧ so_enabled (owner_object rd) = true)
  ∧ ∃ st',
      setupMesh false A_and_B = Some (true, st')
      ∧ vertices_ (this st') = vertices_ (this A_and_B)
      ∧ mesh_init_ (this st') = true.
Proof.
  assert (Hsome : render_data_set_ (this A_and_B) ≠ ∅).
  { intros Heq. apply (f_equal size) in Heq. vm_compute in Heq.
    discriminate Heq. }
  split; [exact (conj Hsome A_and_B_live)|].
  destruct (X11_setupMesh_quiet identity float_of_int A_and_B Hsome A_and_B_live)
    as (st' & Hrun & _ & (Hv & _) & Hinit & _).
  exists st'. exact (conj Hrun (conj Hv Hinit)).
Defined.

(** A regeneration of the batch that tracks [C] and has merged [A]. *)
Lemma X12_regeneration_aligns_slots_witness :
  (∀ q, q ∈ render_data_set_ (this C_and_A) →
        is_Some (heap C_and_A !! q)
        ∧ mesh_ok (mesh_at (heap C_and_A) (this C_and_A) q))
  ∧ ∃ st',
      regenerateMeshData C_and_A = Some st'
      ∧ length (matrices_ (this st')) = size (render_data_set_ (this C_and_A))
      ∧ draw_count_ (this st')
        = to_int (Z.of_nat (size (render_data_set_ (this C_and_A)))).
Proof.
  split; [exact C_and_A_live|].
  destruct (X12_regeneration_aligns_slots identity float_of_int C_and_A
              C_and_A_live)
    as (st' & Hrun & Hlen & Hdraw & _).
  exists st'. exact (conj Hrun (conj Hlen Hdraw)).
Defined.

(** [F], which is not merged, added to the roomy batch that holds [A]. *)
Lemma X13_add_alignment_witness :
  (add pF roomy_A = Some (true, after (add pF roomy_A))
   ∧ vsize (matrices_ (this roomy_A)) = draw_count_ (this roomy_A)
   ∧ draw_count_ (this roomy_A) < INT_MAX)
  ∧ draw_count_ (this (after (add pF roomy_A))) = draw_count_ (this roomy_A)
  ∧ vsize (matrices_ (this (after (add pF roomy_A))))
    = draw_count_ (this (after (add pF roomy_A))) + 1.
Proof.
  assert (Hadd : add pF roomy_A = Some (true, after (add pF roomy_A)))
    by (vm_compute; reflexivity).
  assert (Hlen : vsize (matrices_ (this roomy_A)) = draw_count_ (this roomy_A))
    by (vm_compute; reflexivity).
  assert (Hmax : draw_count_ (this roomy_A) < INT_MAX)
    by (vm_compute; reflexivity).
  assert (Hsame : draw_count_ (this (after (add pF roomy_A)))
                  = draw_count_ (this roomy_A))
    by (vm_compute; reflexivity).
  split; [exact (conj Hadd (conj Hlen Hmax))|].
  split; [exact Hsame|].
  exact (proj2 (proj2 (X13_add_alignment identity float_of_int pF roomy_A _ _
                         Hadd Hlen Hmax)) Hsame).
Defined.

(** The batch that holds [A], refreshed. *)
Lemma X14_merged_mesh_up_to_date_witness :
  (reachable identity float_of_int with_A
   ∧ setupMesh false with_A = Some (true, after (setupMesh false with_A)))
  ∧ mesh_ (this (after (setupMesh false with_A)))
    = {| indices := indices_ (this (after (setupMesh false with_A)));
         vertices := vertices_ (this (after (setupMesh false with_A)));
         normals := normals_ (this (after (setupMesh false with_A)));
         a_texcoord := tex_coords_ (this (after (setupMesh false with_A)));
         a_matrix_index :=
           matrix_indices_ (this (after (setupMesh false with_A))) |}.
Proof.
  assert (Hreach : reachable identity float_of_int with_A).
  { apply (reach_add identity float_of_int start pA true with_A).
    - apply (reach_ctor identity float_of_int 6 10 scene (empty_batch 6 10) 0%nat).
      reflexivity.
    - vm_compute. reflexivity. }
  assert (Hrun : setupMesh false with_A
                 = Some (true, after (setupMesh false with_A)))
    by (vm_compute; reflexivity).
  split; [exact (conj Hreach Hrun)|].
  exact (proj1 (proj2 (X14_merged_mesh_up_to_date identity float_of_int with_A
                         Hreach) false _ Hrun)).
Defined.

(** [A] and [B] merged, [B] disabled by the scene, the batch refreshed. *)
Lemma X15_per_vertex_buffers_parallel_witness :
  reachable identity float_of_int (after (setupMesh false B_disabled))
  ∧ length (tex_coords_ (this (after (setupMesh false B_disabled))))
    = length (vertices_ (this (after (setupMesh false B_disabled))))
  ∧ length (matrix_indices_ (this (after (setupMesh false B_disabled))))
    = length (vertices_ (this (after (setupMesh false B_disabled))))
  ∧ index_offset_ (this (after (setupMesh false B_disabled)))
    = vertex_count_ (this (after (setupMesh false B_disabled))).
Proof.
  assert (Hreach :
            reachable identity float_of_int (after (setupMesh false B_disabled))).
  { apply (reach_setupMesh identity float_of_int B_disabled false true).
    - unfold B_disabled, disable_at.
      apply (reach_scene identity float_of_int
               (after (add pB (after (add pA roomy)))) _).
      apply (reach_add identity float_of_int (after (add pA roomy)) pB true _).
      + apply (reach_add identity float_of_int roomy pA true _).
        * apply (reach_ctor identity float_of_int 100 100 scene
                   (empty_batch 100 100) 0%nat).
          reflexivity.
        * vm_compute. reflexivity.
      + vm_compute. reflexivity.
    - vm_compute. reflexivity. }
  split; [exact Hreach|].
  exact (X15_per_vertex_buffers_parallel identity float_of_int _ Hreach).
Defined.

(** The batch emptied of [A] is reset, then offered [B]; a batch of capacity
    6 and 10 just constructed is offered [B] as well. *)
Lemma X16_reset_batch_reusable_witness :
  (render_data_set_ (this emptied) = ∅
   ∧ heap emptied !! pB = Some B
   ∧ rd_passes B !! 0%nat = Some (texture_pass 12)
   ∧ rd_mesh B = SceneMesh quad
   ∧ mesh_ok quad)
  ∧ ∃ r stF stR,
      add pB {| heap := heap emptied;
                this := empty_batch (vertex_limit_ (this emptied))
                          (indices_limit_ (this emptied));
                freeBatch_calls := freeBatch_calls emptied |}
      = Some (r, stF)
      ∧ add pB (resetBatch emptied) = Some (r, stR)
      ∧ heap stR = heap stF
      ∧ this stR
        = set_not_batched_
            (not_batched_ (this emptied) || not_batched_ (this stF))
            (set_mesh_ (mesh_ (this emptied)) (this stF)).
Proof.
  assert (Hempty : render_data_set_ (this emptied) = ∅)
    by (vm_compute; reflexivity).
  assert (Hp : heap emptied !! pB = Some B) by (vm_compute; reflexivity).
  assert (Hpass : rd_passes B !! 0%nat = Some (texture_pass 12)) by reflexivity.
  assert (Hmesh : rd_mesh B = SceneMesh quad) by reflexivity.
  assert (Hok : mesh_ok quad) by (vm_compute; concrete).
  split; [exact (conj Hempty (conj Hp (conj Hpass (conj Hmesh Hok))))|].
  exact (X16_reset_batch_reusable identity float_of_int pB emptied B
           (texture_pass 12) quad Hempty Hp Hpass Hmesh Hok).
Defined.

(** The batch of capacity 10 indices that tracks [C] and has merged [A]:
    a regeneration merges 12 indices. *)
Lemma X17_regeneration_ignores_capacity_witness :
  ((∀ q, q ∈ render_data_set_ (this C_and_A) →
         is_Some (heap C_and_A !! q)
         ∧ mesh_ok (mesh_at (heap C_and_A) (this C_and_A) q))
   ∧ indices_limit_ (this C_and_A)
     < total (λ m, vsize (indices m))
         (map (mesh_at (heap C_and_A) (this C_and_A))
            (elements (render_data_set_ (this C_and_A))))
     ≤ INT_MAX)
  ∧ ∃ st',
      regenerateMeshData C_and_A = Some st'
      ∧ indices_limit_ (this st') = indices_limit_ (this C_and_A)
      ∧ indices_limit_ (this st') < index_count_ (this st').
Proof.
  assert (Hover : indices_limit_ (this C_and_A)
                  < total (λ m, vsize (indices m))
                      (map (mesh_at (heap C_and_A) (this C_and_A))
                         (elements (render_data_set_ (this C_and_A))))
                  ≤ INT_MAX)
    by (vm_compute; concrete).
  split; [exact (conj C_and_A_live Hover)|].
  pose proof (X17_regeneration_ignores_capacity identity float_of_int C_and_A
                C_and_A_live) as Hregen.
  cbv zeta in Hregen.
  destruct Hregen as (st' & Hrun & _ & _ & Hil & _ & Hexceeds).
  exists st'. exact (conj Hrun (conj Hil (Hexceeds Hover))).
Defined.

Example C_and_A_regenerated :
  (λ st, (index_count_ (this st), indices_limit_ (this st),
          vertex_count_ (this st), vertex_limit_ (this st)))
    <$> regenerateMeshData C_and_A
  = Some (12, 10, 8, 6).
Proof. vm_compute. reflexivity. Qed.

End Scenarios.
